(** * PyFed: HTTP signatures, key rotation, rate limiting, delivery and queue

    A shallow embedding of the federation core of PyFed
    (src/pyfed/security/http_signatures.py, security/key_management.py,
    federation/rate_limit.py, federation/delivery.py, federation/queue.py,
    cache/memory_cache.py, serializers/json_serializer.py) together with the
    properties of the specification that concern it.

    Conventions.
    - A Python [str] is a [string] whose characters are code points below 256.
    - A Python [int] is a [Z].
    - A [datetime] is a [Z]: microseconds on the time line.  The two clocks
      the code reads, [datetime.utcnow()] and [datetime.now()], are the two
      fields of an [Instant].
    - A Python [dict] whose iteration order matters is a [pydict]
      (insertion-ordered association list); a dict used purely as a lookup
      table is a stdpp [gmap].
    - Code that may raise returns a [result]. *)

From Stdlib Require Import ZArith List String Ascii Bool Lia.
From stdpp Require Import base option list gmap strings pretty.

Local Open Scope string_scope.
Local Open Scope list_scope.
Local Open Scope Z_scope.

(* ===================================================================== *)
(** * Exceptions                                                          *)
(* ===================================================================== *)

(** utils/exceptions.py and the built-in exceptions the modelled code meets. *)
Inductive exception : Type :=
| SignatureError
| KeyManagementError
| QueueError
| ValueError
| TypeError
| KeyError
| AttributeError
| TimeoutError
| OverflowError
| OSError.

Inductive result (A : Type) : Type :=
| Ok (a : A)
| Raise (e : exception).
Arguments Ok {A} a.
Arguments Raise {A} e.

#[global] Instance result_ret : MRet result := fun A a => Ok a.

#[global] Instance result_bind : MBind result := fun A B k r =>
  match r with
  | Ok a => k a
  | Raise e => Raise e
  end.

Definition is_ok {A : Type} (r : result A) : bool :=
  match r with Ok _ => true | Raise _ => false end.

(* ===================================================================== *)
(** * Time                                                                *)
(* ===================================================================== *)

Abbreviation datetime := Z (only parsing).

(** One reading of the host's clocks, with what [datetime.fromtimestamp]
    answers on that host. *)
Record Instant : Type := {
  utcnow : datetime;   (* datetime.utcnow() *)
  now : datetime;      (* datetime.now() *)
  (* datetime.fromtimestamp(ts): the local time of the POSIX time stamp ts,
     at the UTC offset in force at that time, or the exception it raises *)
  local_time : Z -> result datetime
}.

Definition timedelta_seconds (s : Z) : Z := s * 1000000.
Definition timedelta_minutes (m : Z) : Z := timedelta_seconds (m * 60).
Definition timedelta_days (d : Z) : Z := timedelta_seconds (d * 86400).

(** The first and the last second whose year the C library's [localtime]
    can hold in an [int]. *)
Definition localtime_min : Z := -67768040609740800.
Definition localtime_max : Z := 67768036191676799.

(** [datetime.fromtimestamp(ts)] for an integer [ts] on a host (Linux, a
    64-bit [time_t]) whose local time is [tz] microseconds ahead of UTC at
    all times.  Outside [time_t] it raises [OverflowError]; where
    [localtime] fails, [OSError]; and [ValueError] where the local year is
    not one of 1..9999, or where the time a day earlier, which is read to
    detect a repeated hour, falls before the year 1. *)
Definition fromtimestamp_fixed (tz ts : Z) : result datetime :=
  let local := timedelta_seconds ts + tz in
  if (ts <? - 2 ^ 63) || (2 ^ 63 <=? ts) then Raise OverflowError
  else if (ts <? localtime_min) || (localtime_max <? ts)
          || (local <? timedelta_seconds localtime_min)
          || (timedelta_seconds localtime_max <? local)
  then Raise OSError
  else if (local <? timedelta_seconds (-62135596800 + 86400))
          || (timedelta_seconds 253402300799 <? local)
  then Raise ValueError
  else Ok local.

(** The instant at UTC time [t] of a host whose local time is [tz] ahead. *)
Definition at_utc (tz t : Z) : Instant :=
  {| utcnow := t; now := t + tz; local_time := fromtimestamp_fixed tz |}.

(* ===================================================================== *)
(** * Python strings                                                      *)
(* ===================================================================== *)

Module PyStr.

Definition code (c : ascii) : Z := Z.of_nat (nat_of_ascii c).

(** [str.isspace] on code points below 256. *)
Definition is_space (c : ascii) : bool :=
  let n := code c in
  ((9 <=? n) && (n <=? 13)) || ((28 <=? n) && (n <=? 32))
  || (n =? 133) || (n =? 160).

(** [str.lower] on one code point below 256. *)
Definition lower_char (c : ascii) : ascii :=
  let n := code c in
  if ((65 <=? n) && (n <=? 90))
     || ((192 <=? n) && (n <=? 214)) || ((216 <=? n) && (n <=? 222))
  then ascii_of_nat (Z.to_nat (n + 32)) else c.

Fixpoint lower (s : string) : string :=
  match s with
  | EmptyString => EmptyString
  | String c s' => String (lower_char c) (lower s')
  end.

Fixpoint contains (c : ascii) (s : string) : bool :=
  match s with
  | EmptyString => false
  | String a s' => Ascii.eqb a c || contains c s'
  end.

Definition is_empty (s : string) : bool :=
  match s with EmptyString => true | _ => false end.

Fixpoint lstrip (p : ascii -> bool) (s : string) : string :=
  match s with
  | EmptyString => EmptyString
  | String c s' => if p c then lstrip p s' else s
  end.

Fixpoint rstrip (p : ascii -> bool) (s : string) : string :=
  match s with
  | EmptyString => EmptyString
  | String c s' =>
      let r := rstrip p s' in
      if p c && is_empty r then EmptyString else String c r
  end.

(** [s.strip()] is [strip is_space s]; stripping spaces and double quotes,
    as verify_request does with the component values, is
    [strip quote_or_space s]. *)
Definition strip (p : ascii -> bool) (s : string) : string :=
  rstrip p (lstrip p s).

Definition dquote : ascii := "034"%char.

Definition quote_or_space (c : ascii) : bool :=
  Ascii.eqb c " " || Ascii.eqb c dquote.

(** [s.split(c)] for a one-character separator. *)
Fixpoint split_on (c : ascii) (s : string) : list string :=
  match s with
  | EmptyString => [EmptyString]
  | String a s' =>
      if Ascii.eqb a c then EmptyString :: split_on c s'
      else match split_on c s' with
           | [] => [String a EmptyString]
           | h :: t => String a h :: t
           end
  end.

(** [s.split(c, 1)] when [c] occurs in [s]: the text before the first [c]
    and the text after it. *)
Fixpoint split_once (c : ascii) (s : string) : option (string * string) :=
  match s with
  | EmptyString => None
  | String a s' =>
      if Ascii.eqb a c then Some (EmptyString, s')
      else match split_once c s' with
           | Some (k, v) => Some (String a k, v)
           | None => None
           end
  end.

(** [s.split()]: the maximal runs of non-space characters.  The helper
    returns the run that starts the text (empty when the text starts with a
    space) and the runs after it. *)
Fixpoint split_ws_go (s : string) : string * list string :=
  match s with
  | EmptyString => (EmptyString, [])
  | String c s' =>
      let '(t, ts) := split_ws_go s' in
      if is_space c then (EmptyString, if is_empty t then ts else t :: ts)
      else (String c t, ts)
  end.

Definition split_ws (s : string) : list string :=
  let '(t, ts) := split_ws_go s in
  if is_empty t then ts else t :: ts.

(** [sep.join(l)]. *)
Fixpoint join (sep : string) (l : list string) : string :=
  match l with
  | [] => EmptyString
  | [x] => x
  | x :: rest => x +:+ sep +:+ join sep rest
  end.

(** The white space [int] accepts around a number: the ASCII characters
    tab to carriage return and space, and the two white-space characters
    above 127.  The separators 28 to 31, which [str.strip] takes off, make
    [int] raise. *)
Definition is_int_space (c : ascii) : bool :=
  let n := code c in
  ((9 <=? n) && (n <=? 13)) || (n =? 32) || (n =? 133) || (n =? 160).

(** [int(s)] for a [str]: surrounding white space, an optional sign, decimal
    digits, single underscores between digits. *)
Definition digit_val (c : ascii) : option Z :=
  let n := code c in
  if (48 <=? n) && (n <=? 57) then Some (n - 48) else None.

Fixpoint parse_digits (s : string) (acc : Z) (after_digit : bool) : option Z :=
  match s with
  | EmptyString => if after_digit then Some acc else None
  | String c s' =>
      match digit_val c with
      | Some d => parse_digits s' (10 * acc + d) true
      | None =>
          if Ascii.eqb c "_" && after_digit then parse_digits s' acc false
          else None
      end
  end.

(** The number of digits [int] reads from a text by default
    ([sys.int_info.default_max_str_digits]); sign and underscores are not
    counted, leading zeros are. *)
Definition max_str_digits : Z := 4300.

Definition count_digits (s : string) : Z :=
  Z.of_nat (length (List.filter (fun c => match digit_val c with
                                     | Some _ => true
                                     | None => false
                                     end) (list_ascii_of_string s))).

Definition py_int (s : string) : result Z :=
  let body := strip is_int_space s in
  let parsed :=
    match body with
    | String "-" rest => option_map Z.opp (parse_digits rest 0 false)
    | String "+" rest => parse_digits rest 0 false
    | _ => parse_digits body 0 false
    end in
  match parsed with
  | Some z => if max_str_digits <? count_digits body then Raise ValueError else Ok z
  | None => Raise ValueError
  end.

End PyStr.

(* ===================================================================== *)
(** * Python dictionaries with their insertion order                      *)
(* ===================================================================== *)

Module PyDict.

Definition pydict (V : Type) : Type := list (string * V).

Fixpoint get {V : Type} (d : pydict V) (k : string) : option V :=
  match d with
  | [] => None
  | (k', v) :: d' => if String.eqb k' k then Some v else get d' k
  end.

Definition mem {V : Type} (k : string) (d : pydict V) : bool :=
  match get d k with Some _ => true | None => false end.

(** [d[k] = v]: an existing key keeps its place, a new key goes last. *)
(** [del d[k]] / [d.pop(k, None)]. *)
Fixpoint del {V : Type} (d : pydict V) (k : string) : pydict V :=
  match d with
  | [] => []
  | (k', v') :: d' =>
      if String.eqb k' k then del d' k else (k', v') :: del d' k
  end.

(** [d[k] = v]: an existing key keeps its place, a new key goes last. *)
Fixpoint set {V : Type} (d : pydict V) (k : string) (v : V) : pydict V :=
  match d with
  | [] => [(k, v)]
  | (k', v') :: d' =>
      if String.eqb k' k then (k', v) :: del d' k
      else (k', v') :: set d' k v
  end.

Definition keys {V : Type} (d : pydict V) : list string := map fst d.
Definition values {V : Type} (d : pydict V) : list V := map snd d.

(** [{f(k): v for k, v in d.items()}]. *)
Definition map_keys {V : Type} (f : string -> string) (d : pydict V) : pydict V :=
  fold_left (fun acc kv => set acc (f (fst kv)) (snd kv)) d [].

End PyDict.

(* ===================================================================== *)
(** * cache/memory_cache.py                                               *)
(* ===================================================================== *)

Module Cache.

(** [MemoryCache] keeps two dictionaries, [data] and [expires], which every
    method updates together, so they always have the same keys.  The model
    keeps one finite map from a key to the pair [(data[key], expires[key])]. *)
Record MemoryCache (V : Type) : Type := {
  entries : gmap string (V * datetime);
  ttl : Z   (* seconds *)
}.
Arguments entries {V} _.
Arguments ttl {V} _.

Definition new {V : Type} (ttl : Z) : MemoryCache V :=
  {| entries := ∅; ttl := ttl |}.

(** [get]: an entry whose expiry lies before the clock is dropped. *)
Definition get {V : Type} (c : MemoryCache V) (key : string) (i : Instant)
  : option V * MemoryCache V :=
  match entries c !! key with
  | None => (None, c)
  | Some (v, expires) =>
      if utcnow i >? expires
      then (None, {| entries := delete key (entries c); ttl := ttl c |})
      else (Some v, c)
  end.

(** [set] with the cache's own ttl (no caller of the modelled code passes
    one). *)
Definition set {V : Type} (c : MemoryCache V) (key : string) (v : V) (i : Instant)
  : MemoryCache V :=
  {| entries := <[key := (v, utcnow i + timedelta_seconds (ttl c))]> (entries c);
     ttl := ttl c |}.

Definition delete {V : Type} (c : MemoryCache V) (key : string) : MemoryCache V :=
  {| entries := base.delete key (entries c); ttl := ttl c |}.

Definition clear {V : Type} (c : MemoryCache V) : MemoryCache V :=
  {| entries := ∅; ttl := ttl c |}.

End Cache.

(* ===================================================================== *)
(** * federation/rate_limit.py                                            *)
(* ===================================================================== *)

Module RateLimit.

Inductive RateLimitStrategy : Type :=
| FIXED_WINDOW | SLIDING_WINDOW | TOKEN_BUCKET | LEAKY_BUCKET.

Record RateLimit : Type := {
  requests : Z;
  period : Z;          (* seconds *)
  burst : option Z
}.

Record RateLimitState : Type := {
  remaining : Z;
  reset : datetime;
  limit : Z
}.

Record RateLimiter : Type := {
  default_limit : RateLimit;
  strategy : RateLimitStrategy;
  cache : Cache.MemoryCache RateLimitState
}.

(** [RateLimiter.__init__]. *)
Definition new (default_limit : option RateLimit) (strategy : RateLimitStrategy)
    (ttl : Z) : RateLimiter :=
  {| default_limit :=
       match default_limit with
       | Some l => l
       | None => {| requests := 100; period := 60; burst := Some 20 |}
       end;
     strategy := strategy;
     cache := Cache.new ttl |}.

Definition cache_key (domain : string) : string := "ratelimit:" +:+ domain.
Arguments cache_key : simpl never.

Definition with_cache (rl : RateLimiter) (c : Cache.MemoryCache RateLimitState)
  : RateLimiter :=
  {| default_limit := default_limit rl; strategy := strategy rl; cache := c |}.

(** The state both [_get_state] and [check_rate_limit] build for a new
    window. *)
Definition fresh_state (rl : RateLimiter) (i : Instant) : RateLimitState :=
  {| remaining := requests (default_limit rl);
     reset := now i + timedelta_seconds (period (default_limit rl));
     limit := requests (default_limit rl) |}.

Definition _set_state (rl : RateLimiter) (domain : string) (state : RateLimitState)
    (i : Instant) : RateLimiter :=
  with_cache rl (Cache.set (cache rl) (cache_key domain) state i).

Definition _get_state (rl : RateLimiter) (domain : string) (i : Instant)
  : RateLimitState * RateLimiter :=
  match Cache.get (cache rl) (cache_key domain) i with
  | (Some state, c) => (state, with_cache rl c)
  | (None, c) =>
      let rl := with_cache rl c in
      let state := fresh_state rl i in
      (state, _set_state rl domain state i)
  end.

Definition check_rate_limit (rl : RateLimiter) (domain : string) (i : Instant)
  : bool * RateLimiter :=
  let '(state, rl) := _get_state rl domain i in
  if now i >=? reset state then
    (true, _set_state rl domain (fresh_state rl i) i)
  else if remaining state <=? 0 then
    (false, rl)
  else
    let state := {| remaining := remaining state - 1;
                    reset := reset state;
                    limit := limit state |} in
    (true, _set_state rl domain state i).

(** The wait is returned in microseconds ([total_seconds()] is that number
    divided by 10^6). *)
Definition get_wait_time (rl : RateLimiter) (domain : string) (i : Instant)
  : Z * RateLimiter :=
  let '(state, rl) := _get_state rl domain i in
  if remaining state >? 0 then (0, rl)
  else (Z.max 0 (reset state - now i), rl).

(** [datetime.fromtimestamp(ts)], as the host answers it at this instant. *)
Definition fromtimestamp (i : Instant) (ts : Z) : result datetime :=
  local_time i ts.

(** [headers_get] is [headers.get] of the mapping the caller passes. *)
Definition update_rate_limit (rl : RateLimiter) (domain : string)
    (headers_get : string -> option string) (i : Instant) : result RateLimiter :=
  match headers_get "X-RateLimit-Remaining",
        headers_get "X-RateLimit-Reset",
        headers_get "X-RateLimit-Limit" with
  | Some remaining, Some reset, Some limit =>
      r ← PyStr.py_int remaining;
      ts ← PyStr.py_int reset;
      t ← fromtimestamp i ts;
      l ← PyStr.py_int limit;
      Ok (_set_state rl domain {| remaining := r; reset := t; limit := l |} i)
  | _, _, _ => Ok rl
  end.

Definition clear (rl : RateLimiter) (domain : string) : RateLimiter :=
  with_cache rl (Cache.delete (cache rl) (cache_key domain)).

Definition clear_all (rl : RateLimiter) : RateLimiter :=
  with_cache rl (Cache.clear (cache rl)).

(** The state stored for a domain, expired or not. *)
Definition stored (rl : RateLimiter) (domain : string) : option RateLimitState :=
  fst <$> (Cache.entries (cache rl) !! cache_key domain).

(** A caller's operations on one limiter, each at its instant. *)
Inductive op : Type :=
| Check (domain : string) (i : Instant)
| Wait (domain : string) (i : Instant)
| Update (domain : string) (headers : PyDict.pydict string) (i : Instant).

(** An operation that raises leaves the limiter as it was. *)
Definition step (rl : RateLimiter) (o : op) : RateLimiter :=
  match o with
  | Check d i => snd (check_rate_limit rl d i)
  | Wait d i => snd (get_wait_time rl d i)
  | Update d h i =>
      match update_rate_limit rl d (PyDict.get h) i with
      | Ok rl' => rl'
      | Raise _ => rl
      end
  end.

Definition run (rl : RateLimiter) (ops : list op) : RateLimiter :=
  fold_left step ops rl.


End RateLimit.

(* ===================================================================== *)
(** * The libraries the code calls                                        *)
(* ===================================================================== *)

(** RSA keys are kept as the text that serialises them. *)
Abbreviation RSAPrivateKey := string (only parsing).
Abbreviation RSAPublicKey := string (only parsing).

(** What the modelled code uses of [hashlib], [base64], [cryptography] and
    [datetime]'s text formats.  The development is parametric in them. *)
Record Platform : Type := {
  (* hashlib.sha256(b).digest() *)
  sha256 : string -> string;
  (* base64.b64encode(b).decode() *)
  b64encode : string -> string;
  (* base64.b64decode(s); None when it raises binascii.Error *)
  b64decode : string -> option string;
  (* private_key.public_key() *)
  rsa_public_key : RSAPrivateKey -> RSAPublicKey;
  (* private_key.sign(message, PKCS1v15(), SHA256()) *)
  rsa_sign : RSAPrivateKey -> string -> string;
  (* public_key.verify(signature, message, PKCS1v15(), SHA256());
     false when it raises InvalidSignature *)
  rsa_verify : RSAPublicKey -> string -> string -> bool;
  (* d.strftime('%a, %d %b %Y %H:%M:%S GMT') *)
  strftime_http : datetime -> string;
  (* datetime.strptime(s, '%a, %d %b %Y %H:%M:%S GMT'); None when it raises *)
  strptime_http : string -> option datetime;
  (* urllib.parse.urlparse(url): its netloc and its path *)
  urlparse : string -> string * string
}.

(* ===================================================================== *)
(** * security/key_management.py                                          *)
(* ===================================================================== *)

Module KeyManagement.

Record KeyRotation : Type := {
  rotation_interval : Z;   (* days *)
  key_overlap : Z;         (* days *)
  key_size : Z
}.

(** [KeyRotation()] with its default arguments. *)
Definition default_rotation : KeyRotation :=
  {| rotation_interval := 30; key_overlap := 2; key_size := 2048 |}.

Record KeyPair : Type := {
  private_key : RSAPrivateKey;
  public_key : RSAPublicKey;
  created_at : datetime;
  expires_at : datetime;
  key_id : string
}.

Record KeyManager : Type := {
  domain : string;
  keys_path : string;
  rotation_config : KeyRotation;
  active_keys : PyDict.pydict KeyPair
}.

Definition with_active_keys (km : KeyManager) (keys : PyDict.pydict KeyPair)
  : KeyManager :=
  {| domain := domain km; keys_path := keys_path km;
     rotation_config := rotation_config km; active_keys := keys |}.

(** [KeyManager.__init__]. *)
Definition new (domain keys_path : string) (rotation_config : option KeyRotation)
  : KeyManager :=
  {| domain := domain; keys_path := keys_path;
     rotation_config := match rotation_config with
                        | Some c => c
                        | None => default_rotation
                        end;
     active_keys := [] |}.

(** What one [generate_key_pair] call meets outside the manager: the clock,
    the key the RSA generator returns (or its exception), and whether the
    three files can be written. *)
Record GenEnv : Type := {
  gen_clock : Instant;
  gen_private : result RSAPrivateKey;
  gen_save_ok : bool
}.

(** [int(created_at.timestamp())]: [created_at] is a naive UTC time, which
    [timestamp()] reads as a local time. *)
Definition timestamp_of (i : Instant) : Z :=
  Z.quot (utcnow i - (now i - utcnow i)) 1000000.

Definition make_key_id (domain : string) (i : Instant) : string :=
  "https://" +:+ domain +:+ "/keys/" +:+ pretty (timestamp_of i).

(** The pair [generate_key_pair] builds from a generated private key. *)
Definition make_pair (P : Platform) (km : KeyManager) (i : Instant)
    (priv : RSAPrivateKey) : KeyPair :=
  {| private_key := priv;
     public_key := rsa_public_key P priv;
     created_at := utcnow i;
     expires_at := utcnow i + timedelta_days (rotation_interval (rotation_config km));
     key_id := make_key_id (domain km) i |}.

(** Every exception leaves as [KeyManagementError]; the pair joins the
    active set only after it was saved. *)
Definition generate_key_pair (P : Platform) (km : KeyManager) (env : GenEnv)
  : KeyManager * result KeyPair :=
  match gen_private env with
  | Raise _ => (km, Raise KeyManagementError)
  | Ok priv =>
      let key_pair := make_pair P km (gen_clock env) priv in
      if gen_save_ok env then
        (with_active_keys km (PyDict.set (active_keys km) (key_id key_pair) key_pair),
         Ok key_pair)
      else (km, Raise KeyManagementError)
  end.

(** What one [rotate_keys] call meets: the environment of its
    [generate_key_pair], the clock read after it, and for each key id whether
    its files can be archived. *)
Record RotateEnv : Type := {
  rot_gen : GenEnv;
  rot_clock : Instant;
  rot_archive_ok : string -> bool
}.

Definition is_expired (km : KeyManager) (i : Instant) (pair : KeyPair) : bool :=
  expires_at pair
  <? utcnow i - timedelta_days (key_overlap (rotation_config km)).

(** The loop over the expired ids: archive, then delete from the active set;
    the first archive that fails ends the rotation. *)
Fixpoint archive_all (archive_ok : string -> bool) (keys : PyDict.pydict KeyPair)
    (expired : list string) : PyDict.pydict KeyPair * result unit :=
  match expired with
  | [] => (keys, Ok tt)
  | kid :: rest =>
      if archive_ok kid then archive_all archive_ok (PyDict.del keys kid) rest
      else (keys, Raise KeyManagementError)
  end.

Definition rotate_keys (P : Platform) (km : KeyManager) (env : RotateEnv)
  : KeyManager * result unit :=
  match generate_key_pair P km (rot_gen env) with
  | (km, Raise _) => (km, Raise KeyManagementError)
  | (km, Ok new_pair) =>
      let expired :=
        map fst (List.filter (fun kv => is_expired km (rot_clock env) (snd kv))
                             (active_keys km)) in
      let '(keys, r) := archive_all (rot_archive_ok env) (active_keys km) expired in
      (with_active_keys km keys, r)
  end.

(** [max(values, key=...)]: the first of the values whose key is largest. *)
Fixpoint max_by {A : Type} (key : A -> Z) (best : A) (l : list A) : A :=
  match l with
  | [] => best
  | x :: l' => if key x >? key best then max_by key x l' else max_by key best l'
  end.

Definition get_active_key (km : KeyManager) : result KeyPair :=
  match PyDict.values (active_keys km) with
  | [] => Raise KeyManagementError
  | k :: ks => Ok (max_by created_at k ks)
  end.

Definition get_active_private_key (km : KeyManager) : result RSAPrivateKey :=
  match PyDict.values (active_keys km) with
  | [] => Raise KeyManagementError
  | k :: ks => Ok (private_key (max_by created_at k ks))
  end.

End KeyManagement.

(* ===================================================================== *)
(** * json.dumps and serializers/json_serializer.py                        *)
(* ===================================================================== *)

Module Json.

(** The values an activity body is made of (no floats). *)
#[warnings="-register-all"]
Inductive json : Type :=
| JNull
| JBool (b : bool)
| JInt (z : Z)
| JStr (s : string)
| JList (items : list json)
| JDict (items : list (string * json)).

Definition backslash : ascii := "092"%char.

Definition hex_digit (n : Z) : ascii :=
  ascii_of_nat (Z.to_nat (if n <? 10 then 48 + n else 87 + n)).

(** One character of a string under [ensure_ascii=True]. *)
Definition escape_char (c : ascii) : string :=
  let n := PyStr.code c in
  if Ascii.eqb c PyStr.dquote then String backslash (String PyStr.dquote EmptyString)
  else if Ascii.eqb c backslash then String backslash (String backslash EmptyString)
  else if n =? 10 then String backslash "n"
  else if n =? 13 then String backslash "r"
  else if n =? 9 then String backslash "t"
  else if n =? 8 then String backslash "b"
  else if n =? 12 then String backslash "f"
  else if (n <? 32) || (126 <? n) then
    String backslash
      (String "u" (String "0" (String "0"
        (String (hex_digit (n / 16)) (String (hex_digit (n mod 16)) EmptyString)))))
  else String c EmptyString.

Fixpoint escape (s : string) : string :=
  match s with
  | EmptyString => EmptyString
  | String c s' => escape_char c +:+ escape s'
  end.

Definition encode_str (s : string) : string :=
  String PyStr.dquote (escape s +:+ String PyStr.dquote EmptyString).

(** [sort_keys=True]: the items in the order of their keys (insertion sort;
    the keys of a dict are distinct). *)
Fixpoint insert_item (kv : string * string) (l : list (string * string))
  : list (string * string) :=
  match l with
  | [] => [kv]
  | kv' :: l' =>
      if String.leb (fst kv) (fst kv') then kv :: l else kv' :: insert_item kv l'
  end.

Definition sort_items (l : list (string * string)) : list (string * string) :=
  fold_right insert_item [] l.

(** [json.dumps(j, sort_keys=True, separators=(item_sep, key_sep))]. *)
Fixpoint dumps (item_sep key_sep : string) (j : json) : string :=
  match j with
  | JNull => "null"
  | JBool true => "true"
  | JBool false => "false"
  | JInt z => pretty z
  | JStr s => encode_str s
  | JList items =>
      "[" +:+ PyStr.join item_sep (List.map (dumps item_sep key_sep) items) +:+ "]"
  | JDict items =>
      let rendered :=
        List.map (fun kv => match kv with
                            | (k, v) => (k, dumps item_sep key_sep v)
                            end) items in
      "{" +:+ PyStr.join item_sep
                (List.map (fun kv => encode_str (fst kv) +:+ key_sep +:+ snd kv)
                          (sort_items rendered))
          +:+ "}"
  end.

(** [json.dumps(data, sort_keys=True)]: the default separators. *)
Definition dumps_default (j : json) : string := dumps ", " ": " j.

(** [ActivityPubSerializer.to_json_string]:
    [sort_keys=True, ensure_ascii=True, separators=(',', ':')]. *)
Definition to_json_string (j : json) : string := dumps "," ":" j.

End Json.

(* ===================================================================== *)
(** * security/http_signatures.py                                         *)
(* ===================================================================== *)

Module HttpSignatures.

(** [key_manager] holds the current state of the manager the verifier
    refers to.  [private_key] and [public_key] are attributes the
    constructor sets only when it loads key files; reading an attribute
    that was not set raises. *)
Record HTTPSignatureVerifier : Type := {
  key_manager : option KeyManagement.KeyManager;
  private_key : option RSAPrivateKey;
  public_key : option RSAPublicKey;
  key_id : option string;
  _test_now : option datetime
}.

Definition set_test_time (self : HTTPSignatureVerifier) (test_time : datetime)
  : HTTPSignatureVerifier :=
  {| key_manager := key_manager self; private_key := private_key self;
     public_key := public_key self; key_id := key_id self;
     _test_now := Some test_time |}.

Definition newline : string := String "010"%char EmptyString.

Definition quoted (s : string) : string :=
  String PyStr.dquote (s +:+ String PyStr.dquote EmptyString).

Definition request_target_line (method path : string) : string :=
  "(request-target): " +:+ PyStr.lower method +:+ " " +:+ path.

(** [_generate_digest]. *)
Definition _generate_digest (P : Platform) (body : Json.json) : string :=
  "SHA-256=" +:+ b64encode P (sha256 P (Json.to_json_string body)).

(** The loop of [_build_signing_string] over the headers to sign, against
    the lower-cased header dictionary. *)
Fixpoint signing_lines (method path : string) (headers_lower : PyDict.pydict string)
    (signed_headers : list string) : result (list string) :=
  match signed_headers with
  | [] => Ok []
  | header :: rest =>
      line ← (if String.eqb header "(request-target)"
              then Ok (request_target_line method path)
              else
                let header_lower := PyStr.lower header in
                match PyDict.get headers_lower header_lower with
                | None => Raise SignatureError
                | Some v => Ok (header_lower +:+ ": " +:+ v)
                end);
      lines ← signing_lines method path headers_lower rest;
      Ok (line :: lines)
  end.

Definition _build_signing_string (method path : string)
    (headers : PyDict.pydict string) (signed_headers : list string)
  : result string :=
  let headers_lower := PyDict.map_keys PyStr.lower headers in
  match signing_lines method path headers_lower signed_headers with
  | Ok lines => Ok (PyStr.join newline lines)
  | Raise _ => Raise SignatureError
  end.

Definition headers_to_sign : list string :=
  ["(request-target)"; "host"; "date"; "digest"].

(** The private key and key id [sign_request] signs with. *)
Definition signing_key (self : HTTPSignatureVerifier)
  : result (RSAPrivateKey * string) :=
  match key_manager self with
  | Some km =>
      private_key ← KeyManagement.get_active_private_key km;
      active_key ← KeyManagement.get_active_key km;
      Ok (private_key, KeyManagement.key_id active_key)
  | None =>
      match private_key self with
      | None => Raise AttributeError
      | Some private_key =>
          Ok (private_key, match key_id self with Some k => k | None => "None" end)
      end
  end.

Definition signature_header (P : Platform) (key_id : string) (signature : string)
  : string :=
  "keyId=" +:+ quoted key_id +:+ ","
  +:+ "algorithm=" +:+ quoted "rsa-sha256" +:+ ","
  +:+ "headers=" +:+ quoted (PyStr.join " " headers_to_sign) +:+ ","
  +:+ "signature=" +:+ quoted (b64encode P signature).

(** [sign_request]; [username] is accepted and not used.  Whatever is
    raised inside leaves as [SignatureError]. *)
Definition sign_request (P : Platform) (self : HTTPSignatureVerifier)
    (method path : string) (headers : PyDict.pydict string)
    (body : option Json.json) (username : option string) (i : Instant)
  : result (PyDict.pydict string) :=
  let request_headers := headers in
  let request_headers :=
    if PyDict.mem "date" request_headers then request_headers
    else
      let now := match _test_now self with Some t => t | None => utcnow i end in
      PyDict.set request_headers "date" (strftime_http P now) in
  let request_headers :=
    match body with
    | Some body => PyDict.set request_headers "digest" (_generate_digest P body)
    | None => request_headers
    end in
  match
    signing_string ← _build_signing_string method path request_headers headers_to_sign;
    key ← signing_key self;
    let signature := rsa_sign P (fst key) signing_string in
    Ok (PyDict.set request_headers "Signature"
          (signature_header P (snd key) signature))
  with
  | Ok signed_headers => Ok signed_headers
  | Raise _ => Raise SignatureError
  end.

(** The loop of [verify_request] over the parts of the Signature header. *)
Definition add_part (sig_parts : PyDict.pydict string) (part : string)
  : PyDict.pydict string :=
  match PyStr.split_once "=" part with
  | None => sig_parts
  | Some (key, value) =>
      PyDict.set sig_parts (PyStr.strip PyStr.is_space key)
                 (PyStr.strip PyStr.quote_or_space value)
  end.

Definition parse_parts (signature : string) : PyDict.pydict string :=
  fold_left add_part (PyStr.split_on "," signature) [].

(** The lines [verify_request] rebuilds from the declared header list: a
    declared name that is not a key of [headers] adds no line. *)
Definition declared_line (method path : string) (headers : PyDict.pydict string)
    (header : string) : list string :=
  if String.eqb header "(request-target)" then [request_target_line method path]
  else match PyDict.get headers header with
       | Some v => [header +:+ ": " +:+ v]
       | None => []
       end.

Definition declared_lines (method path : string) (headers : PyDict.pydict string)
    (signed_headers : list string) : list string :=
  flat_map (declared_line method path headers) signed_headers.

(** The digest [verify_request] expects for a body. *)
Definition expected_digest (P : Platform) (body : Json.json) : string :=
  "SHA-256=" +:+ b64encode P (sha256 P (Json.dumps_default body)).

Definition digest_ok (P : Platform) (headers : PyDict.pydict string)
    (body : option Json.json) : bool :=
  match body, PyDict.get headers "digest" with
  | Some body, Some digest => String.eqb digest (expected_digest P body)
  | _, _ => true
  end.

(** [verify_request].

    [_get_public_key] stands for the method [self._get_public_key], which
    [verify_request] awaits and which the sources do not define: the
    specification's external key-resolution collaborator, from a key id to a
    public key.  It answers [None] when it returns nothing or raises. *)
Definition verify_request (P : Platform)
    (_get_public_key : string -> option RSAPublicKey)
    (self : HTTPSignatureVerifier) (headers : PyDict.pydict string)
    (method path : string) (body : option Json.json) : bool :=
  match PyDict.get headers "signature" with
  | None => false
  | Some signature =>
      let sig_parts := parse_parts signature in
      match PyDict.get sig_parts "keyId",
            PyDict.get sig_parts "headers",
            PyDict.get sig_parts "signature" with
      | Some key_id, Some declared, Some signature_b64 =>
          if PyStr.is_empty key_id then false
          else if negb (digest_ok P headers body) then false
          else
            let signed_headers := PyStr.split_ws declared in
            let signing_string :=
              PyStr.join newline (declared_lines method path headers signed_headers) in
            match _get_public_key key_id with
            | None => false
            | Some public_key =>
                match b64decode P signature_b64 with
                | None => false
                | Some signature => rsa_verify P public_key signature signing_string
                end
            end
      | _, _, _ => false
      end
  end.

(** [self._get_public_key] as the sources have it: no class defines the
    method, so the attribute lookup in [verify_request] raises
    [AttributeError] for every key id, and the handler that encloses the
    body of [verify_request] logs it and returns [False]. *)
Definition _get_public_key (key_id : string) : option RSAPublicKey := None.

(** [_verify_date]: five minutes of skew either way. *)
Definition _verify_date (P : Platform) (self : HTTPSignatureVerifier)
    (date_header : option string) (i : Instant) : bool :=
  match date_header with
  | None => false
  | Some date_header =>
      if PyStr.is_empty date_header then false
      else match strptime_http P date_header with
           | None => false
           | Some request_time =>
               let now := match _test_now self with
                          | Some t => t
                          | None => utcnow i
                          end in
               let skew := timedelta_minutes 5 in
               (now - skew <=? request_time) && (request_time <=? now + skew)
           end
  end.

(** What an HTTP server hands to [verify_request] in the inbox handler of
    examples/minimal_server.py: [{k.lower(): v for k, v in headers}]. *)
Definition received (headers : PyDict.pydict string) : PyDict.pydict string :=
  PyDict.map_keys PyStr.lower headers.

End HttpSignatures.

(* ===================================================================== *)
(** * federation/delivery.py                                               *)
(* ===================================================================== *)

Module Delivery.

(** [error_message] is either a text of the code's own or [str(e)] of an
    exception. *)
Inductive message : Type :=
| Text (s : string)
| OfException (e : exception).

Record DeliveryResult : Type := {
  success : list string;
  failed : list string;
  status_code : option Z;
  error_message : option message;
  retry_after : option Z
}.

(** The text of a message; of an exception, the name of its class. *)
Definition message_text (m : message) : string :=
  match m with
  | Text s => s
  | OfException e =>
      match e with
      | SignatureError => "SignatureError"
      | KeyManagementError => "KeyManagementError"
      | QueueError => "QueueError"
      | ValueError => "ValueError"
      | TypeError => "TypeError"
      | KeyError => "KeyError"
      | AttributeError => "AttributeError"
      | TimeoutError => "TimeoutError"
      | OverflowError => "OverflowError"
      | OSError => "OSError"
      end
  end.

(** [DeliveryResult()]. *)
Definition empty_result : DeliveryResult :=
  {| success := []; failed := []; status_code := None;
     error_message := None; retry_after := None |}.

(** The service, without its discovery collaborator and HTTP session.  The
    rate limiter it owns changes with every delivery and is part of the
    [World] below. *)
Record ActivityDelivery : Type := {
  timeout : Z;
  max_retries : Z;
  retry_delay : Z;
  max_concurrent : Z;
  signature_verifier : HttpSignatures.HTTPSignatureVerifier
}.

Record Response : Type := {
  status : Z;
  headers : PyDict.pydict string;
  text : string
}.

(** How reading the body of a response fails: [await response.text()]
    times out ([asyncio.TimeoutError]) or raises another exception. *)
Inductive unread : Type :=
| BodyTimesOut
| BodyRaises (e : exception).

(** What [session.post] does: it answers, times out
    ([asyncio.TimeoutError]), or raises another exception.  An answer may
    also come with its status and headers while its body cannot be read:
    [Unreadable response u], whose [text] stands for nothing. *)
Inductive outcome : Type :=
| Answers (response : Response)
| TimesOut
| Raises (e : exception)
| Unreadable (response : Response) (u : unread).

(** [response.headers.get(name)]: aiohttp's headers ignore the case of
    names. *)
Fixpoint ci_get (headers : PyDict.pydict string) (name : string) : option string :=
  match headers with
  | [] => None
  | (k, v) :: rest =>
      if String.eqb (PyStr.lower k) (PyStr.lower name) then Some v
      else ci_get rest name
  end.

(** The state a delivery runs in: the UTC clock (microseconds), the rate
    limiter of the service, and the number of POST requests made so far. *)
Record World : Type := {
  time : Z;
  limiter : RateLimit.RateLimiter;
  posts : nat
}.

(** [await asyncio.sleep(d)], [d] in microseconds. *)
Definition sleep (w : World) (d : Z) : World :=
  {| time := time w + Z.max 0 d; limiter := limiter w; posts := posts w |}.

Definition with_limiter (w : World) (rl : RateLimit.RateLimiter) : World :=
  {| time := time w; limiter := rl; posts := posts w |}.

Definition posted (w : World) : World :=
  {| time := time w; limiter := limiter w; posts := S (posts w) |}.

(** The headers [deliver_to_inbox] signs. *)
Definition request_headers (domain : string) : PyDict.pydict string :=
  [("Content-Type", "application/activity+json");
   ("User-Agent", "PyFed/1.0");
   ("Accept", "application/activity+json");
   ("Host", domain)].

Definition failure (inbox_url : string) (status_code : option Z) (msg : message)
  : DeliveryResult :=
  {| success := []; failed := [inbox_url]; status_code := status_code;
     error_message := Some msg; retry_after := None |}.

(** The result when the body of a refused delivery cannot be read: the
    inbox was appended to [failed] and the status recorded before
    [response.text()] was awaited, and the handler that catches its
    exception appends the inbox once more. *)
Definition failure_unread (inbox_url : string) (status_code : Z) (u : unread)
  : DeliveryResult :=
  {| success := []; failed := [inbox_url; inbox_url];
     status_code := Some status_code;
     error_message := Some match u with
                           | BodyTimesOut => Text "Delivery timeout"
                           | BodyRaises e => OfException e
                           end;
     retry_after := None |}.

(** [int(response.headers.get('Retry-After', self.retry_delay))]. *)
Definition retry_after_of (self : ActivityDelivery) (response : Response)
  : result Z :=
  match ci_get (headers response) "Retry-After" with
  | Some v => PyStr.py_int v
  | None => Ok (retry_delay self)
  end.

Section Deliver.

Variable P : Platform.
(** The local clock is [tz] microseconds ahead of UTC. *)
Variable tz : Z.
(** [server n] is what the [n]-th POST request (counted from 0) meets. *)
Variable server : nat -> outcome.

(** [deliver_to_inbox].  Each unit of [fuel] pays for one activation of the
    coroutine; [None] is a run that needs more. *)
Fixpoint deliver_to_inbox (fuel : nat) (self : ActivityDelivery)
    (activity : Json.json) (inbox_url : string) (username : option string)
    (retry_count : Z) (w : World) : World * option DeliveryResult :=
  match fuel with
  | O => (w, None)
  | S fuel' =>
      let '(domain, path) := urlparse P inbox_url in
      (* Check rate limit *)
      let '(allowed, rl) :=
        RateLimit.check_rate_limit (limiter w) domain (at_utc tz (time w)) in
      let w := with_limiter w rl in
      let w :=
        if allowed then w
        else
          let '(wait_time, rl) :=
            RateLimit.get_wait_time (limiter w) domain (at_utc tz (time w)) in
          sleep (with_limiter w rl) wait_time in
      (* Sign request *)
      match HttpSignatures.sign_request P (signature_verifier self) "POST" path
              (request_headers domain) (Some activity) username
              (at_utc tz (time w)) with
      | Raise e => (w, Some (failure inbox_url None (OfException e)))
      | Ok signed_headers =>
          (* Make request *)
          match server (posts w) with
          | TimesOut =>
              (posted w, Some (failure inbox_url None (Text "Delivery timeout")))
          | Raises e => (posted w, Some (failure inbox_url None (OfException e)))
          | (Answers response | Unreadable response _) as answer =>
              let w := posted w in
              (* Update rate limit state *)
              match RateLimit.update_rate_limit (limiter w) domain
                      (ci_get (headers response)) (at_utc tz (time w)) with
              | Raise e => (w, Some (failure inbox_url None (OfException e)))
              | Ok rl =>
                  let w := with_limiter w rl in
                  if (status response =? 200) || (status response =? 201)
                     || (status response =? 202)
                  then
                    (w, Some {| success := [inbox_url]; failed := [];
                                status_code := Some (status response);
                                error_message := None; retry_after := None |})
                  else if (status response =? 429)
                          || ((status response >=? 500)
                              && (retry_count <? max_retries self))
                  then
                    match retry_after_of self response with
                    | Raise e => (w, Some (failure inbox_url None (OfException e)))
                    | Ok retry_after =>
                        let w := sleep w (timedelta_seconds retry_after) in
                        deliver_to_inbox fuel' self activity inbox_url username
                          (retry_count + 1) w
                    end
                  else
                    match answer with
                    | Unreadable _ u =>
                        (w, Some (failure_unread inbox_url (status response) u))
                    | _ =>
                        (w, Some (failure inbox_url (Some (status response))
                                    (Text (text response))))
                    end
              end
          end
      end
  end.

End Deliver.

End Delivery.

(* ===================================================================== *)
(** * federation/queue.py                                                  *)
(* ===================================================================== *)

Module Queue.

Inductive DeliveryStatus : Type :=
| PENDING | IN_PROGRESS | COMPLETED | FAILED | RETRYING.

(** The values a field of a [QueuedDelivery] holds while [_process_delivery]
    runs: what [json.loads] produced, a text, a member of [DeliveryStatus],
    or a [datetime]. *)
Inductive pyval : Type :=
| PJson (j : Json.json)
| PText (m : Delivery.message)
| PStatus (s : DeliveryStatus)
| PDatetime (t : datetime).

Record QueuedDelivery : Type := {
  id : pyval;
  activity : pyval;
  recipients : pyval;
  status : pyval;
  attempts : pyval;
  next_attempt : pyval;
  created_at : pyval;
  updated_at : pyval;
  error : pyval
}.

Record DeliveryQueue : Type := {
  max_attempts : Z;
  batch_size : Z
}.

(** The store: its string keys, each holding a JSON document (the text
    [json.dumps] writes and [json.loads] reads back), and the sorted set
    [delivery_queue] with the score of each member (microseconds).  The
    store answers every command. *)
Record Redis : Type := {
  strings : gmap string Json.json;
  delivery_queue : gmap string Z
}.

Definition redis_set (r : Redis) (key : string) (doc : Json.json) : Redis :=
  {| strings := <[key := doc]> (strings r); delivery_queue := delivery_queue r |}.

Definition zadd (r : Redis) (member : string) (score : Z) : Redis :=
  {| strings := strings r; delivery_queue := <[member := score]> (delivery_queue r) |}.

Definition zrem (r : Redis) (member : string) : Redis :=
  {| strings := strings r; delivery_queue := delete member (delivery_queue r) |}.

Definition record_key (delivery_id : string) : string := "delivery:" +:+ delivery_id.
Arguments record_key : simpl never.

Definition field_names : list string :=
  ["id"; "activity"; "recipients"; "status"; "attempts"; "next_attempt";
   "created_at"; "updated_at"; "error"].

(** The [QueuedDelivery] built from the keys of [json.loads(data)]: the
    document must be an object whose keys are field names and include every
    field but [error]. *)
Definition from_json (data : Json.json) : result QueuedDelivery :=
  match data with
  | Json.JDict items =>
      if forallb (fun kv => existsb (String.eqb (fst kv)) field_names) items then
        match PyDict.get items "id", PyDict.get items "activity",
              PyDict.get items "recipients", PyDict.get items "status",
              PyDict.get items "attempts", PyDict.get items "next_attempt",
              PyDict.get items "created_at", PyDict.get items "updated_at" with
        | Some i, Some a, Some r, Some s, Some n, Some na, Some c, Some u =>
            Ok {| id := PJson i; activity := PJson a; recipients := PJson r;
                  status := PJson s; attempts := PJson n; next_attempt := PJson na;
                  created_at := PJson c; updated_at := PJson u;
                  error := match PyDict.get items "error" with
                           | Some e => PJson e
                           | None => PJson Json.JNull
                           end |}
        | _, _, _, _, _, _, _, _ => Raise TypeError
        end
      else Raise TypeError
  | _ => Raise TypeError
  end.

(** What [json.dumps] makes of one value: it has no encoding for a member
    of an [Enum] or for a [datetime]. *)
Definition dump_value (v : pyval) : result Json.json :=
  match v with
  | PJson j => Ok j
  | PText m => Ok (Json.JStr (Delivery.message_text m))
  | PStatus _ => Raise TypeError
  | PDatetime _ => Raise TypeError
  end.

(** [json.dumps(delivery.__dict__)]. *)
Definition to_json (d : QueuedDelivery) : result Json.json :=
  i ← dump_value (id d);
  a ← dump_value (activity d);
  r ← dump_value (recipients d);
  s ← dump_value (status d);
  n ← dump_value (attempts d);
  na ← dump_value (next_attempt d);
  c ← dump_value (created_at d);
  u ← dump_value (updated_at d);
  e ← dump_value (error d);
  Ok (Json.JDict [("id", i); ("activity", a); ("recipients", r); ("status", s);
                  ("attempts", n); ("next_attempt", na); ("created_at", c);
                  ("updated_at", u); ("error", e)]).

(** The integer [delivery.attempts += 1] leaves in the field. *)
Definition incremented (v : pyval) : result Z :=
  match v with
  | PJson (Json.JInt n) => Ok (n + 1)
  | PJson (Json.JBool b) => Ok ((if b then 1 else 0) + 1)
  | _ => Raise TypeError
  end.

Definition with_status (d : QueuedDelivery) (s : DeliveryStatus) : QueuedDelivery :=
  {| id := id d; activity := activity d; recipients := recipients d;
     status := PStatus s; attempts := attempts d; next_attempt := next_attempt d;
     created_at := created_at d; updated_at := updated_at d; error := error d |}.

Definition with_error (d : QueuedDelivery) (e : pyval) : QueuedDelivery :=
  {| id := id d; activity := activity d; recipients := recipients d;
     status := status d; attempts := attempts d; next_attempt := next_attempt d;
     created_at := created_at d; updated_at := updated_at d; error := e |}.

Definition with_next_attempt (d : QueuedDelivery) (t : datetime) : QueuedDelivery :=
  {| id := id d; activity := activity d; recipients := recipients d;
     status := status d; attempts := attempts d; next_attempt := PDatetime t;
     created_at := created_at d; updated_at := updated_at d; error := error d |}.

(** Lines 162-164: the job is marked in progress and its attempt counted. *)
Definition started (d : QueuedDelivery) (n : Z) (i : Instant) : QueuedDelivery :=
  {| id := id d; activity := activity d; recipients := recipients d;
     status := PStatus IN_PROGRESS; attempts := PJson (Json.JInt n);
     next_attempt := next_attempt d; created_at := created_at d;
     updated_at := PDatetime (utcnow i); error := error d |}.

(** [timedelta(minutes=2 ** n)] in microseconds; a negative [n] gives a
    fraction of a minute. *)
Definition backoff (n : Z) : Z :=
  if 0 <=? n then timedelta_minutes (2 ^ n)
  else (60000000 + 2 ^ (- n - 1)) / 2 ^ (- n).

(** The last microsecond of the year 9999, where [datetime] ends. *)
Definition datetime_max : Z := 253402300799999999.

(** [datetime.utcnow() + timedelta(minutes=2 ** n)]. *)
Definition retry_time (i : Instant) (n : Z) : result datetime :=
  let t := utcnow i + backoff n in
  if t <=? datetime_max then Ok t else Raise OverflowError.

(** [t.timestamp()] of a naive UTC time, which is read as a local time. *)
Definition score_of (i : Instant) (t : datetime) : Z := t - (now i - utcnow i).

Definition error_of (m : option Delivery.message) : pyval :=
  match m with
  | Some m => PText m
  | None => PJson Json.JNull
  end.

Section Process.

Variable self : DeliveryQueue.
(** [deliver_activity] stands for
    [self.delivery_service.deliver_activity(activity=..., recipients=...)]:
    the delivery collaborator, which returns a [DeliveryResult] or raises.
    ([ActivityDelivery] in federation/delivery.py defines no method of that
    name.) *)
Variable deliver_activity : pyval -> pyval -> result Delivery.DeliveryResult.

(** Lines 166-194 of [_process_delivery]: the attempt, on the job in memory
    and the schedule index.  [n] is the attempt count after the increment. *)
Definition attempt (d : QueuedDelivery) (n : Z) (delivery_id : string)
    (redis : Redis) (i : Instant) : QueuedDelivery * Redis :=
  match deliver_activity (activity d) (recipients d) with
  | Raise e =>
      (with_error (with_status d FAILED) (PText (Delivery.OfException e)), redis)
  | Ok result =>
      match Delivery.success result with
      | _ :: _ => (with_status d COMPLETED, redis)
      | [] =>
          let d := with_error (with_status d FAILED)
                     (error_of (Delivery.error_message result)) in
          (* Schedule retry if attempts remain *)
          if n <? max_attempts self then
            match retry_time i n with
            | Ok t =>
                (with_next_attempt (with_status d RETRYING) t,
                 zadd redis delivery_id (score_of i t))
            | Raise e =>
                (with_error (with_status d FAILED) (PText (Delivery.OfException e)),
                 redis)
            end
          else (d, redis)
      end
  end.

Definition is_final (v : pyval) : bool :=
  match v with
  | PStatus COMPLETED | PStatus FAILED => true
  | _ => false
  end.

(** [_process_delivery]: whatever is raised outside the attempt is logged
    and ends the call. *)
Definition _process_delivery (redis : Redis) (delivery_id : string) (i : Instant)
  : Redis :=
  match strings redis !! record_key delivery_id with
  | None => redis
  | Some data =>
      match from_json data with
      | Raise _ => redis
      | Ok delivery =>
          match incremented (attempts delivery) with
          | Raise _ => redis
          | Ok n =>
              let delivery := started delivery n i in
              let '(delivery, redis) := attempt delivery n delivery_id redis i in
              (* Update delivery record *)
              match to_json delivery with
              | Raise _ => redis
              | Ok doc =>
                  let redis := redis_set redis (record_key delivery_id) doc in
                  (* Remove from queue if complete *)
                  if is_final (status delivery) then zrem redis delivery_id
                  else redis
              end
          end
      end
  end.

End Process.

End Queue.

(* ===================================================================== *)
(** * security/http_signatures.py: the parser of the Signature header      *)
(* ===================================================================== *)

Module SignatureParsing.

Definition is_dquote (c : ascii) : bool := Ascii.eqb c PyStr.dquote.

(** The loop of [_parse_signature_header]: a part without [=] is skipped;
    [value.strip] is given the double quote alone, where [verify_request]
    strips spaces as well. *)
Definition add_part (parts : PyDict.pydict string) (part : string)
  : PyDict.pydict string :=
  match PyStr.split_once "=" part with
  | None => parts
  | Some (key, value) =>
      PyDict.set parts (PyStr.strip PyStr.is_space key) (PyStr.strip is_dquote value)
  end.

Definition required : list string := ["keyId"; "algorithm"; "headers"; "signature"].

(** [_parse_signature_header]. *)
Definition _parse_signature_header (header : string)
  : result (PyDict.pydict string) :=
  let parts := fold_left add_part (PyStr.split_on "," header) [] in
  if forallb (fun k => PyDict.mem k parts) required then Ok parts
  else Raise SignatureError.

End SignatureParsing.

(* ===================================================================== *)
(** * security/key_management.py: validity, loading and the rotation task  *)
(* ===================================================================== *)

Module KeyLifecycle.
Import KeyManagement.

(** [verify_key]; [domain] is accepted and not used.  A key id outside the
    active set is refused. *)
Definition verify_key (km : KeyManager) (key_id domain : string) (i : Instant)
  : bool :=
  match PyDict.get (active_keys km) key_id with
  | Some key_pair => utcnow i <=? expires_at key_pair
  | None => false
  end.

(** What [_load_existing_keys] meets for one metadata file that the
    recursive search for json files yields: whether the file can be read as
    JSON; the private key next to it ([None] when that file does not exist,
    an exception when it cannot be loaded); the [created_at], [expires_at]
    and [key_id] of the metadata, the last one a text as [_save_key_pair]
    writes it (an exception when one is missing or is not a time); and the
    clock at the expiry test. *)
Record KeyFile : Type := {
  kf_metadata_ok : bool;
  kf_private : option (result RSAPrivateKey);
  kf_fields : result (datetime * datetime * string);
  kf_clock : Instant
}.

(** The loop of [_load_existing_keys] over the files. *)
Fixpoint load_files (P : Platform) (keys : PyDict.pydict KeyPair)
    (files : list KeyFile) : PyDict.pydict KeyPair * result unit :=
  match files with
  | [] => (keys, Ok tt)
  | f :: rest =>
      if kf_metadata_ok f then
        match kf_private f with
        | None => load_files P keys rest
        | Some (Raise _) => (keys, Raise KeyManagementError)
        | Some (Ok priv) =>
            match kf_fields f with
            | Raise _ => (keys, Raise KeyManagementError)
            | Ok (created, expires, kid) =>
                let key_pair :=
                  {| private_key := priv;
                     public_key := rsa_public_key P priv;
                     created_at := created;
                     expires_at := expires;
                     key_id := kid |} in
                (* Add to active keys if not expired *)
                if utcnow (kf_clock f) <=? expires
                then load_files P (PyDict.set keys kid key_pair) rest
                else load_files P keys rest
            end
        end
      else (keys, Raise KeyManagementError)
  end.

Definition _load_existing_keys (P : Platform) (km : KeyManager)
    (files : list KeyFile) : KeyManager * result unit :=
  let '(keys, r) := load_files P (active_keys km) files in
  (with_active_keys km keys, r).

(** What one [initialize] call meets: whether the keys directory can be
    made, the metadata files under it, and the environment of the
    [generate_key_pair] it may call. *)
Record InitEnv : Type := {
  init_mkdir_ok : bool;
  init_files : list KeyFile;
  init_gen : GenEnv
}.

(** [initialize], up to the start of the rotation task.  Every exception
    leaves as [KeyManagementError]. *)
Definition initialize (P : Platform) (km : KeyManager) (env : InitEnv)
  : KeyManager * result unit :=
  if init_mkdir_ok env then
    match _load_existing_keys P km (init_files env) with
    | (km, Raise _) => (km, Raise KeyManagementError)
    | (km, Ok _) =>
        (* Generate initial keys if none exist *)
        match active_keys km with
        | [] =>
            match generate_key_pair P km (init_gen env) with
            | (km, Raise _) => (km, Raise KeyManagementError)
            | (km, Ok _) => (km, Ok tt)
            end
        | _ :: _ => (km, Ok tt)
        end
    end
  else (km, Raise KeyManagementError).

(** The test of [_key_rotation_loop]: the key expires within a day. *)
Definition due (i : Instant) (key_pair : KeyPair) : bool :=
  expires_at key_pair <=? utcnow i + timedelta_days 1.

(** What one round of [_key_rotation_loop] meets: the clock it reads and
    the environment of the [rotate_keys] it may call. *)
Record RoundEnv : Type := {
  round_clock : Instant;
  round_rotate : RotateEnv
}.

(** One round of [_key_rotation_loop]: the manager after it and the seconds
    the task then sleeps.  The first key that is due starts one rotation
    and ends the scan. *)
Definition _key_rotation_round (P : Platform) (km : KeyManager) (env : RoundEnv)
  : KeyManager * Z :=
  if existsb (due (round_clock env)) (PyDict.values (active_keys km)) then
    match rotate_keys P km (round_rotate env) with
    | (km, Ok _) => (km, 86400)
    | (km, Raise _) => (km, 3600)
    end
  else (km, 86400).

End KeyLifecycle.

(* ===================================================================== *)
(** * federation/queue.py: enqueue and get_status                          *)
(* ===================================================================== *)

Module QueueApi.
Import Queue.

(** The record [enqueue] builds.  [stamp] is the text of
    [datetime.utcnow().timestamp()]. *)
Definition new_delivery (stamp : string) (activity recipients : Json.json)
    (i : Instant) : QueuedDelivery :=
  {| id := PJson (Json.JStr ("delivery_" +:+ stamp));
     activity := PJson activity;
     recipients := PJson recipients;
     status := PStatus PENDING;
     attempts := PJson (Json.JInt 0);
     next_attempt := PDatetime (utcnow i);
     created_at := PDatetime (utcnow i);
     updated_at := PDatetime (utcnow i);
     error := PJson Json.JNull |}.

(** [enqueue]: the record is serialised and stored, then the job enters
    the index, ten seconds later per step of priority below 9.  Whatever is
    raised leaves as [QueueError]. *)
Definition enqueue (redis : Redis) (stamp : string)
    (activity recipients : Json.json) (priority : Z) (i : Instant)
  : Redis * result string :=
  let delivery_id := "delivery_" +:+ stamp in
  let delivery := new_delivery stamp activity recipients i in
  match to_json delivery with
  | Raise _ => (redis, Raise QueueError)
  | Ok doc =>
      let redis := redis_set redis (record_key delivery_id) doc in
      let score := score_of i (utcnow i) + timedelta_seconds ((9 - priority) * 10) in
      (zadd redis delivery_id score, Ok delivery_id)
  end.

(** [get_status]: the record as [json.loads] gives it, [None] when the
    store has none. *)
Definition get_status (redis : Redis) (delivery_id : string)
  : result (option QueuedDelivery) :=
  match strings redis !! record_key delivery_id with
  | None => Ok None
  | Some data =>
      match from_json data with
      | Ok delivery => Ok (Some delivery)
      | Raise _ => Raise QueueError
      end
  end.

End QueueApi.

(* ===================================================================== *)
(** * serializers/json_serializer.py: to_camel_case                        *)
(* ===================================================================== *)

Module Serializer.

(** [str.islower], [str.isupper] and [str.upper] on one ASCII character. *)
Definition is_lower (c : ascii) : bool :=
  let n := PyStr.code c in (97 <=? n) && (n <=? 122).

Definition is_upper (c : ascii) : bool :=
  let n := PyStr.code c in (65 <=? n) && (n <=? 90).

Definition upper_char (c : ascii) : ascii :=
  if is_lower c then ascii_of_nat (Z.to_nat (PyStr.code c - 32)) else c.

(** [str.title] on ASCII text: a letter that follows a letter is
    lower-cased, any other letter is upper-cased. *)
Fixpoint title_go (previous_is_cased : bool) (s : string) : string :=
  match s with
  | EmptyString => EmptyString
  | String c s' =>
      if is_lower c then
        String (if previous_is_cased then c else upper_char c) (title_go true s')
      else if is_upper c then
        String (if previous_is_cased then PyStr.lower_char c else c) (title_go true s')
      else String c (title_go false s')
  end.

Definition title (s : string) : string := title_go false s.

Definition is_ascii (s : string) : bool :=
  forallb (fun c => PyStr.code c <? 128) (list_ascii_of_string s).

(** [to_camel_case], on ASCII text. *)
Definition to_camel_case (snake_str : string) : string :=
  match PyStr.split_on "_" snake_str with
  | [] => EmptyString
  | first :: rest => first +:+ PyStr.join EmptyString (List.map title rest)
  end.

End Serializer.

(* ===================================================================== *)
(** * A small instance of the libraries                                   *)
(* ===================================================================== *)

(** Stand-ins with the shape of the real functions, on which the model can
    be run: the hash keeps its input, the encoding writes two hexadecimal
    digits per character, a signature names the private key and the
    message, and a public key names its private key. *)
Module Toy.

Fixpoint strip_prefix (p s : string) : option string :=
  match p, s with
  | EmptyString, _ => Some s
  | String a p', String b s' => if Ascii.eqb a b then strip_prefix p' s' else None
  | String _ _, EmptyString => None
  end.

Definition sign (sk msg : string) : string := "sig[" +:+ sk +:+ "]" +:+ msg.

Definition verify (pk sig msg : string) : bool :=
  match strip_prefix "pub-" pk with
  | Some sk => String.eqb sig (sign sk msg)
  | None => false
  end.

(** [scheme://netloc/path] into [netloc] and [/path]. *)
Fixpoint until_slash (s : string) : string * string :=
  match s with
  | EmptyString => (EmptyString, EmptyString)
  | String c s' =>
      if Ascii.eqb c "/" then (EmptyString, s)
      else let '(host, path) := until_slash s' in (String c host, path)
  end.

Fixpoint split_url (s : string) : string * string :=
  match s with
  | String ":" (String "/" (String "/" rest)) => until_slash rest
  | String _ s' => split_url s'
  | EmptyString => (EmptyString, EmptyString)
  end.

Definition parse_time (s : string) : option Z :=
  match PyStr.py_int s with Ok z => Some z | Raise _ => None end.

Fixpoint encode (b : string) : string :=
  match b with
  | EmptyString => EmptyString
  | String c b' =>
      let n := PyStr.code c in
      String (Json.hex_digit (n / 16)) (String (Json.hex_digit (n mod 16)) (encode b'))
  end.

Definition hex_val (c : ascii) : option Z :=
  let n := PyStr.code c in
  if (48 <=? n) && (n <=? 57) then Some (n - 48)
  else if (97 <=? n) && (n <=? 102) then Some (n - 87)
  else None.

Fixpoint decode (s : string) : option string :=
  match s with
  | EmptyString => Some EmptyString
  | String h (String l s') =>
      match hex_val h, hex_val l, decode s' with
      | Some x, Some y, Some b => Some (String (ascii_of_nat (Z.to_nat (16 * x + y))) b)
      | _, _, _ => None
      end
  | String _ EmptyString => None
  end.

Definition platform : Platform :=
  {| sha256 := fun b => "sha256(" +:+ b +:+ ")";
     b64encode := encode;
     b64decode := decode;
     rsa_public_key := fun sk => "pub-" +:+ sk;
     rsa_sign := sign;
     rsa_verify := verify;
     strftime_http := fun t => pretty t;
     strptime_http := parse_time;
     urlparse := split_url |}.

End Toy.

(* ===================================================================== *)
(** * Properties                                                           *)
(* ===================================================================== *)

(* ===================================================================== *)
(** * Rate limiting                                                        *)
(* ===================================================================== *)

Section RateLimitWindow.
Import RateLimit.

Variables (tz : Z) (domain : string).
Variables (t0 R L : Z) (dl : RateLimit).

(** The limiter holds, for [domain], a window that ends at [R] with [r]
    requests left, in a cache entry that lives at least until one ttl after
    [t0]. *)
Definition holds (rl : RateLimiter) (r : Z) : Prop :=
  default_limit rl = dl /\
  exists e,
    Cache.entries (cache rl) !! cache_key domain
      = Some ({| remaining := r; reset := R; limit := L |}, e)
    /\ t0 + timedelta_seconds (Cache.ttl (cache rl)) <= e.




Lemma _set_state_ttl rl d st i :
  Cache.ttl (cache (_set_state rl d st i)) = Cache.ttl (cache rl).
Proof. reflexivity. Qed.






End RateLimitWindow.

Lemma check_rate_limit_fresh (rl : RateLimit.RateLimiter) (domain : string)
    (tz t0 : Z) (N : nat) :
  RateLimit.requests (RateLimit.default_limit rl) = Z.of_nat N ->
  0 < RateLimit.period (RateLimit.default_limit rl) ->
  Cache.entries (RateLimit.cache rl) !! RateLimit.cache_key domain = None ->
  exists rl',
    RateLimit.check_rate_limit rl domain (at_utc tz t0) = (negb (Nat.eqb N 0), rl')
    /\ holds domain t0
         (t0 + tz + timedelta_seconds (RateLimit.period (RateLimit.default_limit rl)))
         (Z.of_nat N) (RateLimit.default_limit rl) rl' (Z.of_nat (N - 1))
    /\ Cache.ttl (RateLimit.cache rl') = Cache.ttl (RateLimit.cache rl).
Proof.
  intros HN HP Hfresh.
  unfold RateLimit.check_rate_limit, RateLimit._get_state, Cache.get.
  rewrite Hfresh. destruct rl as [dl st c]. cbn in *.
  destruct (Z.geb_spec (t0 + tz) (t0 + tz + timedelta_seconds (RateLimit.period dl)));
    [unfold timedelta_seconds in *; lia|].
  rewrite HN.
  destruct N as [|n].
  - cbn. eexists. split; [reflexivity|]. split; [|reflexivity].
    split; [reflexivity|]. eexists. cbn. rewrite lookup_insert_eq.
    unfold RateLimit.fresh_state. cbn. rewrite HN.
    split; [reflexivity|lia].
  - destruct (Z.leb_spec (Z.of_nat (S n)) 0); [lia|].
    eexists. split; [reflexivity|]. split; [|reflexivity].
    split; [reflexivity|]. eexists. cbn. rewrite lookup_insert_eq.
    split; [do 3 f_equal; lia|lia].
Qed.




(** ** The sign of the stored counter *)

(** No stored state, of any domain, has a negative counter. *)
Definition nonneg (rl : RateLimit.RateLimiter) : Prop :=
  forall k st e,
    Cache.entries (RateLimit.cache rl) !! k = Some (st, e) ->
    0 <= RateLimit.remaining st.

(** The integer an [update_rate_limit] call would store as the counter, when
    the three headers are there and the first one reads as an integer. *)
Definition announced_remaining (headers : PyDict.pydict string) : option Z :=
  match PyDict.get headers "X-RateLimit-Remaining",
        PyDict.get headers "X-RateLimit-Reset",
        PyDict.get headers "X-RateLimit-Limit" with
  | Some r, Some _, Some _ =>
      match PyStr.py_int r with Ok z => Some z | Raise _ => None end
  | _, _, _ => None
  end.

Definition announces_nonneg (o : RateLimit.op) : Prop :=
  match o with
  | RateLimit.Update _ headers _ =>
      forall z, announced_remaining headers = Some z -> 0 <= z
  | _ => True
  end.

Lemma nonneg_set_state rl d st i :
  nonneg rl -> 0 <= RateLimit.remaining st ->
  nonneg (RateLimit._set_state rl d st i).
Proof.
  intros Hrl Hst k st' e. cbn. rewrite lookup_insert.
  case_decide; [intros [= <- _]; exact Hst | apply Hrl].
Qed.

Lemma nonneg_get_state rl d i :
  nonneg rl -> 0 <= RateLimit.requests (RateLimit.default_limit rl) ->
  nonneg (snd (RateLimit._get_state rl d i))
  /\ 0 <= RateLimit.remaining (fst (RateLimit._get_state rl d i))
  /\ RateLimit.default_limit (snd (RateLimit._get_state rl d i))
     = RateLimit.default_limit rl.
Proof.
  intros Hrl Hreq. unfold RateLimit._get_state, Cache.get.
  destruct (Cache.entries (RateLimit.cache rl) !! RateLimit.cache_key d)
    as [[st e]|] eqn:Hlk.
  - destruct (utcnow i >? e).
    + cbn. split; [|split; [exact Hreq|reflexivity]].
      intros k st' e'. cbn. rewrite lookup_insert.
      case_decide; [intros [= <- _]; exact Hreq|].
      rewrite lookup_delete. case_decide; [discriminate|apply Hrl].
    + cbn. split; [|split; [exact (Hrl _ _ _ Hlk)|reflexivity]].
      intros k st' e'. cbn. apply Hrl.
  - cbn. split; [|split; [exact Hreq|reflexivity]].
    intros k st' e'. cbn. rewrite lookup_insert.
    case_decide; [intros [= <- _]; exact Hreq|apply Hrl].
Qed.

Lemma nonneg_check_rate_limit rl d i :
  nonneg rl -> 0 <= RateLimit.requests (RateLimit.default_limit rl) ->
  nonneg (snd (RateLimit.check_rate_limit rl d i))
  /\ RateLimit.default_limit (snd (RateLimit.check_rate_limit rl d i))
     = RateLimit.default_limit rl.
Proof.
  intros Hrl Hreq. unfold RateLimit.check_rate_limit.
  destruct (nonneg_get_state rl d i Hrl Hreq) as (Hrl' & Hst & Hdl).
  destruct (RateLimit._get_state rl d i) as [st rl']. cbn [fst snd] in *.
  destruct (now i >=? RateLimit.reset st).
  - cbn [snd]. split; [|exact Hdl].
    apply nonneg_set_state; [exact Hrl'|]. cbn. rewrite Hdl. exact Hreq.
  - destruct (Z.leb_spec (RateLimit.remaining st) 0).
    + cbn [snd]. auto.
    + cbn [snd]. split; [|exact Hdl].
      apply nonneg_set_state; [exact Hrl'|]. cbn. lia.
Qed.

Lemma nonneg_get_wait_time rl d i :
  nonneg rl -> 0 <= RateLimit.requests (RateLimit.default_limit rl) ->
  nonneg (snd (RateLimit.get_wait_time rl d i))
  /\ RateLimit.default_limit (snd (RateLimit.get_wait_time rl d i))
     = RateLimit.default_limit rl.
Proof.
  intros Hrl Hreq. unfold RateLimit.get_wait_time.
  destruct (nonneg_get_state rl d i Hrl Hreq) as (Hrl' & Hst & Hdl).
  destruct (RateLimit._get_state rl d i) as [st rl']. cbn [fst snd] in *.
  destruct (RateLimit.remaining st >? 0); cbn [snd]; auto.
Qed.

Lemma update_rate_limit_stores rl d headers i rl' :
  RateLimit.update_rate_limit rl d (PyDict.get headers) i = Ok rl' ->
  rl' = rl
  \/ exists z t l,
       announced_remaining headers = Some z
       /\ rl' = RateLimit._set_state rl d
                  {| RateLimit.remaining := z; RateLimit.reset := t;
                     RateLimit.limit := l |} i.
Proof.
  unfold RateLimit.update_rate_limit, announced_remaining.
  destruct (PyDict.get headers "X-RateLimit-Remaining") as [r|]; [|intros [= <-]; auto].
  destruct (PyDict.get headers "X-RateLimit-Reset") as [ts|]; [|intros [= <-]; auto].
  destruct (PyDict.get headers "X-RateLimit-Limit") as [l|]; [|intros [= <-]; auto].
  destruct (PyStr.py_int r) as [z|]; [|discriminate]. cbn.
  destruct (PyStr.py_int ts) as [zt|]; [|discriminate]. cbn.
  destruct (RateLimit.fromtimestamp i zt) as [t|]; [|discriminate]. cbn.
  destruct (PyStr.py_int l) as [zl|]; [|discriminate]. cbn.
  intros [= <-]. right. eauto.
Qed.

Lemma nonneg_step rl o :
  nonneg rl -> 0 <= RateLimit.requests (RateLimit.default_limit rl) ->
  announces_nonneg o ->
  nonneg (RateLimit.step rl o)
  /\ RateLimit.default_limit (RateLimit.step rl o) = RateLimit.default_limit rl.
Proof.
  intros Hrl Hreq Ho. destruct o as [d i|d i|d headers i]; cbn [RateLimit.step].
  - apply nonneg_check_rate_limit; assumption.
  - apply nonneg_get_wait_time; assumption.
  - destruct (RateLimit.update_rate_limit rl d (PyDict.get headers) i) as [rl'|]
      eqn:Hup; [|auto].
    apply update_rate_limit_stores in Hup as [->|(z & t & l & Hz & ->)]; [auto|].
    split; [|reflexivity]. apply nonneg_set_state; [exact Hrl|].
    cbn. apply Ho, Hz.
Qed.

(** C7 (as amended).  On a limiter whose configured limit is not negative,
    every sequence of [check_rate_limit], [get_wait_time] and
    [update_rate_limit] calls keeps every stored counter non-negative, as
    long as no response announces a negative X-RateLimit-Remaining. *)
Theorem remaining_nonneg_unless_announced (rl : RateLimit.RateLimiter)
    (ops : list RateLimit.op) :
  0 <= RateLimit.requests (RateLimit.default_limit rl) ->
  nonneg rl ->
  Forall announces_nonneg ops ->
  nonneg (RateLimit.run rl ops).
Proof.
  intros Hreq Hrl Hops. revert rl Hreq Hrl.
  induction Hops as [|o ops Ho _ IH]; intros rl Hreq Hrl; [exact Hrl|].
  cbn. destruct (nonneg_step rl o Hrl Hreq Ho) as [Hrl' Hdl].
  apply IH; [rewrite Hdl; exact Hreq|exact Hrl'].
Qed.

(** The invariant theorem on a default limiter that serves a check, an
    update announcing 0 requests left, a wait and another check. *)
Lemma remaining_nonneg_unless_announced_witness :
  let rl := RateLimit.new None RateLimit.SLIDING_WINDOW 3600 in
  let ops := [RateLimit.Check "example.com" (at_utc 0 0);
              RateLimit.Update "example.com"
                [("X-RateLimit-Remaining", "0"); ("X-RateLimit-Reset", "60");
                 ("X-RateLimit-Limit", "100")] (at_utc 0 1000000);
              RateLimit.Wait "example.com" (at_utc 0 2000000);
              RateLimit.Check "example.com" (at_utc 0 3000000)] in
  Forall announces_nonneg ops /\ nonneg (RateLimit.run rl ops).
Proof.
  assert (Hops : Forall announces_nonneg
            [RateLimit.Check "example.com" (at_utc 0 0);
             RateLimit.Update "example.com"
               [("X-RateLimit-Remaining", "0"); ("X-RateLimit-Reset", "60");
                ("X-RateLimit-Limit", "100")] (at_utc 0 1000000);
             RateLimit.Wait "example.com" (at_utc 0 2000000);
             RateLimit.Check "example.com" (at_utc 0 3000000)]).
  { repeat constructor. intros z Hz. vm_compute in Hz. injection Hz as <-. lia. }
  split; [exact Hops|].
  apply (remaining_nonneg_unless_announced
           (RateLimit.new None RateLimit.SLIDING_WINDOW 3600) _).
  - vm_compute. discriminate.
  - intros k st e Hk. cbn in Hk. rewrite lookup_empty in Hk. discriminate.
  - exact Hops.
Defined.

(** C7 (as stated) fails: one response announcing -1 requests left leaves a
    stored counter of -1. *)
Lemma update_rate_limit_stores_negative :
  RateLimit.remaining <$>
    RateLimit.stored
      (RateLimit.run (RateLimit.new None RateLimit.SLIDING_WINDOW 3600)
         [RateLimit.Update "example.com"
            [("X-RateLimit-Remaining", "-1"); ("X-RateLimit-Reset", "0");
             ("X-RateLimit-Limit", "100")] (at_utc 0 0)])
      "example.com"
  = Some (-1).
Proof. vm_compute. reflexivity. Qed.

(* ===================================================================== *)
(** * Dictionaries                                                         *)
(* ===================================================================== *)

Section PyDictFacts.
Context {V : Type}.
Implicit Types (d : PyDict.pydict V) (k : string) (v : V).

Lemma In_del d k k' v' :
  In (k', v') (PyDict.del d k) <-> k' <> k /\ In (k', v') d.
Proof.
  induction d as [|[k0 v0] d IH]; cbn; [tauto|].
  destruct (String.eqb_spec k0 k) as [->|Hne].
  - rewrite IH. split; [tauto|]. intros [Hk [[= -> ->]|H]]; [congruence|auto].
  - cbn. rewrite IH. split.
    + intros [[= -> ->]|[? ?]]; auto.
    + intros [Hk [H|H]]; auto.
Qed.

Lemma In_set d k v k' v' :
  In (k', v') (PyDict.set d k v) ->
  (k' = k /\ v' = v) \/ (k' <> k /\ In (k', v') d).
Proof.
  induction d as [|[k0 v0] d IH]; cbn.
  - intros [[= -> ->]|[]]. auto.
  - destruct (String.eqb_spec k0 k) as [->|Hne]; cbn.
    + intros [[= -> ->]|H]; [auto|]. apply In_del in H as [? ?]. auto.
    + intros [[= -> ->]|H]; [auto|]. destruct (IH H) as [?|[? ?]]; auto.
Qed.

Lemma set_In d k v : In (k, v) (PyDict.set d k v).
Proof.
  induction d as [|[k0 v0] d IH]; cbn; [auto|].
  destruct (String.eqb_spec k0 k) as [->|Hne]; cbn; auto.
Qed.

Lemma get_set_same d k v : PyDict.get (PyDict.set d k v) k = Some v.
Proof.
  induction d as [|[k0 v0] d IH]; cbn.
  - now rewrite String.eqb_refl.
  - destruct (String.eqb_spec k0 k) as [->|Hne]; cbn.
    + now rewrite String.eqb_refl.
    + destruct (String.eqb_spec k0 k); [contradiction|exact IH].
Qed.

Lemma get_del_other d k k' : k' <> k -> PyDict.get (PyDict.del d k) k' = PyDict.get d k'.
Proof.
  intros Hne. induction d as [|[k0 v0] d IH]; cbn; [reflexivity|].
  destruct (String.eqb_spec k0 k) as [->|Hne0]; cbn.
  - destruct (String.eqb_spec k k'); [congruence|exact IH].
  - destruct (String.eqb_spec k0 k'); [reflexivity|exact IH].
Qed.

Lemma get_set_other d k v k' :
  k' <> k -> PyDict.get (PyDict.set d k v) k' = PyDict.get d k'.
Proof.
  intros Hne. induction d as [|[k0 v0] d IH]; cbn.
  - destruct (String.eqb_spec k k'); [congruence|reflexivity].
  - destruct (String.eqb_spec k0 k) as [->|Hne0]; cbn.
    + destruct (String.eqb_spec k k'); [congruence|]. now apply get_del_other.
    + destruct (String.eqb_spec k0 k'); [reflexivity|exact IH].
Qed.

Lemma get_Some_In d k v : PyDict.get d k = Some v -> In (k, v) d.
Proof.
  induction d as [|[k0 v0] d IH]; cbn; [discriminate|].
  destruct (String.eqb_spec k0 k) as [->|Hne]; [intros [= ->]; auto|auto].
Qed.

Lemma get_None_not_In d k : PyDict.get d k = None -> forall v, ~ In (k, v) d.
Proof.
  induction d as [|[k0 v0] d IH]; cbn; [tauto|].
  destruct (String.eqb_spec k0 k) as [->|Hne]; [discriminate|].
  intros H v [[= -> ->]|Hin]; [congruence|exact (IH H v Hin)].
Qed.

End PyDictFacts.

(* ===================================================================== *)
(** * Key management                                                       *)
(* ===================================================================== *)

Section MaxBy.
Context {A : Type} (key : A -> Z).

Lemma max_by_In (l : list A) : forall best,
  In (KeyManagement.max_by key best l) (best :: l).
Proof.
  induction l as [|x l IH]; intros best; cbn; [auto|].
  destruct (key x >? key best); [destruct (IH x)|destruct (IH best)]; auto.
Qed.

Lemma max_by_ge (l : list A) : forall best x,
  In x (best :: l) -> key x <= key (KeyManagement.max_by key best l).
Proof.
  induction l as [|y l IH]; intros best x Hx; cbn.
  - destruct Hx as [->|[]]. lia.
  - destruct (Z.gtb_spec (key y) (key best)) as [Hgt|Hle].
    + destruct Hx as [->|[->|Hx]].
      * specialize (IH y y (or_introl eq_refl)). lia.
      * apply IH. now left.
      * apply IH. now right.
    + destruct Hx as [->|[->|Hx]].
      * apply IH. now left.
      * specialize (IH best best (or_introl eq_refl)). lia.
      * apply IH. now right.
Qed.

(** A value whose key is strictly above every other value's is the one
    [max] returns. *)
Lemma max_by_strict (l : list A) best y :
  In y (best :: l) ->
  (forall x, In x (best :: l) -> x = y \/ key x < key y) ->
  KeyManagement.max_by key best l = y.
Proof.
  intros Hy Hall.
  destruct (Hall _ (max_by_In l best)) as [?|Hlt]; [assumption|].
  pose proof (max_by_ge l best y Hy). lia.
Qed.

End MaxBy.

Lemma archive_all_In archive_ok expired : forall keys keys' kid k,
  KeyManagement.archive_all archive_ok keys expired = (keys', Ok tt) ->
  (In (kid, k) keys' <-> In (kid, k) keys /\ ~ In kid expired).
Proof.
  induction expired as [|e expired IH]; intros keys keys' kid k; cbn.
  - intros [= <-]. tauto.
  - destruct (archive_ok e); [|discriminate].
    intros H. rewrite (IH _ _ kid k H), In_del. split.
    + intros [[? ?] ?]. split; [assumption|]. intros [?|?]; [congruence|tauto].
    + intros [? Hn]. repeat split; [intros ->| |]; tauto.
Qed.

(** C8.  [get_active_key] raises [KeyManagementError] exactly when the
    active set is empty; on a non-empty set it returns one of its keys, none
    of which was created later; and after a [rotate_keys] that completed it
    returns the pair that rotation generated -- given that no key of the set
    carries a creation time at or after the rotation's clock (unless it has
    the new key's id, and is replaced), and that the policy does not make
    the new key expired on arrival. *)
Theorem get_active_key_spec (P : Platform) (km : KeyManagement.KeyManager) :
  (KeyManagement.get_active_key km = Raise KeyManagementError
   <-> KeyManagement.active_keys km = [])
  /\ (KeyManagement.active_keys km <> [] ->
      exists k,
        KeyManagement.get_active_key km = Ok k
        /\ In k (PyDict.values (KeyManagement.active_keys km))
        /\ forall k', In k' (PyDict.values (KeyManagement.active_keys km)) ->
                      KeyManagement.created_at k' <= KeyManagement.created_at k)
  /\ (forall (env : KeyManagement.RotateEnv) (km' : KeyManagement.KeyManager),
      let clock := KeyManagement.gen_clock (KeyManagement.rot_gen env) in
      let config := KeyManagement.rotation_config km in
      (forall kid k, In (kid, k) (KeyManagement.active_keys km) ->
         KeyManagement.created_at k < utcnow clock
         \/ kid = KeyManagement.make_key_id (KeyManagement.domain km) clock) ->
      utcnow (KeyManagement.rot_clock env)
        - timedelta_days (KeyManagement.key_overlap config)
      <= utcnow clock + timedelta_days (KeyManagement.rotation_interval config) ->
      KeyManagement.rotate_keys P km env = (km', Ok tt) ->
      exists priv,
        KeyManagement.gen_private (KeyManagement.rot_gen env) = Ok priv
        /\ KeyManagement.get_active_key km'
           = Ok (KeyManagement.make_pair P km clock priv)).
Proof.
  split; [|split].
  - unfold KeyManagement.get_active_key, PyDict.values.
    destruct (KeyManagement.active_keys km) as [|kv d]; cbn; [tauto|].
    split; discriminate.
  - intros Hne. unfold KeyManagement.get_active_key.
    destruct (PyDict.values (KeyManagement.active_keys km)) as [|k ks] eqn:Hv.
    + destruct (KeyManagement.active_keys km); [congruence|discriminate].
    + eexists. split; [reflexivity|]. split.
      * apply max_by_In.
      * intros k' Hk'. now apply max_by_ge.
  - intros env km' clock config Hpast Hcfg.
    unfold KeyManagement.rotate_keys, KeyManagement.generate_key_pair.
    fold clock.
    destruct (KeyManagement.gen_private (KeyManagement.rot_gen env)) as [priv|];
      [|discriminate].
    destruct (KeyManagement.gen_save_ok (KeyManagement.rot_gen env)); [|discriminate].
    set (new := KeyManagement.make_pair P km clock priv).
    cbn [KeyManagement.active_keys KeyManagement.with_active_keys].
    set (dict := PyDict.set (KeyManagement.active_keys km) (KeyManagement.key_id new) new).
    set (expired := map fst _).
    destruct (KeyManagement.archive_all _ dict expired) as [keys r] eqn:Harch.
    intros [= <- ->]. exists priv. split; [reflexivity|].
    assert (Hnew : In (KeyManagement.key_id new, new) keys).
    { apply (archive_all_In _ _ _ _ _ _ Harch). split; [apply set_In|].
      unfold expired. rewrite List.in_map_iff. intros ([kid k] & Hkid & Hin).
      cbn in Hkid. subst kid. apply List.filter_In in Hin as [Hin Hexp].
      apply In_set in Hin as [[_ ->]|[Hne _]]; [|exfalso; apply Hne; reflexivity].
      unfold KeyManagement.is_expired in Hexp. cbn in Hexp.
      fold config in Hexp. apply Z.ltb_lt in Hexp. lia. }
    unfold KeyManagement.get_active_key.
    cbn [KeyManagement.active_keys KeyManagement.with_active_keys].
    assert (Hv : In new (PyDict.values keys)).
    { unfold PyDict.values. apply List.in_map_iff. now exists (KeyManagement.key_id new, new). }
    destruct (PyDict.values keys) as [|k ks] eqn:Hvals; [destruct Hv|].
    f_equal. apply max_by_strict; [exact Hv|].
    intros x Hx. rewrite <- Hvals in Hx. unfold PyDict.values in Hx.
    apply List.in_map_iff in Hx as ([kid x'] & Hsnd & Hin). cbn in Hsnd. subst x'.
    apply (archive_all_In _ _ _ _ _ _ Harch) in Hin as [Hin _].
    apply In_set in Hin as [[_ ->]|[Hne Hold]]; [now left|].
    right. destruct (Hpast _ _ Hold) as [Hlt| ->]; [exact Hlt|].
    exfalso. apply Hne. reflexivity.
Qed.

(** A key resolver that knows the active keys of one manager. *)
Definition directory (km : KeyManagement.KeyManager) (key_id : string)
  : option RSAPublicKey :=
  KeyManagement.public_key <$> PyDict.get (KeyManagement.active_keys km) key_id.

(** A manager holding one key generated at time 0, and a rotation 31 days
    later whose files can all be written and moved. *)
Definition sample_manager : KeyManagement.KeyManager :=
  fst (KeyManagement.generate_key_pair Toy.platform
         (KeyManagement.new "example.com" "keys" None)
         {| KeyManagement.gen_clock := at_utc 0 0;
            KeyManagement.gen_private := Ok "first";
            KeyManagement.gen_save_ok := true |}).

Definition sample_rotation : KeyManagement.RotateEnv :=
  {| KeyManagement.rot_gen :=
       {| KeyManagement.gen_clock := at_utc 0 (timedelta_days 31);
          KeyManagement.gen_private := Ok "second";
          KeyManagement.gen_save_ok := true |};
     KeyManagement.rot_clock := at_utc 0 (timedelta_days 31 + 1);
     KeyManagement.rot_archive_ok := fun _ => true |}.

Lemma get_active_key_spec_witness :
  KeyManagement.rotate_keys Toy.platform sample_manager sample_rotation
    = (fst (KeyManagement.rotate_keys Toy.platform sample_manager sample_rotation),
       Ok tt)
  /\ KeyManagement.get_active_key
       (fst (KeyManagement.rotate_keys Toy.platform sample_manager sample_rotation))
     = Ok (KeyManagement.make_pair Toy.platform sample_manager
             (at_utc 0 (timedelta_days 31)) "second").
Proof.
  split; [vm_compute; reflexivity|].
  destruct (get_active_key_spec Toy.platform sample_manager) as (_ & _ & Hrot).
  destruct (Hrot sample_rotation
              (fst (KeyManagement.rotate_keys Toy.platform sample_manager
                      sample_rotation)))
    as (priv & Hpriv & Hget).
  - intros kid k [[= <- <-]|[]]. left. vm_compute. reflexivity.
  - vm_compute. discriminate.
  - vm_compute. reflexivity.
  - injection Hpriv as <-. exact Hget.
Defined.

(* ===================================================================== *)
(** * HTTP signatures: signing                                             *)
(* ===================================================================== *)

Lemma map_keys_fold_get_None {V : Type} (f : string -> string) (key : string)
    (d : PyDict.pydict V) : forall acc,
  PyDict.get acc key = None ->
  (forall k v, In (k, v) d -> f k <> key) ->
  PyDict.get (fold_left (fun acc kv => PyDict.set acc (f (fst kv)) (snd kv)) d acc) key
  = None.
Proof.
  induction d as [|[k v] d IH]; intros acc Hacc Hd; cbn; [exact Hacc|].
  apply IH.
  - rewrite get_set_other; [exact Hacc|]. intros ->. apply (Hd k v); [now left|reflexivity].
  - intros k' v' Hin. apply (Hd k' v'). now right.
Qed.

Lemma map_keys_get_None {V : Type} (f : string -> string) (key : string)
    (d : PyDict.pydict V) :
  (forall k v, In (k, v) d -> f k <> key) ->
  PyDict.get (PyDict.map_keys f d) key = None.
Proof. intros Hd. now apply map_keys_fold_get_None. Qed.

(** A request without a digest header cannot be given a signing string. *)
Lemma _build_signing_string_needs_digest method path headers :
  PyDict.get (PyDict.map_keys PyStr.lower headers) "digest" = None ->
  HttpSignatures._build_signing_string method path headers
    HttpSignatures.headers_to_sign
  = Raise SignatureError.
Proof.
  intros Hdigest. unfold HttpSignatures._build_signing_string,
    HttpSignatures.headers_to_sign.
  cbn [HttpSignatures.signing_lines]. cbn [String.eqb Ascii.eqb Bool.eqb].
  change (PyStr.lower "host") with "host".
  change (PyStr.lower "date") with "date".
  change (PyStr.lower "digest") with "digest".
  rewrite Hdigest.
  destruct (PyDict.get (PyDict.map_keys PyStr.lower headers) "host");
    destruct (PyDict.get (PyDict.map_keys PyStr.lower headers) "date");
    reflexivity.
Qed.

(** C9.  With no body and no header whose lower-cased name is [digest],
    [sign_request] raises [SignatureError]. *)
Theorem sign_request_without_body_raises (P : Platform)
    (self : HttpSignatures.HTTPSignatureVerifier) (method path : string)
    (headers : PyDict.pydict string) (username : option string) (i : Instant) :
  (forall k v, In (k, v) headers -> PyStr.lower k <> "digest") ->
  HttpSignatures.sign_request P self method path headers None username i
  = Raise SignatureError.
Proof.
  intros Hnone. unfold HttpSignatures.sign_request.
  rewrite _build_signing_string_needs_digest; [reflexivity|].
  apply map_keys_get_None. intros k v Hin.
  destruct (PyDict.mem "date" headers); [exact (Hnone k v Hin)|].
  apply In_set in Hin as [[-> _]|[_ Hin]]; [discriminate|exact (Hnone k v Hin)].
Qed.

(** The theorem on the headers [deliver_to_inbox] builds. *)
Lemma sign_request_without_body_raises_witness :
  let headers := [("Content-Type", "application/activity+json");
                  ("User-Agent", "PyFed/1.0");
                  ("Accept", "application/activity+json");
                  ("Host", "example.com")] in
  HttpSignatures.sign_request Toy.platform
    {| HttpSignatures.key_manager := Some sample_manager;
       HttpSignatures.private_key := None;
       HttpSignatures.public_key := None;
       HttpSignatures.key_id := None;
       HttpSignatures._test_now := None |}
    "GET" "/users/alice" headers None None (at_utc 0 0)
  = Raise SignatureError.
Proof.
  apply sign_request_without_body_raises.
  intros k v Hin. cbn in Hin.
  destruct Hin as [[= <- <-]|[[= <- <-]|[[= <- <-]|[[= <- <-]|[]]]]];
    vm_compute; discriminate.
Defined.

(* ===================================================================== *)
(** * HTTP signatures: the parts of the Signature header                   *)
(* ===================================================================== *)

Lemma split_on_free c p : PyStr.contains c p = false -> PyStr.split_on c p = [p].
Proof.
  induction p as [|a p IH]; cbn [PyStr.contains PyStr.split_on]; [reflexivity|].
  destruct (Ascii.eqb a c); cbn [orb]; [discriminate|].
  intros H. now rewrite (IH H).
Qed.

Lemma split_on_app c p rest :
  PyStr.contains c p = false ->
  PyStr.split_on c (p +:+ String c rest) = p :: PyStr.split_on c rest.
Proof.
  induction p as [|a p IH]; simpl.
  - now rewrite Ascii.eqb_refl.
  - destruct (Ascii.eqb a c); simpl; [discriminate|].
    intros H. now rewrite (IH H).
Qed.

Lemma split_on_join c p ps :
  Forall (fun q => PyStr.contains c q = false) (p :: ps) ->
  PyStr.split_on c (PyStr.join (String c EmptyString) (p :: ps)) = p :: ps.
Proof.
  revert p. induction ps as [|q ps IH]; intros p Hall.
  - cbn. apply split_on_free. now apply Forall_cons in Hall as [? _].
  - apply Forall_cons in Hall as [Hp Hall].
    change (PyStr.join (String c EmptyString) (p :: q :: ps))
      with (p +:+ String c (PyStr.join (String c EmptyString) (q :: ps))).
    rewrite (split_on_app _ _ _ Hp). now rewrite (IH q Hall).
Qed.

Definition comma_free (part : string) : Prop := PyStr.contains "," part = false.

(** A part of the Signature header that sets the algorithm component. *)
Definition names_algorithm (part : string) : Prop :=
  match PyStr.split_once "=" part with
  | Some (key, _) => PyStr.strip PyStr.is_space key = "algorithm"
  | None => False
  end.

Lemma parse_parts_join parts :
  Forall comma_free parts ->
  HttpSignatures.parse_parts (PyStr.join "," parts)
  = fold_left HttpSignatures.add_part parts [].
Proof.
  intros Hall. unfold HttpSignatures.parse_parts.
  destruct parts as [|p ps]; [reflexivity|].
  now rewrite (split_on_join "," p ps Hall).
Qed.

(** Two component dictionaries that differ at most in [algorithm]. *)
Definition agree (d1 d2 : PyDict.pydict string) : Prop :=
  forall k, k <> "algorithm" -> PyDict.get d1 k = PyDict.get d2 k.

Lemma agree_add_part d1 d2 part :
  agree d1 d2 ->
  agree (HttpSignatures.add_part d1 part) (HttpSignatures.add_part d2 part).
Proof.
  intros H k Hk. unfold HttpSignatures.add_part.
  destruct (PyStr.split_once "=" part) as [[key value]|]; [|now apply H].
  destruct (String.eqb_spec k (PyStr.strip PyStr.is_space key)) as [->|Hne].
  - now rewrite !get_set_same.
  - rewrite !get_set_other by assumption. now apply H.
Qed.

Lemma agree_fold parts : forall d1 d2,
  agree d1 d2 ->
  agree (fold_left HttpSignatures.add_part parts d1)
        (fold_left HttpSignatures.add_part parts d2).
Proof.
  induction parts as [|p parts IH]; intros d1 d2 H; cbn; [exact H|].
  apply IH. now apply agree_add_part.
Qed.

Lemma agree_algorithm parts : forall d,
  Forall names_algorithm parts ->
  agree (fold_left HttpSignatures.add_part parts d) d.
Proof.
  induction parts as [|p parts IH]; intros d Hall; cbn; [intros k _; reflexivity|].
  apply Forall_cons in Hall as [Hp Hall].
  intros k Hk. rewrite (IH _ Hall k Hk).
  unfold HttpSignatures.add_part. unfold names_algorithm in Hp.
  destruct (PyStr.split_once "=" p) as [[key value]|]; [|reflexivity].
  rewrite Hp. now apply get_set_other.
Qed.

Lemma agree_parts before after alg :
  Forall names_algorithm alg ->
  agree (fold_left HttpSignatures.add_part (before ++ alg ++ after) [])
        (fold_left HttpSignatures.add_part (before ++ after) []).
Proof.
  intros Halg. rewrite !fold_left_app. apply agree_fold.
  now apply agree_algorithm.
Qed.

Lemma declared_lines_ext method path h1 h2 names :
  (forall name, In name names -> PyDict.get h1 name = PyDict.get h2 name) ->
  HttpSignatures.declared_lines method path h1 names
  = HttpSignatures.declared_lines method path h2 names.
Proof.
  unfold HttpSignatures.declared_lines.
  induction names as [|n names IH]; intros H; cbn; [reflexivity|].
  rewrite IH by (intros name Hin; apply H; now right).
  unfold HttpSignatures.declared_line. rewrite (H n) by now left. reflexivity.
Qed.

(** [verify_request] reads the request through the components [keyId],
    [headers] and [signature], the digest header and the declared headers. *)
Lemma verify_request_ext P resolve self h1 h2 s1 s2 method path body :
  PyDict.get h1 "signature" = Some s1 ->
  PyDict.get h2 "signature" = Some s2 ->
  agree (HttpSignatures.parse_parts s1) (HttpSignatures.parse_parts s2) ->
  PyDict.get h1 "digest" = PyDict.get h2 "digest" ->
  (forall declared name,
     PyDict.get (HttpSignatures.parse_parts s2) "headers" = Some declared ->
     In name (PyStr.split_ws declared) ->
     PyDict.get h1 name = PyDict.get h2 name) ->
  HttpSignatures.verify_request P resolve self h1 method path body
  = HttpSignatures.verify_request P resolve self h2 method path body.
Proof.
  intros Hs1 Hs2 Hagree Hdigest Hdecl. unfold HttpSignatures.verify_request.
  rewrite Hs1, Hs2.
  rewrite (Hagree "keyId"), (Hagree "headers"), (Hagree "signature") by discriminate.
  destruct (PyDict.get (HttpSignatures.parse_parts s2) "keyId") as [key_id|];
    [|reflexivity].
  destruct (PyDict.get (HttpSignatures.parse_parts s2) "headers") as [declared|]
    eqn:Hd; [|reflexivity].
  destruct (PyDict.get (HttpSignatures.parse_parts s2) "signature") as [sig|];
    [|reflexivity].
  unfold HttpSignatures.digest_ok. rewrite Hdigest.
  rewrite (declared_lines_ext method path h1 h2 (PyStr.split_ws declared)
             (fun name Hin => Hdecl declared name eq_refl Hin)).
  reflexivity.
Qed.

(** C10.  Two requests whose Signature headers differ only in the parts
    that set the algorithm component (any number of them, with any
    comma-free text, or none) get the same answer from [verify_request].
    The declared header list is taken not to name the Signature header
    itself, whose text would otherwise be part of the signed lines. *)
Theorem verify_request_ignores_algorithm (P : Platform)
    (resolve : string -> option RSAPublicKey)
    (self : HttpSignatures.HTTPSignatureVerifier)
    (headers : PyDict.pydict string) (method path : string)
    (body : option Json.json) (before after alg1 alg2 : list string) :
  Forall comma_free (before ++ after) ->
  Forall comma_free alg1 -> Forall names_algorithm alg1 ->
  Forall comma_free alg2 -> Forall names_algorithm alg2 ->
  (forall declared,
     PyDict.get (HttpSignatures.parse_parts (PyStr.join "," (before ++ after)))
       "headers" = Some declared ->
     ~ In "signature" (PyStr.split_ws declared)) ->
  HttpSignatures.verify_request P resolve self
    (PyDict.set headers "signature" (PyStr.join "," (before ++ alg1 ++ after)))
    method path body
  = HttpSignatures.verify_request P resolve self
      (PyDict.set headers "signature" (PyStr.join "," (before ++ alg2 ++ after)))
      method path body.
Proof.
  intros Hfree Hf1 Ha1 Hf2 Ha2 Hself.
  apply Forall_app in Hfree as [Hfb Hfa].
  assert (H1 : Forall comma_free (before ++ alg1 ++ after))
    by (rewrite !Forall_app; auto).
  assert (H2 : Forall comma_free (before ++ alg2 ++ after))
    by (rewrite !Forall_app; auto).
  assert (H0 : Forall comma_free (before ++ after))
    by (rewrite Forall_app; auto).
  eapply verify_request_ext.
  - apply get_set_same.
  - apply get_set_same.
  - rewrite (parse_parts_join _ H1), (parse_parts_join _ H2).
    intros k Hk. rewrite (agree_parts before after alg1 Ha1 k Hk).
    now rewrite (agree_parts before after alg2 Ha2 k Hk).
  - now rewrite !get_set_other by discriminate.
  - intros declared name Hd Hin.
    rewrite (parse_parts_join _ H2) in Hd.
    rewrite (agree_parts before after alg2 Ha2 "headers") in Hd by discriminate.
    rewrite <- (parse_parts_join _ H0) in Hd.
    assert (name <> "signature") by (intros ->; exact (Hself declared Hd Hin)).
    now rewrite !get_set_other.
Qed.

Definition sample_verifier : HttpSignatures.HTTPSignatureVerifier :=
  {| HttpSignatures.key_manager := Some sample_manager;
     HttpSignatures.private_key := None;
     HttpSignatures.public_key := None;
     HttpSignatures.key_id := None;
     HttpSignatures._test_now := None |}.

(** The parts of the Signature header of a request for /inbox signed with
    the active key of [sample_manager], apart from the algorithm. *)
Definition sample_key_part : string := "keyId=https://example.com/keys/0".

Definition sample_signature_parts : list string :=
  ["headers=(request-target) host date";
   "signature="
   +:+ Toy.encode
         (Toy.sign "first"
            (PyStr.join HttpSignatures.newline
               [HttpSignatures.request_target_line "POST" "/inbox";
                "host: example.com"; "date: 0"]))].

(** The theorem on a request that names rsa-sha256 and on the same request
    naming another algorithm: both are accepted. *)
Lemma verify_request_ignores_algorithm_witness :
  let headers := [("host", "example.com"); ("date", "0")] in
  HttpSignatures.verify_request Toy.platform (directory sample_manager)
    sample_verifier
    (PyDict.set headers "signature"
       (PyStr.join ","
          ([sample_key_part] ++ ["algorithm=rsa-sha256"] ++ sample_signature_parts)))
    "POST" "/inbox" None
  = HttpSignatures.verify_request Toy.platform (directory sample_manager)
      sample_verifier
      (PyDict.set headers "signature"
         (PyStr.join ","
            ([sample_key_part] ++ ["algorithm=hs2019"] ++ sample_signature_parts)))
      "POST" "/inbox" None
  /\ HttpSignatures.verify_request Toy.platform (directory sample_manager)
       sample_verifier
       (PyDict.set headers "signature"
          (PyStr.join ","
             ([sample_key_part] ++ ["algorithm=hs2019"] ++ sample_signature_parts)))
       "POST" "/inbox" None
     = true.
Proof.
  split; [|vm_compute; reflexivity].
  apply verify_request_ignores_algorithm.
  - repeat constructor.
  - repeat constructor.
  - repeat constructor.
  - repeat constructor.
  - repeat constructor.
  - intros declared Hd. vm_compute in Hd. injection Hd as <-.
    vm_compute. intuition discriminate.
Defined.

(* ===================================================================== *)
(** * The two serialisations of a body                                     *)
(* ===================================================================== *)

Section JsonLengths.
Import Json.

Lemma json_nested_ind (Pj : json -> Prop) :
  Pj JNull -> (forall b, Pj (JBool b)) -> (forall z, Pj (JInt z)) ->
  (forall s, Pj (JStr s)) ->
  (forall items, Forall Pj items -> Pj (JList items)) ->
  (forall items, Forall (fun kv => Pj (snd kv)) items -> Pj (JDict items)) ->
  forall j, Pj j.
Proof.
  intros Hnull Hbool Hint Hstr Hlist Hdict.
  fix IH 1. intros [| b | z | s | items | items].
  - exact Hnull.
  - apply Hbool.
  - apply Hint.
  - apply Hstr.
  - apply Hlist. induction items as [|j items IHitems]; constructor; [apply IH|exact IHitems].
  - apply Hdict. induction items as [|[k v] items IHitems]; constructor;
      [apply IH|exact IHitems].
Qed.

(** The characters of the strings of a list. *)
Fixpoint total (l : list string) : nat :=
  match l with
  | [] => O
  | s :: l' => (String.length s + total l')%nat
  end.

Lemma length_append (a b : string) :
  String.length (a +:+ b) = (String.length a + String.length b)%nat.
Proof. induction a as [|c a IH]; simpl; [reflexivity|]. now rewrite IH. Qed.

Lemma length_join sep (x : string) (l : list string) :
  (String.length (PyStr.join sep (x :: l))
   = total (x :: l) + length l * String.length sep)%nat.
Proof.
  revert x. induction l as [|y l IH]; intros x.
  - simpl. lia.
  - change (PyStr.join sep (x :: y :: l)) with (x +:+ sep +:+ PyStr.join sep (y :: l)).
    rewrite !length_append, IH. simpl. lia.
Qed.

Lemma total_insert_item (f : string * string -> string) kv l :
  total (List.map f (insert_item kv l))
  = (String.length (f kv) + total (List.map f l))%nat.
Proof.
  induction l as [|kv' l IH]; simpl; [reflexivity|].
  destruct (String.leb (fst kv) (fst kv')); simpl; [reflexivity|].
  rewrite IH. lia.
Qed.

Lemma total_sort_items (f : string * string -> string) l :
  total (List.map f (sort_items l)) = total (List.map f l).
Proof.
  induction l as [|kv l IH]; [reflexivity|].
  change (sort_items (kv :: l)) with (insert_item kv (sort_items l)).
  rewrite total_insert_item, IH. reflexivity.
Qed.

Lemma length_insert_item kv l : length (insert_item kv l) = S (length l).
Proof.
  induction l as [|kv' l IH]; simpl; [reflexivity|].
  destruct (String.leb (fst kv) (fst kv')); simpl; [reflexivity|].
  now rewrite IH.
Qed.

Lemma length_sort_items l : length (sort_items l) = length l.
Proof.
  induction l as [|kv l IH]; [reflexivity|].
  change (sort_items (kv :: l)) with (insert_item kv (sort_items l)).
  now rewrite length_insert_item, IH.
Qed.

(** The rendered items of an object, in the order of the dictionary. *)
Definition rendered (item_sep key_sep : string) (items : list (string * json))
  : list (string * string) :=
  List.map (fun kv => match kv with
                      | (k, v) => (k, dumps item_sep key_sep v)
                      end) items.

Definition item_text (key_sep : string) (kv : string * string) : string :=
  encode_str (fst kv) +:+ key_sep +:+ snd kv.

Lemma dumps_object item_sep key_sep items :
  dumps item_sep key_sep (JDict items)
  = "{" +:+ PyStr.join item_sep
              (List.map (item_text key_sep)
                 (sort_items (rendered item_sep key_sep items))) +:+ "}".
Proof. reflexivity. Qed.

Lemma dumps_array item_sep key_sep items :
  dumps item_sep key_sep (JList items)
  = "[" +:+ PyStr.join item_sep (List.map (dumps item_sep key_sep) items) +:+ "]".
Proof. reflexivity. Qed.

Lemma length_join_S sep (l : list string) n :
  length l = S n ->
  String.length (PyStr.join sep l) = (total l + n * String.length sep)%nat.
Proof.
  destruct l as [|x l]; [discriminate|]. intros [= <-]. apply length_join.
Qed.

Lemma length_rendered_items item_sep key_sep items :
  length (List.map (item_text key_sep) (sort_items (rendered item_sep key_sep items)))
  = length items.
Proof.
  rewrite length_map, length_sort_items. unfold rendered. apply length_map.
Qed.

Lemma total_items_le (items : list (string * json)) :
  Forall (fun kv => (String.length (dumps "," ":" (snd kv))
                     <= String.length (dumps ", " ": " (snd kv)))%nat) items ->
  (total (List.map (item_text ":") (rendered "," ":" items)) + length items
   <= total (List.map (item_text ": ") (rendered ", " ": " items)))%nat.
Proof.
  induction 1 as [|[k v] items Hkv _ IH]; [simpl; lia|].
  unfold rendered in *. rewrite !map_cons.
  change (total (?a :: ?l)) with (String.length a + total l)%nat.
  unfold item_text at 1 3. cbn [fst snd length] in *.
  rewrite !length_append. simpl String.length. lia.
Qed.

Lemma total_values_le (items : list json) :
  Forall (fun v => (String.length (dumps "," ":" v)
                    <= String.length (dumps ", " ": " v))%nat) items ->
  (total (List.map (dumps "," ":") items)
   <= total (List.map (dumps ", " ": ") items))%nat.
Proof. induction 1 as [|v items Hv _ IH]; simpl; lia. Qed.

(** The compact serialisation is never longer than the default one. *)
Lemma compact_not_longer j :
  (String.length (to_json_string j) <= String.length (dumps_default j))%nat.
Proof.
  unfold to_json_string, dumps_default.
  induction j as [| b | z | s | items IH | items IH] using json_nested_ind;
    try (simpl; lia).
  - destruct items as [|v items]; [simpl; lia|].
    rewrite !dumps_array, !length_append.
    apply total_values_le in IH.
    rewrite (length_join_S "," _ (length items)) by (now rewrite length_map).
    rewrite (length_join_S ", " _ (length items)) by (now rewrite length_map).
    simpl String.length. lia.
  - destruct items as [|kv items]; [simpl; lia|].
    rewrite !dumps_object, !length_append.
    apply total_items_le in IH.
    rewrite <- (total_sort_items (item_text ":")) in IH.
    rewrite <- (total_sort_items (item_text ": ")) in IH.
    rewrite (length_join_S "," _ (length items))
      by (now rewrite length_rendered_items).
    rewrite (length_join_S ", " _ (length items))
      by (now rewrite length_rendered_items).
    simpl String.length. simpl length in IH. lia.
Qed.

(** On an object with at least one key the compact serialisation, which
    [sign_request] digests, is shorter than the default one, which
    [verify_request] digests: the two texts differ. *)
Theorem compact_shorter (kv : string * json) (items : list (string * json)) :
  (String.length (to_json_string (JDict (kv :: items)))
   < String.length (dumps_default (JDict (kv :: items))))%nat.
Proof.
  unfold to_json_string, dumps_default.
  rewrite !dumps_object, !length_append.
  assert (IH : Forall (fun kv => (String.length (dumps "," ":" (snd kv))
                                  <= String.length (dumps ", " ": " (snd kv)))%nat)
                 (kv :: items)).
  { apply Forall_forall. intros x _. apply compact_not_longer. }
  apply total_items_le in IH.
  rewrite <- (total_sort_items (item_text ":")) in IH.
  rewrite <- (total_sort_items (item_text ": ")) in IH.
  rewrite (length_join_S "," _ (length items))
    by (now rewrite length_rendered_items).
  rewrite (length_join_S ", " _ (length items))
    by (now rewrite length_rendered_items).
  simpl String.length. simpl length in IH. lia.
Qed.

End JsonLengths.

(* ===================================================================== *)
(** * HTTP signatures: what a signed delivery meets at the receiver        *)
(* ===================================================================== *)

(** The date, the Signature header and all the headers [sign_request]
    returns for the request of a delivery. *)
Definition delivery_date (P : Platform)
    (self : HttpSignatures.HTTPSignatureVerifier) (i : Instant) : string :=
  strftime_http P (match HttpSignatures._test_now self with
                   | Some t => t
                   | None => utcnow i
                   end).

Definition delivery_signature (P : Platform)
    (self : HttpSignatures.HTTPSignatureVerifier) (path domain : string)
    (activity : Json.json) (i : Instant) (key : RSAPrivateKey * string) : string :=
  HttpSignatures.signature_header P (snd key)
    (rsa_sign P (fst key)
       (PyStr.join HttpSignatures.newline
          [HttpSignatures.request_target_line "POST" path;
           "host: " +:+ domain;
           "date: " +:+ delivery_date P self i;
           "digest: " +:+ HttpSignatures._generate_digest P activity])).

Definition signed_delivery (P : Platform)
    (self : HttpSignatures.HTTPSignatureVerifier) (path domain : string)
    (activity : Json.json) (i : Instant) (key : RSAPrivateKey * string)
  : PyDict.pydict string :=
  Delivery.request_headers domain
  ++ [("date", delivery_date P self i);
      ("digest", HttpSignatures._generate_digest P activity);
      ("Signature", delivery_signature P self path domain activity i key)].

Lemma sign_request_delivery P self path domain activity username i :
  HttpSignatures.sign_request P self "POST" path
    (Delivery.request_headers domain) (Some activity) username i
  = match HttpSignatures.signing_key self with
    | Ok key => Ok (signed_delivery P self path domain activity i key)
    | Raise _ => Raise SignatureError
    end.
Proof.
  unfold HttpSignatures.sign_request, Delivery.request_headers.
  destruct (HttpSignatures.signing_key self) as [key|e]; reflexivity.
Qed.

Lemma received_signed_delivery P self path domain activity i key :
  HttpSignatures.received (signed_delivery P self path domain activity i key)
  = [("content-type", "application/activity+json");
     ("user-agent", "PyFed/1.0");
     ("accept", "application/activity+json");
     ("host", domain);
     ("date", delivery_date P self i);
     ("digest", HttpSignatures._generate_digest P activity);
     ("signature", delivery_signature P self path domain activity i key)].
Proof. reflexivity. Qed.

Lemma received_get_signature P self path domain activity i key :
  PyDict.get
    (HttpSignatures.received (signed_delivery P self path domain activity i key))
    "signature"
  = Some (delivery_signature P self path domain activity i key).
Proof. reflexivity. Qed.

Lemma received_get_digest P self path domain activity i key :
  PyDict.get
    (HttpSignatures.received (signed_delivery P self path domain activity i key))
    "digest"
  = Some (HttpSignatures._generate_digest P activity).
Proof. reflexivity. Qed.

(** C1 (what the code does).  The headers [sign_request] produces for a
    delivery are rejected by [verify_request] as they stand, because the
    header is stored under the name [Signature] and looked up under the name
    [signature]; and they are rejected after the receiver lower-cased the
    header names whenever the digest of the compact serialisation, which
    [sign_request] sends, differs from the digest of the default
    serialisation, which [verify_request] expects. *)
Theorem signed_delivery_is_rejected (P : Platform)
    (resolve : string -> option RSAPublicKey)
    (self : HttpSignatures.HTTPSignatureVerifier) (path domain : string)
    (activity : Json.json) (username : option string) (i : Instant)
    (signed : PyDict.pydict string) :
  HttpSignatures.sign_request P self "POST" path
    (Delivery.request_headers domain) (Some activity) username i = Ok signed ->
  HttpSignatures._generate_digest P activity
    <> HttpSignatures.expected_digest P activity ->
  HttpSignatures.verify_request P resolve self signed "POST" path (Some activity)
    = false
  /\ HttpSignatures.verify_request P resolve self (HttpSignatures.received signed)
       "POST" path (Some activity) = false.
Proof.
  rewrite sign_request_delivery.
  destruct (HttpSignatures.signing_key self) as [key|e]; [|discriminate].
  intros [= <-] Hdigest. split; [reflexivity|].
  unfold HttpSignatures.verify_request. rewrite received_get_signature.
  destruct (PyDict.get _ "keyId") as [key_id|]; [|reflexivity].
  destruct (PyDict.get _ "headers") as [declared|]; [|reflexivity].
  destruct (PyDict.get _ "signature") as [sig|]; [|reflexivity].
  destruct (PyStr.is_empty key_id); [reflexivity|].
  unfold HttpSignatures.digest_ok. rewrite received_get_digest.
  destruct (String.eqb_spec (HttpSignatures._generate_digest P activity)
              (HttpSignatures.expected_digest P activity)); [contradiction|reflexivity].
Qed.

(** The rejection on the delivery of the activity [{"a": 1}], signed with
    the active key of [sample_manager] and verified against that key. *)
Definition sample_activity : Json.json := Json.JDict [("a", Json.JInt 1)].

Definition sample_signed : PyDict.pydict string :=
  signed_delivery Toy.platform sample_verifier "/inbox" "example.com"
    sample_activity (at_utc 0 0) ("first", "https://example.com/keys/0").

Lemma signed_delivery_is_rejected_witness :
  HttpSignatures.verify_request Toy.platform (directory sample_manager)
    sample_verifier sample_signed "POST" "/inbox" (Some sample_activity) = false
  /\ HttpSignatures.verify_request Toy.platform (directory sample_manager)
       sample_verifier (HttpSignatures.received sample_signed) "POST" "/inbox"
       (Some sample_activity) = false.
Proof.
  apply (signed_delivery_is_rejected Toy.platform (directory sample_manager)
           sample_verifier "/inbox" "example.com" sample_activity None
           (at_utc 0 0) sample_signed).
  - vm_compute. reflexivity.
  - vm_compute. discriminate.
Defined.

(** The same delivery with the empty activity, whose two serialisations
    coincide, is accepted once the header names are lower-cased. *)
Example empty_activity_round_trip :
  HttpSignatures.verify_request Toy.platform (directory sample_manager)
    sample_verifier
    (HttpSignatures.received
       (signed_delivery Toy.platform sample_verifier "/inbox" "example.com"
          (Json.JDict []) (at_utc 0 0) ("first", "https://example.com/keys/0")))
    "POST" "/inbox" (Some (Json.JDict [])) = true.
Proof. vm_compute. reflexivity. Qed.

(* ===================================================================== *)
(** * HTTP signatures: declared headers and the clock                      *)
(* ===================================================================== *)

Lemma declared_lines_app method path headers l1 l2 :
  HttpSignatures.declared_lines method path headers (l1 ++ l2)
  = HttpSignatures.declared_lines method path headers l1
    ++ HttpSignatures.declared_lines method path headers l2.
Proof. unfold HttpSignatures.declared_lines. apply flat_map_app. Qed.

(** A declared header that the request does not carry adds nothing to the
    signing string. *)
Lemma declared_lines_absent method path headers before absent after :
  absent <> "(request-target)" ->
  PyDict.get headers absent = None ->
  HttpSignatures.declared_lines method path headers (before ++ absent :: after)
  = HttpSignatures.declared_lines method path headers (before ++ after).
Proof.
  intros Hrt Habs. rewrite !declared_lines_app. f_equal.
  unfold HttpSignatures.declared_lines at 1. cbn [flat_map].
  unfold HttpSignatures.declared_line at 1.
  destruct (String.eqb_spec absent "(request-target)"); [contradiction|].
  rewrite Habs. reflexivity.
Qed.

(** With a key resolver in place of the missing [_get_public_key], a
    request whose Signature header declares a header that the request does
    not carry would be accepted as soon as its signature is valid for the
    lines of the declared headers it does carry: the loop that rebuilds the
    signing string skips a declared name that is not a key of the headers. *)
Theorem verify_request_accepts_absent_declared_header (P : Platform)
    (resolve : string -> option RSAPublicKey)
    (self : HttpSignatures.HTTPSignatureVerifier)
    (headers : PyDict.pydict string) (method path : string)
    (body : option Json.json)
    (header key_id declared signature_b64 absent : string)
    (before after : list string) (public_key signature : string) :
  PyDict.get headers "signature" = Some header ->
  PyDict.get (HttpSignatures.parse_parts header) "keyId" = Some key_id ->
  PyStr.is_empty key_id = false ->
  PyDict.get (HttpSignatures.parse_parts header) "headers" = Some declared ->
  PyDict.get (HttpSignatures.parse_parts header) "signature" = Some signature_b64 ->
  PyStr.split_ws declared = before ++ absent :: after ->
  absent <> "(request-target)" ->
  PyDict.get headers absent = None ->
  HttpSignatures.digest_ok P headers body = true ->
  resolve key_id = Some public_key ->
  b64decode P signature_b64 = Some signature ->
  rsa_verify P public_key signature
    (PyStr.join HttpSignatures.newline
       (HttpSignatures.declared_lines method path headers (before ++ after)))
  = true ->
  HttpSignatures.verify_request P resolve self headers method path body = true.
Proof.
  intros Hsig Hkey Hne Hdecl Hs64 Hsplit Hrt Habs Hdig Hres Hb64 Hver.
  unfold HttpSignatures.verify_request.
  rewrite Hsig, Hkey, Hdecl, Hs64, Hne, Hdig, Hres, Hb64, Hsplit.
  cbn [negb]. rewrite (declared_lines_absent _ _ _ _ _ _ Hrt Habs). exact Hver.
Qed.

(** A request for /inbox that carries a host header, declares
    [(request-target) host x-nonce], and is signed over the two lines it
    has. *)
Definition sample_incomplete : PyDict.pydict string :=
  [("host", "example.com");
   ("signature",
    "keyId=https://example.com/keys/0,headers=(request-target) host x-nonce,signature="
    +:+ Toy.encode
          (Toy.sign "first"
             (PyStr.join HttpSignatures.newline
                [HttpSignatures.request_target_line "POST" "/inbox";
                 "host: example.com"])))].

Lemma verify_request_accepts_absent_declared_header_witness :
  PyDict.get sample_incomplete "x-nonce" = None
  /\ HttpSignatures.verify_request Toy.platform (directory sample_manager)
       sample_verifier sample_incomplete "POST" "/inbox" None = true.
Proof.
  split; [reflexivity|].
  apply (verify_request_accepts_absent_declared_header Toy.platform
           (directory sample_manager) sample_verifier sample_incomplete
           "POST" "/inbox" None
           ("keyId=https://example.com/keys/0,headers=(request-target) host x-nonce,signature="
            +:+ Toy.encode
                  (Toy.sign "first"
                     (PyStr.join HttpSignatures.newline
                        [HttpSignatures.request_target_line "POST" "/inbox";
                         "host: example.com"])))
           "https://example.com/keys/0" "(request-target) host x-nonce"
           (Toy.encode
              (Toy.sign "first"
                 (PyStr.join HttpSignatures.newline
                    [HttpSignatures.request_target_line "POST" "/inbox";
                     "host: example.com"])))
           "x-nonce" ["(request-target)"; "host"] [] "pub-first"
           (Toy.sign "first"
              (PyStr.join HttpSignatures.newline
                 [HttpSignatures.request_target_line "POST" "/inbox";
                  "host: example.com"])));
    try (vm_compute; reflexivity).
  vm_compute. discriminate.
Defined.





(** [verify_request] does not read the clock, nor the test time. *)
Lemma verify_request_ignores_clock P resolve self t headers method path body :
  HttpSignatures.verify_request P resolve (HttpSignatures.set_test_time self t)
    headers method path body
  = HttpSignatures.verify_request P resolve self headers method path body.
Proof. reflexivity. Qed.

(** C3 (what the code does).  A request whose date header reads as the
    time T and which [verify_request] accepts with the clock at T + 4
    minutes is accepted with the clock at T + 6 minutes as well, although
    [_verify_date] answers false for that date at T + 6 minutes (and true at
    T + 4 minutes): [verify_request] never asks it. *)
Theorem verify_request_accepts_stale_date (P : Platform)
    (resolve : string -> option RSAPublicKey)
    (self : HttpSignatures.HTTPSignatureVerifier)
    (headers : PyDict.pydict string) (method path : string)
    (body : option Json.json) (date : string) (T : datetime) (i : Instant) :
  PyDict.get headers "date" = Some date ->
  PyStr.is_empty date = false ->
  strptime_http P date = Some T ->
  HttpSignatures.verify_request P resolve
    (HttpSignatures.set_test_time self (T + timedelta_minutes 4))
    headers method path body = true ->
  HttpSignatures.verify_request P resolve
    (HttpSignatures.set_test_time self (T + timedelta_minutes 6))
    headers method path body = true
  /\ HttpSignatures._verify_date P
       (HttpSignatures.set_test_time self (T + timedelta_minutes 6))
       (PyDict.get headers "date") i = false
  /\ HttpSignatures._verify_date P
       (HttpSignatures.set_test_time self (T + timedelta_minutes 4))
       (PyDict.get headers "date") i = true.
Proof.
  intros Hdate Hne Hparse Haccepted. split; [exact Haccepted|].
  unfold HttpSignatures._verify_date. rewrite Hdate, Hne, Hparse.
  cbn [HttpSignatures._test_now HttpSignatures.set_test_time].
  unfold timedelta_minutes, timedelta_seconds. split.
  - destruct (Z.leb_spec (T + 6 * 60 * 1000000 - 5 * 60 * 1000000) T); [lia|reflexivity].
  - destruct (Z.leb_spec (T + 4 * 60 * 1000000 - 5 * 60 * 1000000) T); [|lia].
    destruct (Z.leb_spec T (T + 4 * 60 * 1000000 + 5 * 60 * 1000000)); [reflexivity|lia].
Qed.

(** A delivery of the empty activity signed with the date T = 0, as the
    receiver gets it. *)
Definition sample_dated : PyDict.pydict string :=
  HttpSignatures.received
    (signed_delivery Toy.platform (HttpSignatures.set_test_time sample_verifier 0)
       "/inbox" "example.com" (Json.JDict []) (at_utc 0 0)
       ("first", "https://example.com/keys/0")).

Lemma verify_request_accepts_stale_date_witness :
  HttpSignatures.verify_request Toy.platform (directory sample_manager)
    (HttpSignatures.set_test_time sample_verifier (0 + timedelta_minutes 6))
    sample_dated "POST" "/inbox" (Some (Json.JDict [])) = true
  /\ HttpSignatures._verify_date Toy.platform
       (HttpSignatures.set_test_time sample_verifier (0 + timedelta_minutes 6))
       (PyDict.get sample_dated "date") (at_utc 0 (timedelta_minutes 6)) = false
  /\ HttpSignatures._verify_date Toy.platform
       (HttpSignatures.set_test_time sample_verifier (0 + timedelta_minutes 4))
       (PyDict.get sample_dated "date") (at_utc 0 (timedelta_minutes 6)) = true.
Proof.
  apply (verify_request_accepts_stale_date Toy.platform (directory sample_manager)
           sample_verifier sample_dated "POST" "/inbox" (Some (Json.JDict []))
           "0" 0 (at_utc 0 (timedelta_minutes 6)));
    vm_compute; reflexivity.
Defined.

(* ===================================================================== *)
(** * Delivery: inline retries                                             *)
(* ===================================================================== *)

Definition too_many_requests : Delivery.Response :=
  {| Delivery.status := 429; Delivery.headers := []; Delivery.text := "" |}.

(** C4 (what the code does).  Against a server that answers every request
    with 429 (and no Retry-After or rate-limit header), a delivery whose
    request can be signed never returns: whatever the retry count it starts
    from and however many activations it is given, each of them posts once
    more and recurses.  [max_retries] is not consulted. *)
Theorem deliver_to_inbox_retries_429_without_bound (P : Platform) (tz : Z)
    (server : nat -> Delivery.outcome) (self : Delivery.ActivityDelivery)
    (activity : Json.json) (inbox_url : string) (username : option string)
    (key : RSAPrivateKey * string) :
  (forall n, server n = Delivery.Answers too_many_requests) ->
  HttpSignatures.signing_key (Delivery.signature_verifier self) = Ok key ->
  forall (fuel : nat) (retry_count : Z) (w : Delivery.World),
    snd (Delivery.deliver_to_inbox P tz server fuel self activity inbox_url
           username retry_count w) = None
    /\ Delivery.posts
         (fst (Delivery.deliver_to_inbox P tz server fuel self activity inbox_url
                 username retry_count w))
       = (Delivery.posts w + fuel)%nat.
Proof.
  intros Hserver Hkey fuel.
  induction fuel as [|fuel IH]; intros retry_count w.
  - cbn. split; [reflexivity|lia].
  - cbn [Delivery.deliver_to_inbox].
    destruct (urlparse P inbox_url) as [domain path].
    destruct (RateLimit.check_rate_limit (Delivery.limiter w) domain
                (at_utc tz (Delivery.time w))) as [allowed rl].
    set (w1 := if allowed then Delivery.with_limiter w rl else _).
    assert (Hposts : Delivery.posts w1 = Delivery.posts w).
    { unfold w1. destruct allowed; [reflexivity|].
      destruct (RateLimit.get_wait_time _ _ _). reflexivity. }
    rewrite sign_request_delivery, Hkey, Hserver.
    cbn [Delivery.headers too_many_requests Delivery.ci_get
         RateLimit.update_rate_limit Delivery.status Z.eqb Pos.eqb orb].
    unfold Delivery.retry_after_of.
    cbn [Delivery.headers too_many_requests Delivery.ci_get].
    match goal with
    | |- context [Delivery.deliver_to_inbox _ _ _ fuel _ _ _ _ ?rc ?w'] =>
        destruct (IH rc w') as [Hnone Hcount]; rewrite Hnone, Hcount
    end.
    split; [reflexivity|]. cbn. lia.
Qed.

Definition sample_delivery : Delivery.ActivityDelivery :=
  {| Delivery.timeout := 30; Delivery.max_retries := 3;
     Delivery.retry_delay := 20; Delivery.max_concurrent := 10;
     Delivery.signature_verifier := sample_verifier |}.

Definition sample_world : Delivery.World :=
  {| Delivery.time := 0;
     Delivery.limiter := RateLimit.new None RateLimit.SLIDING_WINDOW 3600;
     Delivery.posts := 0 |}.

(** With [max_retries = 3], ten activations post ten times and still have
    no result. *)
Lemma deliver_to_inbox_retries_429_without_bound_witness :
  snd (Delivery.deliver_to_inbox Toy.platform 0
         (fun _ => Delivery.Answers too_many_requests) 10 sample_delivery
         sample_activity "https://example.com/inbox" None 0 sample_world) = None
  /\ Delivery.posts
       (fst (Delivery.deliver_to_inbox Toy.platform 0
               (fun _ => Delivery.Answers too_many_requests) 10 sample_delivery
               sample_activity "https://example.com/inbox" None 0 sample_world))
     = 10%nat.
Proof.
  apply (deliver_to_inbox_retries_429_without_bound Toy.platform 0
           (fun _ => Delivery.Answers too_many_requests) sample_delivery
           sample_activity "https://example.com/inbox" None
           ("first", "https://example.com/keys/0")).
  - reflexivity.
  - vm_compute. reflexivity.
Defined.



(* ===================================================================== *)
(** * The delivery queue                                                   *)
(* ===================================================================== *)

Section QueueFacts.
Import Queue.

Variable self : DeliveryQueue.
Variable deliver_activity : pyval -> pyval -> result Delivery.DeliveryResult.

(** A record whose status is a member of [DeliveryStatus] cannot be
    serialised. *)
Lemma to_json_status d s : status d = PStatus s -> to_json d = Raise TypeError.
Proof.
  intros Hs. unfold to_json.
  destruct (id d), (activity d), (recipients d); cbn; try reflexivity;
    rewrite Hs; reflexivity.
Qed.

Lemma attempt_status d n delivery_id redis i :
  exists s, status (fst (attempt self deliver_activity d n delivery_id redis i))
            = PStatus s.
Proof.
  unfold attempt.
  destruct (deliver_activity (activity d) (recipients d)) as [result|e];
    [|eexists; reflexivity].
  destruct (Delivery.success result); [|eexists; reflexivity].
  destruct (n <? max_attempts self); [|eexists; reflexivity].
  destruct (retry_time i n); eexists; reflexivity.
Qed.

Lemma attempt_store d n delivery_id redis i :
  snd (attempt self deliver_activity d n delivery_id redis i) = redis
  \/ exists score,
       snd (attempt self deliver_activity d n delivery_id redis i)
       = zadd redis delivery_id score.
Proof.
  unfold attempt.
  destruct (deliver_activity (activity d) (recipients d)) as [result|e]; [|now left].
  destruct (Delivery.success result); [|now left].
  destruct (n <? max_attempts self); [|now left].
  destruct (retry_time i n); [right; eexists; reflexivity|now left].
Qed.

End QueueFacts.

(** In memory, a failed attempt that leaves attempts (the count [n] after
    the increment is below [max_attempts]) makes the job RETRYING, due
    [2^n] minutes from now, and enters it in the index at that time. *)
Theorem attempt_reschedules (self : Queue.DeliveryQueue)
    (deliver_activity : Queue.pyval -> Queue.pyval -> result Delivery.DeliveryResult)
    (d : Queue.QueuedDelivery) (n : Z) (delivery_id : string)
    (redis : Queue.Redis) (i : Instant) (result : Delivery.DeliveryResult) :
  deliver_activity (Queue.activity d) (Queue.recipients d) = Ok result ->
  Delivery.success result = [] ->
  0 <= n < Queue.max_attempts self ->
  utcnow i + timedelta_minutes (2 ^ n) <= Queue.datetime_max ->
  Queue.status (fst (Queue.attempt self deliver_activity d n delivery_id redis i))
    = Queue.PStatus Queue.RETRYING
  /\ Queue.next_attempt
       (fst (Queue.attempt self deliver_activity d n delivery_id redis i))
     = Queue.PDatetime (utcnow i + timedelta_minutes (2 ^ n))
  /\ snd (Queue.attempt self deliver_activity d n delivery_id redis i)
     = Queue.zadd redis delivery_id
         (Queue.score_of i (utcnow i + timedelta_minutes (2 ^ n))).
Proof.
  intros Hres Hfail [Hn0 Hn] Hmax. unfold Queue.attempt. rewrite Hres, Hfail.
  destruct (Z.ltb_spec n (Queue.max_attempts self)); [|lia].
  unfold Queue.retry_time, Queue.backoff.
  destruct (Z.leb_spec 0 n); [|lia].
  destruct (Z.leb_spec (utcnow i + timedelta_minutes (2 ^ n)) Queue.datetime_max);
    [|lia].
  auto.
Qed.

(** In memory, a failed attempt that was the last one (the count [n] after
    the increment has reached [max_attempts]) makes the job FAILED and
    leaves the index alone. *)
Theorem attempt_exhausted (self : Queue.DeliveryQueue)
    (deliver_activity : Queue.pyval -> Queue.pyval -> result Delivery.DeliveryResult)
    (d : Queue.QueuedDelivery) (n : Z) (delivery_id : string)
    (redis : Queue.Redis) (i : Instant) (result : Delivery.DeliveryResult) :
  deliver_activity (Queue.activity d) (Queue.recipients d) = Ok result ->
  Delivery.success result = [] ->
  Queue.max_attempts self <= n ->
  Queue.status (fst (Queue.attempt self deliver_activity d n delivery_id redis i))
    = Queue.PStatus Queue.FAILED
  /\ snd (Queue.attempt self deliver_activity d n delivery_id redis i) = redis.
Proof.
  intros Hres Hfail Hn. unfold Queue.attempt. rewrite Hres, Hfail.
  destruct (Z.ltb_spec n (Queue.max_attempts self)); [lia|]. auto.
Qed.

(** C5 (what the code does).  [_process_delivery] never rewrites a record
    and never removes a member from the schedule index: by the time it
    serialises the job, the job's status is a member of [DeliveryStatus]
    (and its [updated_at] a [datetime]), [json.dumps] raises, and the call
    ends in the handler that logs the error. *)
Theorem process_delivery_persists_nothing (self : Queue.DeliveryQueue)
    (deliver_activity : Queue.pyval -> Queue.pyval -> result Delivery.DeliveryResult)
    (redis : Queue.Redis) (delivery_id : string) (i : Instant) :
  let redis' := Queue._process_delivery self deliver_activity redis delivery_id i in
  Queue.strings redis' = Queue.strings redis
  /\ forall member,
       is_Some (Queue.delivery_queue redis !! member) ->
       is_Some (Queue.delivery_queue redis' !! member).
Proof.
  cbv zeta. unfold Queue._process_delivery.
  destruct (Queue.strings redis !! Queue.record_key delivery_id) as [data|];
    [|split; auto].
  destruct (Queue.from_json data) as [d|]; [|split; auto].
  destruct (Queue.incremented (Queue.attempts d)) as [n|]; [|split; auto].
  pose proof (attempt_status self deliver_activity (Queue.started d n i) n
                delivery_id redis i) as [s Hs].
  pose proof (attempt_store self deliver_activity (Queue.started d n i) n
                delivery_id redis i) as Hstore.
  destruct (Queue.attempt self deliver_activity (Queue.started d n i) n
              delivery_id redis i) as [d' redis'].
  cbn [fst snd] in Hs, Hstore. rewrite (to_json_status d' s Hs).
  destruct Hstore as [->|[score ->]]; [split; auto|].
  split; [reflexivity|]. intros member Hm. cbn.
  rewrite lookup_insert. case_decide; [eauto|exact Hm].
Qed.

(** A job on its fifth attempt of five, whose delivery fails: the record
    still says [retrying] with 4 attempts, and the job is still in the
    index. *)
Definition sample_record : Json.json :=
  Json.JDict [("id", Json.JStr "d1"); ("activity", Json.JDict []);
              ("recipients", Json.JList [Json.JStr "https://remote.example/inbox"]);
              ("status", Json.JStr "retrying"); ("attempts", Json.JInt 4);
              ("next_attempt", Json.JNull); ("created_at", Json.JNull);
              ("updated_at", Json.JNull); ("error", Json.JNull)].

Definition sample_store : Queue.Redis :=
  {| Queue.strings := {[ Queue.record_key "d1" := sample_record ]};
     Queue.delivery_queue := {[ "d1" := 0 ]} |}.

Definition sample_queue : Queue.DeliveryQueue :=
  {| Queue.max_attempts := 5; Queue.batch_size := 20 |}.

Definition failing_service (_ _ : Queue.pyval) : result Delivery.DeliveryResult :=
  Ok (Delivery.failure "https://remote.example/inbox" (Some 503)
        (Delivery.Text "unavailable")).

Definition sample_job : Queue.QueuedDelivery :=
  {| Queue.id := Queue.PJson (Json.JStr "d1");
     Queue.activity := Queue.PJson (Json.JDict []);
     Queue.recipients :=
       Queue.PJson (Json.JList [Json.JStr "https://remote.example/inbox"]);
     Queue.status := Queue.PStatus Queue.IN_PROGRESS;
     Queue.attempts := Queue.PJson (Json.JInt 3);
     Queue.next_attempt := Queue.PJson Json.JNull;
     Queue.created_at := Queue.PJson Json.JNull;
     Queue.updated_at := Queue.PDatetime 1000000;
     Queue.error := Queue.PJson Json.JNull |}.

(** The third failure of five: due in 8 minutes. *)
Lemma attempt_reschedules_witness :
  Queue.status (fst (Queue.attempt sample_queue failing_service sample_job 3 "d1"
                       sample_store (at_utc 0 1000000)))
    = Queue.PStatus Queue.RETRYING
  /\ Queue.next_attempt
       (fst (Queue.attempt sample_queue failing_service sample_job 3 "d1"
               sample_store (at_utc 0 1000000)))
     = Queue.PDatetime (1000000 + timedelta_minutes 8)
  /\ snd (Queue.attempt sample_queue failing_service sample_job 3 "d1"
            sample_store (at_utc 0 1000000))
     = Queue.zadd sample_store "d1" (1000000 + timedelta_minutes 8).
Proof.
  apply (attempt_reschedules sample_queue failing_service sample_job 3 "d1"
           sample_store (at_utc 0 1000000)
           (Delivery.failure "https://remote.example/inbox" (Some 503)
              (Delivery.Text "unavailable"))).
  - reflexivity.
  - reflexivity.
  - vm_compute. split; [discriminate|reflexivity].
  - vm_compute. discriminate.
Defined.

(** The fifth failure of five. *)
Lemma attempt_exhausted_witness :
  Queue.status (fst (Queue.attempt sample_queue failing_service sample_job 5 "d1"
                       sample_store (at_utc 0 1000000)))
    = Queue.PStatus Queue.FAILED
  /\ snd (Queue.attempt sample_queue failing_service sample_job 5 "d1"
            sample_store (at_utc 0 1000000))
     = sample_store.
Proof.
  apply (attempt_exhausted sample_queue failing_service sample_job 5 "d1"
           sample_store (at_utc 0 1000000)
           (Delivery.failure "https://remote.example/inbox" (Some 503)
              (Delivery.Text "unavailable"))).
  - reflexivity.
  - reflexivity.
  - vm_compute. discriminate.
Defined.

Example process_delivery_exhausted_job :
  let redis' := Queue._process_delivery sample_queue failing_service
                  sample_store "d1" (at_utc 0 1000000) in
  Queue.strings redis' !! Queue.record_key "d1" = Some sample_record
  /\ Queue.delivery_queue redis' !! "d1" = Some 0.
Proof. vm_compute. split; reflexivity. Qed.

(* ===================================================================== *)
(** * The memory cache                                                     *)
(* ===================================================================== *)

(** A value that was set is returned by [get] exactly until its ttl has
    run out (the last microsecond included); a [get] after that drops the
    entry; a [get] of another key is not affected by the [set]; and a
    deleted key is not found. *)
Theorem memory_cache_set_get {V : Type} (c : Cache.MemoryCache V)
    (key key' : string) (v : V) (i i' : Instant) :
  (fst (Cache.get (Cache.set c key v i) key i') = Some v
   <-> utcnow i' <= utcnow i + timedelta_seconds (Cache.ttl c))
  /\ (utcnow i + timedelta_seconds (Cache.ttl c) < utcnow i' ->
      Cache.entries (snd (Cache.get (Cache.set c key v i) key i')) !! key = None)
  /\ (key' <> key ->
      fst (Cache.get (Cache.set c key v i) key' i') = fst (Cache.get c key' i'))
  /\ fst (Cache.get (Cache.delete (Cache.set c key v i) key) key i') = None.
Proof.
  repeat split.
  - unfold Cache.get, Cache.set. cbn. rewrite lookup_insert_eq.
    destruct (Z.gtb_spec (utcnow i') (utcnow i + timedelta_seconds (Cache.ttl c)));
      cbn; [discriminate|lia].
  - intros Hle. unfold Cache.get, Cache.set. cbn. rewrite lookup_insert_eq.
    destruct (Z.gtb_spec (utcnow i') (utcnow i + timedelta_seconds (Cache.ttl c)));
      [lia|reflexivity].
  - intros Hlt. unfold Cache.get, Cache.set. cbn. rewrite lookup_insert_eq.
    destruct (Z.gtb_spec (utcnow i') (utcnow i + timedelta_seconds (Cache.ttl c)));
      [|lia].
    cbn. apply lookup_delete_eq.
  - intros Hne. unfold Cache.get, Cache.set. cbn.
    rewrite lookup_insert_ne by congruence.
    destruct (Cache.entries c !! key') as [[v' e]|]; [|reflexivity].
    destruct (utcnow i' >? e); reflexivity.
  - unfold Cache.get, Cache.delete. cbn. rewrite lookup_delete_eq. reflexivity.
Qed.

(* ===================================================================== *)
(** * Rate limiting: domains, waiting, clearing, announced limits          *)
(* ===================================================================== *)

Lemma cache_key_inj d d' : RateLimit.cache_key d = RateLimit.cache_key d' -> d = d'.
Proof. unfold RateLimit.cache_key. cbn. intros [= H]. exact H. Qed.

Lemma stored_set_state_other rl d st i d' :
  d <> d' ->
  RateLimit.stored (RateLimit._set_state rl d st i) d' = RateLimit.stored rl d'.
Proof.
  intros Hne. unfold RateLimit.stored. cbn.
  rewrite lookup_insert_ne; [reflexivity|].
  intros Heq. apply Hne. now apply cache_key_inj.
Qed.

Lemma stored_get_state_other rl d i d' :
  d <> d' ->
  RateLimit.stored (snd (RateLimit._get_state rl d i)) d' = RateLimit.stored rl d'.
Proof.
  intros Hne.
  assert (Hk : RateLimit.cache_key d <> RateLimit.cache_key d')
    by (intros Heq; apply Hne; now apply cache_key_inj).
  unfold RateLimit._get_state, Cache.get.
  destruct (Cache.entries (RateLimit.cache rl) !! RateLimit.cache_key d)
    as [[st e]|] eqn:Hlk.
  - destruct (utcnow i >? e); [|reflexivity].
    cbn [snd]. rewrite stored_set_state_other by assumption.
    unfold RateLimit.stored. cbn. now rewrite lookup_delete_ne.
  - cbn [snd]. now rewrite stored_set_state_other.
Qed.

(** The domain an operation is about. *)
Definition op_domain (o : RateLimit.op) : string :=
  match o with
  | RateLimit.Check d _ | RateLimit.Wait d _ | RateLimit.Update d _ _ => d
  end.

(** Rate limits are kept per domain: a [check_rate_limit], [get_wait_time]
    or [update_rate_limit] for one domain, and a [clear] of it, leave the
    state stored for every other domain as it was. *)
Theorem rate_limit_state_is_per_domain (rl : RateLimit.RateLimiter)
    (o : RateLimit.op) (d' : string) :
  op_domain o <> d' ->
  RateLimit.stored (RateLimit.step rl o) d' = RateLimit.stored rl d'
  /\ RateLimit.stored (RateLimit.clear rl (op_domain o)) d' = RateLimit.stored rl d'.
Proof.
  intros Hne. split.
  - destruct o as [d i|d i|d headers i]; cbn [op_domain RateLimit.step] in *.
    + unfold RateLimit.check_rate_limit.
      pose proof (stored_get_state_other rl d i d' Hne) as Hget.
      destruct (RateLimit._get_state rl d i) as [st rl1]. cbn [snd] in Hget.
      destruct (now i >=? RateLimit.reset st); cbn [snd].
      * now rewrite stored_set_state_other.
      * destruct (RateLimit.remaining st <=? 0); cbn [snd]; [exact Hget|].
        now rewrite stored_set_state_other.
    + unfold RateLimit.get_wait_time.
      pose proof (stored_get_state_other rl d i d' Hne) as Hget.
      destruct (RateLimit._get_state rl d i) as [st rl1]. cbn [snd] in Hget.
      destruct (RateLimit.remaining st >? 0); exact Hget.
    + destruct (RateLimit.update_rate_limit rl d (PyDict.get headers) i) as [rl'|]
        eqn:Hup; [|reflexivity].
      apply update_rate_limit_stores in Hup as [->|(z & t & l & _ & ->)];
        [reflexivity|].
      now apply stored_set_state_other.
  - unfold RateLimit.stored, RateLimit.clear. cbn.
    rewrite lookup_delete_ne; [reflexivity|].
    intros Heq. apply Hne. now apply cache_key_inj.
Qed.

(** Exhausting example.com leaves example.org with its full budget. *)
Lemma rate_limit_state_is_per_domain_witness :
  let rl := snd (RateLimit.check_rate_limit
                   (RateLimit.new None RateLimit.SLIDING_WINDOW 3600)
                   "example.org" (at_utc 0 0)) in
  let o := RateLimit.Check "example.com" (at_utc 0 1000000) in
  RateLimit.stored (RateLimit.step rl o) "example.org"
    = RateLimit.stored rl "example.org"
  /\ RateLimit.stored (RateLimit.clear rl "example.com") "example.org"
     = RateLimit.stored rl "example.org".
Proof.
  apply (rate_limit_state_is_per_domain
           (snd (RateLimit.check_rate_limit
                   (RateLimit.new None RateLimit.SLIDING_WINDOW 3600)
                   "example.org" (at_utc 0 0)))
           (RateLimit.Check "example.com" (at_utc 0 1000000)) "example.org").
  cbn. discriminate.
Defined.

(** [check_rate_limit] answers true whenever the limit is positive and the
    entry it finds alive, if any, has requests left or a window that is
    over. *)
Lemma check_rate_limit_passes rl d i :
  0 < RateLimit.requests (RateLimit.default_limit rl) ->
  (forall st e,
     Cache.entries (RateLimit.cache rl) !! RateLimit.cache_key d = Some (st, e) ->
     utcnow i <= e ->
     0 < RateLimit.remaining st \/ RateLimit.reset st <= now i) ->
  fst (RateLimit.check_rate_limit rl d i) = true.
Proof.
  intros Hreq Halive.
  unfold RateLimit.check_rate_limit, RateLimit._get_state, Cache.get.
  destruct (Cache.entries (RateLimit.cache rl) !! RateLimit.cache_key d)
    as [[st e]|] eqn:Hlk.
  - destruct (Z.gtb_spec (utcnow i) e) as [Hgt|Hle].
    + cbn -[Z.add]. destruct (_ >=? _); [reflexivity|].
      destruct (Z.leb_spec (RateLimit.requests (RateLimit.default_limit rl)) 0);
        [lia|reflexivity].
    + destruct (Halive st e eq_refl Hle) as [Hrem|Hreset].
      * destruct (now i >=? RateLimit.reset st); [reflexivity|].
        destruct (Z.leb_spec (RateLimit.remaining st) 0); [lia|reflexivity].
      * destruct (Z.geb_spec (now i) (RateLimit.reset st)); [reflexivity|lia].
  - cbn -[Z.add]. destruct (_ >=? _); [reflexivity|].
    destruct (Z.leb_spec (RateLimit.requests (RateLimit.default_limit rl)) 0);
      [lia|reflexivity].
Qed.

(** The wait [get_wait_time] returns after a refusal is enough: when
    [check_rate_limit] has refused a request (on a limiter whose limit is
    positive), the wait returned at that instant is positive, and a check
    made once that wait has elapsed on the local clock answers true. *)
Theorem wait_time_suffices (rl rl1 rl2 : RateLimit.RateLimiter) (d : string)
    (i i2 : Instant) (w : Z) :
  0 < RateLimit.requests (RateLimit.default_limit rl) ->
  RateLimit.check_rate_limit rl d i = (false, rl1) ->
  RateLimit.get_wait_time rl1 d i = (w, rl2) ->
  now i + w <= now i2 ->
  0 < w /\ fst (RateLimit.check_rate_limit rl2 d i2) = true.
Proof.
  intros Hreq Hcheck Hwait Hlater.
  unfold RateLimit.check_rate_limit, RateLimit._get_state, Cache.get in Hcheck.
  destruct (Cache.entries (RateLimit.cache rl) !! RateLimit.cache_key d)
    as [[st e]|] eqn:Hlk.
  - destruct (Z.gtb_spec (utcnow i) e) as [Hgt|Hle].
    + cbn -[Z.add] in Hcheck. destruct (_ >=? _) in Hcheck; [discriminate|].
      destruct (Z.leb_spec (RateLimit.requests (RateLimit.default_limit rl)) 0);
        [lia|discriminate].
    + destruct (Z.geb_spec (now i) (RateLimit.reset st)) as [|Hreset];
        [discriminate|].
      destruct (Z.leb_spec (RateLimit.remaining st) 0) as [Hrem|];
        [|discriminate].
      injection Hcheck as <-.
      unfold RateLimit.get_wait_time, RateLimit._get_state, Cache.get in Hwait.
      cbn [RateLimit.cache RateLimit.with_cache] in Hwait. rewrite Hlk in Hwait.
      destruct (Z.gtb_spec (utcnow i) e); [lia|].
      destruct (Z.gtb_spec (RateLimit.remaining st) 0); [lia|].
      injection Hwait as <- <-. split; [lia|].
      apply check_rate_limit_passes; [exact Hreq|].
      cbn [RateLimit.cache RateLimit.with_cache]. intros st' e' Hlk' _.
      rewrite Hlk in Hlk'. injection Hlk' as <- <-. right. lia.
  - cbn -[Z.add] in Hcheck. destruct (_ >=? _) in Hcheck; [discriminate|].
    destruct (Z.leb_spec (RateLimit.requests (RateLimit.default_limit rl)) 0);
      [lia|discriminate].
Qed.

(** A limiter of one request per minute: the second request of the minute
    is refused, and after the wait it passes. *)
Definition one_per_minute : RateLimit.RateLimiter :=
  snd (RateLimit.check_rate_limit
         (RateLimit.new (Some {| RateLimit.requests := 1; RateLimit.period := 60;
                                 RateLimit.burst := None |})
                        RateLimit.SLIDING_WINDOW 3600)
         "example.com" (at_utc 0 0)).

Lemma wait_time_suffices_witness :
  RateLimit.get_wait_time one_per_minute "example.com" (at_utc 0 1000000)
    = (59000000, one_per_minute)
  /\ 0 < 59000000
  /\ fst (RateLimit.check_rate_limit one_per_minute "example.com"
            (at_utc 0 60000000)) = true.
Proof.
  split; [vm_compute; reflexivity|].
  apply (wait_time_suffices one_per_minute one_per_minute one_per_minute
           "example.com" (at_utc 0 1000000) (at_utc 0 60000000) 59000000).
  - vm_compute. reflexivity.
  - vm_compute. reflexivity.
  - vm_compute. reflexivity.
  - vm_compute. discriminate.
Defined.

(** [clear] gives a domain its full budget back: on a limiter of [N + 1]
    requests per positive period, the check that follows a [clear] of the
    domain answers true and leaves [N] requests in a new window, however
    exhausted the domain was. *)
Theorem clear_restores_budget (rl : RateLimit.RateLimiter) (d : string)
    (tz t : Z) (N : nat) :
  RateLimit.requests (RateLimit.default_limit rl) = Z.of_nat (S N) ->
  0 < RateLimit.period (RateLimit.default_limit rl) ->
  exists rl',
    RateLimit.check_rate_limit (RateLimit.clear rl d) d (at_utc tz t) = (true, rl')
    /\ RateLimit.stored rl' d
       = Some {| RateLimit.remaining := Z.of_nat N;
                 RateLimit.reset :=
                   t + tz + timedelta_seconds
                              (RateLimit.period (RateLimit.default_limit rl));
                 RateLimit.limit := Z.of_nat (S N) |}.
Proof.
  intros HN HP.
  destruct (check_rate_limit_fresh (RateLimit.clear rl d) d tz t (S N) HN HP)
    as (rl' & Hcheck & [_ (e & He & _)] & _).
  { cbn. apply lookup_delete_eq. }
  exists rl'. split; [exact Hcheck|].
  unfold RateLimit.stored. cbn [RateLimit.clear RateLimit.with_cache
    RateLimit.default_limit] in He. rewrite He. cbn.
  do 2 f_equal. lia.
Qed.

Lemma clear_restores_budget_witness :
  exists rl',
    RateLimit.check_rate_limit (RateLimit.clear one_per_minute "example.com")
      "example.com" (at_utc 0 1000000) = (true, rl')
    /\ RateLimit.stored rl' "example.com"
       = Some {| RateLimit.remaining := 0;
                 RateLimit.reset := 1000000 + 0 + timedelta_seconds 60;
                 RateLimit.limit := 1 |}.
Proof.
  apply (clear_restores_budget one_per_minute "example.com" 0 1000000 0).
  - reflexivity.
  - vm_compute. reflexivity.
Defined.

(** What a response announces replaces what was counted: after an
    [update_rate_limit] whose three headers read as the integers [r], [ts]
    and [l], a check made while the entry is alive and before the announced
    reset answers by [r] alone, whatever the limiter held for the domain
    before, and counts down from [r]. *)
Theorem update_rate_limit_is_authoritative (rl : RateLimit.RateLimiter)
    (d : string) (headers_get : string -> option string)
    (sr sts sl : string) (r ts l t : Z) (i i2 : Instant) :
  headers_get "X-RateLimit-Remaining" = Some sr ->
  headers_get "X-RateLimit-Reset" = Some sts ->
  headers_get "X-RateLimit-Limit" = Some sl ->
  PyStr.py_int sr = Ok r -> PyStr.py_int sts = Ok ts -> PyStr.py_int sl = Ok l ->
  RateLimit.fromtimestamp i ts = Ok t ->
  utcnow i2 <= utcnow i + timedelta_seconds (Cache.ttl (RateLimit.cache rl)) ->
  now i2 < t ->
  exists rl1 rl2,
    RateLimit.update_rate_limit rl d headers_get i = Ok rl1
    /\ RateLimit.check_rate_limit rl1 d i2 = (0 <? r, rl2)
    /\ RateLimit.stored rl2 d
       = Some {| RateLimit.remaining := if 0 <? r then r - 1 else r;
                 RateLimit.reset := t; RateLimit.limit := l |}.
Proof.
  intros Hr Hts Hl Hpr Hpts Hpl Ht Halive Hbefore.
  unfold RateLimit.update_rate_limit. rewrite Hr, Hts, Hl, Hpr. cbn.
  rewrite Hpts. cbn. rewrite Ht. cbn. rewrite Hpl. cbn.
  exists (RateLimit._set_state rl d
            {| RateLimit.remaining := r; RateLimit.reset := t;
               RateLimit.limit := l |} i).
  unfold RateLimit.check_rate_limit, RateLimit._get_state, Cache.get.
  cbn [RateLimit.cache RateLimit._set_state RateLimit.with_cache Cache.set
       Cache.entries Cache.ttl].
  rewrite lookup_insert_eq.
  destruct (Z.gtb_spec (utcnow i2)
              (utcnow i + timedelta_seconds (Cache.ttl (RateLimit.cache rl))));
    [lia|].
  cbn [RateLimit.reset RateLimit.remaining RateLimit.limit].
  destruct (Z.geb_spec (now i2) t); [lia|].
  destruct (Z.leb_spec r 0); destruct (Z.ltb_spec 0 r); try lia.
  - eexists. split; [reflexivity|]. split; [reflexivity|].
    unfold RateLimit.stored. cbn. rewrite lookup_insert_eq. reflexivity.
  - eexists. split; [reflexivity|]. split; [reflexivity|].
    unfold RateLimit.stored. cbn. rewrite lookup_insert_eq. reflexivity.
Qed.

(** A domain with 99 requests counted as left is refused once a response
    has announced that none is. *)
Lemma update_rate_limit_is_authoritative_witness :
  let rl := snd (RateLimit.check_rate_limit
                   (RateLimit.new None RateLimit.SLIDING_WINDOW 3600)
                   "example.com" (at_utc 0 0)) in
  let headers := [("X-RateLimit-Remaining", "0"); ("X-RateLimit-Reset", "60");
                  ("X-RateLimit-Limit", "100")] in
  exists rl1 rl2,
    RateLimit.update_rate_limit rl "example.com" (PyDict.get headers)
      (at_utc 0 1000000) = Ok rl1
    /\ RateLimit.check_rate_limit rl1 "example.com" (at_utc 0 2000000)
       = (false, rl2)
    /\ RateLimit.stored rl2 "example.com"
       = Some {| RateLimit.remaining := 0; RateLimit.reset := 60000000;
                 RateLimit.limit := 100 |}.
Proof.
  apply (update_rate_limit_is_authoritative
           (snd (RateLimit.check_rate_limit
                   (RateLimit.new None RateLimit.SLIDING_WINDOW 3600)
                   "example.com" (at_utc 0 0)))
           "example.com"
           (PyDict.get [("X-RateLimit-Remaining", "0"); ("X-RateLimit-Reset", "60");
                        ("X-RateLimit-Limit", "100")])
           "0" "60" "100" 0 60 100 60000000 (at_utc 0 1000000) (at_utc 0 2000000));
    try (vm_compute; reflexivity).
  - vm_compute. discriminate.
Defined.

(* ===================================================================== *)
(** * Key management: what a rotation keeps, validity, start-up            *)
(* ===================================================================== *)

Section PyDictKeys.
Context {V : Type}.
Implicit Types (d : PyDict.pydict V) (k : string) (v : V).

Lemma In_keys_del d k k' : In k' (PyDict.keys (PyDict.del d k)) -> In k' (PyDict.keys d).
Proof.
  unfold PyDict.keys. rewrite !List.in_map_iff.
  intros ([k0 v0] & <- & Hin). apply In_del in Hin as [_ Hin].
  now exists (k0, v0).
Qed.

Lemma NoDup_keys_del d k : List.NoDup (PyDict.keys d) -> List.NoDup (PyDict.keys (PyDict.del d k)).
Proof.
  unfold PyDict.keys. induction d as [|[k0 v0] d IH]; cbn; [auto|].
  intros Hnd. apply NoDup_cons_iff in Hnd as [Hnotin Hnd].
  destruct (String.eqb_spec k0 k); [auto|].
  cbn. apply NoDup_cons_iff. split; [|auto].
  intros Hin. apply Hnotin. exact (In_keys_del d k k0 Hin).
Qed.

Lemma not_In_keys_del d k : ~ In k (PyDict.keys (PyDict.del d k)).
Proof.
  unfold PyDict.keys. rewrite List.in_map_iff.
  intros ([k0 v0] & Hk & Hin). cbn in Hk. subst k0.
  apply In_del in Hin as [Hne _]. now apply Hne.
Qed.

Lemma In_keys_set d k v k' :
  In k' (PyDict.keys (PyDict.set d k v)) -> k' = k \/ In k' (PyDict.keys d).
Proof.
  unfold PyDict.keys. rewrite !List.in_map_iff.
  intros ([k0 v0] & <- & Hin). apply In_set in Hin as [[-> _]|[_ Hin]]; [now left|].
  right. now exists (k0, v0).
Qed.

Lemma NoDup_keys_set d k v :
  List.NoDup (PyDict.keys d) -> List.NoDup (PyDict.keys (PyDict.set d k v)).
Proof.
  induction d as [|[k0 v0] d IH]; cbn.
  - intros _. repeat constructor. intros [].
  - intros Hnd. apply NoDup_cons_iff in Hnd as [Hnotin Hnd].
    destruct (String.eqb_spec k0 k) as [->|Hne]; cbn.
    + apply NoDup_cons_iff. split; [apply not_In_keys_del|].
      now apply NoDup_keys_del.
    + apply NoDup_cons_iff. split; [|now apply IH].
      intros Hin. apply In_keys_set in Hin as [?|?]; [congruence|].
      now apply Hnotin.
Qed.

Lemma In_set_other d k v k' v' :
  k' <> k -> In (k', v') d -> In (k', v') (PyDict.set d k v).
Proof.
  intros Hne. induction d as [|[k0 v0] d IH]; cbn; [tauto|].
  destruct (String.eqb_spec k0 k) as [->|Hne0]; cbn.
  - intros [[= -> ->]|Hin]; [congruence|]. right. apply In_del. now split.
  - intros [Heq|Hin]; [now left|]. right. now apply IH.
Qed.

Lemma NoDup_keys_In_eq d k v v' :
  List.NoDup (PyDict.keys d) -> In (k, v) d -> In (k, v') d -> v = v'.
Proof.
  unfold PyDict.keys. induction d as [|[k0 v0] d IH]; cbn; [tauto|].
  intros Hnd. apply NoDup_cons_iff in Hnd as [Hnotin Hnd].
  intros [H1|H1] [H2|H2].
  - congruence.
  - injection H1 as -> ->. exfalso. apply Hnotin. apply List.in_map_iff.
    now exists (k, v').
  - injection H2 as -> ->. exfalso. apply Hnotin. apply List.in_map_iff.
    now exists (k, v).
  - now apply IH.
Qed.

Lemma In_get d k v : List.NoDup (PyDict.keys d) -> In (k, v) d -> PyDict.get d k = Some v.
Proof.
  intros Hnd Hin. destruct (PyDict.get d k) as [v'|] eqn:Hget.
  - f_equal. apply get_Some_In in Hget. exact (NoDup_keys_In_eq d k v' v Hnd Hget Hin).
  - exfalso. exact (get_None_not_In d k Hget v Hin).
Qed.

End PyDictKeys.

Lemma archive_all_NoDup archive_ok expired : forall keys keys' r,
  KeyManagement.archive_all archive_ok keys expired = (keys', r) ->
  List.NoDup (PyDict.keys keys) -> List.NoDup (PyDict.keys keys').
Proof.
  induction expired as [|e expired IH]; intros keys keys' r; cbn.
  - intros [= <- _]. auto.
  - destruct (archive_ok e); [|intros [= <- _]; auto].
    intros H Hnd. apply (IH _ _ _ H). now apply NoDup_keys_del.
Qed.

(** The active set after a rotation that completed: the set after the
    generation, without the keys that are expired beyond the overlap. *)
Lemma rotate_keys_In P km env km' :
  List.NoDup (PyDict.keys (KeyManagement.active_keys km)) ->
  KeyManagement.rotate_keys P km env = (km', Ok tt) ->
  exists new_pair,
    KeyManagement.generate_key_pair P km (KeyManagement.rot_gen env)
      = (KeyManagement.with_active_keys km
           (PyDict.set (KeyManagement.active_keys km)
              (KeyManagement.key_id new_pair) new_pair), Ok new_pair)
    /\ List.NoDup (PyDict.keys (KeyManagement.active_keys km'))
    /\ forall kid k,
         In (kid, k) (KeyManagement.active_keys km')
         <-> In (kid, k) (PyDict.set (KeyManagement.active_keys km)
                            (KeyManagement.key_id new_pair) new_pair)
             /\ KeyManagement.is_expired km (KeyManagement.rot_clock env) k = false.
Proof.
  intros Hnd. unfold KeyManagement.rotate_keys, KeyManagement.generate_key_pair.
  destruct (KeyManagement.gen_private (KeyManagement.rot_gen env)) as [priv|];
    [|discriminate].
  destruct (KeyManagement.gen_save_ok (KeyManagement.rot_gen env)); [|discriminate].
  set (new := KeyManagement.make_pair P km _ priv).
  cbn [KeyManagement.active_keys KeyManagement.with_active_keys].
  set (dict := PyDict.set (KeyManagement.active_keys km) (KeyManagement.key_id new) new).
  set (expired := map fst _).
  destruct (KeyManagement.archive_all _ dict expired) as [keys r] eqn:Harch.
  intros [= <- ->]. exists new. split; [reflexivity|].
  assert (Hdict : List.NoDup (PyDict.keys dict)) by now apply NoDup_keys_set.
  split.
  - cbn. exact (archive_all_NoDup _ _ _ _ _ Harch Hdict).
  - intros kid k. cbn [KeyManagement.active_keys KeyManagement.with_active_keys].
    rewrite (archive_all_In _ _ _ _ kid k Harch). split.
    + intros [Hin Hnot]. split; [exact Hin|].
      destruct (KeyManagement.is_expired km (KeyManagement.rot_clock env) k) eqn:Hexp;
        [|reflexivity].
      exfalso. apply Hnot. unfold expired. apply List.in_map_iff.
      exists (kid, k). split; [reflexivity|]. apply List.filter_In. now split.
    + intros [Hin Hexp]. split; [exact Hin|].
      unfold expired. rewrite List.in_map_iff. intros ([kid' k'] & Hk & Hin').
      cbn in Hk. subst kid'. apply List.filter_In in Hin' as [Hin' Hexp'].
      cbn in Hexp'.
      rewrite (NoDup_keys_In_eq dict kid k' k Hdict Hin' Hin) in Hexp'.
      unfold KeyManagement.is_expired in Hexp, Hexp'. cbn in Hexp'. congruence.
Qed.

(** A rotation that completes keeps exactly the keys that are not expired
    beyond the overlap: no key of the new active set expired more than
    [key_overlap] days before the rotation's clock, and every key of the
    old set that did not (and whose id the new key does not take) is still
    there.  The ids of the set stay distinct. *)
Theorem rotate_keys_keeps_unexpired (P : Platform) (km km' : KeyManagement.KeyManager)
    (env : KeyManagement.RotateEnv) :
  List.NoDup (PyDict.keys (KeyManagement.active_keys km)) ->
  KeyManagement.rotate_keys P km env = (km', Ok tt) ->
  (forall kid k,
     In (kid, k) (KeyManagement.active_keys km') ->
     utcnow (KeyManagement.rot_clock env)
       - timedelta_days (KeyManagement.key_overlap (KeyManagement.rotation_config km))
     <= KeyManagement.expires_at k)
  /\ (forall kid k,
        In (kid, k) (KeyManagement.active_keys km) ->
        kid <> KeyManagement.make_key_id (KeyManagement.domain km)
                 (KeyManagement.gen_clock (KeyManagement.rot_gen env)) ->
        utcnow (KeyManagement.rot_clock env)
          - timedelta_days (KeyManagement.key_overlap (KeyManagement.rotation_config km))
        <= KeyManagement.expires_at k ->
        In (kid, k) (KeyManagement.active_keys km'))
  /\ List.NoDup (PyDict.keys (KeyManagement.active_keys km')).
Proof.
  intros Hnd Hrot.
  destruct (rotate_keys_In P km env km' Hnd Hrot) as (new & Hgen & Hnd' & Hin).
  split; [|split; [|exact Hnd']].
  - intros kid k Hk. apply Hin in Hk as [_ Hexp].
    unfold KeyManagement.is_expired in Hexp. apply Z.ltb_ge in Hexp. exact Hexp.
  - intros kid k Hk Hne Hexp. apply Hin. split.
    + apply In_set_other; [|exact Hk].
      unfold KeyManagement.generate_key_pair in Hgen.
      destruct (KeyManagement.gen_private (KeyManagement.rot_gen env)); [|discriminate].
      destruct (KeyManagement.gen_save_ok (KeyManagement.rot_gen env)); [|discriminate].
      injection Hgen as _ <-. exact Hne.
    + unfold KeyManagement.is_expired. apply Z.ltb_ge. exact Hexp.
Qed.

(** The rotation of [sample_rotation], 31 days after the first key was
    made: that key expired a day ago, within the overlap of two days. *)
Lemma rotate_keys_keeps_unexpired_witness :
  In ("https://example.com/keys/0",
      KeyManagement.make_pair Toy.platform
        (KeyManagement.new "example.com" "keys" None) (at_utc 0 0) "first")
     (KeyManagement.active_keys
        (fst (KeyManagement.rotate_keys Toy.platform sample_manager sample_rotation)))
  /\ length (KeyManagement.active_keys
               (fst (KeyManagement.rotate_keys Toy.platform sample_manager
                       sample_rotation))) = 2%nat.
Proof.
  split; [|vm_compute; reflexivity].
  destruct (rotate_keys_keeps_unexpired Toy.platform sample_manager
              (fst (KeyManagement.rotate_keys Toy.platform sample_manager
                      sample_rotation))
              sample_rotation) as (_ & Hkeep & _).
  - repeat constructor. intros [].
  - vm_compute. reflexivity.
  - apply Hkeep.
    + left. reflexivity.
    + vm_compute. discriminate.
    + vm_compute. discriminate.
Defined.

(** [verify_key] ends a key's validity at its expiry, while [rotate_keys]
    keeps the key for the overlap after it: a key that had expired when a
    rotation ran, by no more than [key_overlap] days, is still in the active
    set under its id after the rotation, and [verify_key] refuses it from
    then on. *)
Theorem overlap_key_is_kept_but_not_valid (P : Platform)
    (km km' : KeyManagement.KeyManager) (env : KeyManagement.RotateEnv)
    (kid domain : string) (k : KeyManagement.KeyPair) (i : Instant) :
  List.NoDup (PyDict.keys (KeyManagement.active_keys km)) ->
  KeyManagement.rotate_keys P km env = (km', Ok tt) ->
  In (kid, k) (KeyManagement.active_keys km) ->
  kid <> KeyManagement.make_key_id (KeyManagement.domain km)
           (KeyManagement.gen_clock (KeyManagement.rot_gen env)) ->
  KeyManagement.expires_at k < utcnow (KeyManagement.rot_clock env) ->
  utcnow (KeyManagement.rot_clock env)
    - timedelta_days (KeyManagement.key_overlap (KeyManagement.rotation_config km))
  <= KeyManagement.expires_at k ->
  utcnow (KeyManagement.rot_clock env) <= utcnow i ->
  PyDict.get (KeyManagement.active_keys km') kid = Some k
  /\ KeyLifecycle.verify_key km' kid domain i = false.
Proof.
  intros Hnd Hrot Hin Hne Hexpired Hoverlap Hlater.
  destruct (rotate_keys_In P km env km' Hnd Hrot) as (new & Hgen & Hnd' & Hiff).
  assert (Hget : PyDict.get (KeyManagement.active_keys km') kid = Some k).
  { apply In_get; [exact Hnd'|]. apply Hiff. split.
    - apply In_set_other; [|exact Hin].
      unfold KeyManagement.generate_key_pair in Hgen.
      destruct (KeyManagement.gen_private (KeyManagement.rot_gen env)); [|discriminate].
      destruct (KeyManagement.gen_save_ok (KeyManagement.rot_gen env)); [|discriminate].
      injection Hgen as _ <-. exact Hne.
    - unfold KeyManagement.is_expired. apply Z.ltb_ge. exact Hoverlap. }
  split; [exact Hget|].
  unfold KeyLifecycle.verify_key. rewrite Hget. apply Z.leb_gt. lia.
Qed.

(** The first key of [sample_manager] after the rotation of day 31. *)
Lemma overlap_key_is_kept_but_not_valid_witness :
  PyDict.get
    (KeyManagement.active_keys
       (fst (KeyManagement.rotate_keys Toy.platform sample_manager sample_rotation)))
    "https://example.com/keys/0"
  = Some (KeyManagement.make_pair Toy.platform
            (KeyManagement.new "example.com" "keys" None) (at_utc 0 0) "first")
  /\ KeyLifecycle.verify_key
       (fst (KeyManagement.rotate_keys Toy.platform sample_manager sample_rotation))
       "https://example.com/keys/0" "example.com"
       (at_utc 0 (timedelta_days 31 + 2))
     = false.
Proof.
  apply (overlap_key_is_kept_but_not_valid Toy.platform sample_manager
           (fst (KeyManagement.rotate_keys Toy.platform sample_manager
                   sample_rotation))
           sample_rotation "https://example.com/keys/0" "example.com"
           (KeyManagement.make_pair Toy.platform
              (KeyManagement.new "example.com" "keys" None) (at_utc 0 0) "first")
           (at_utc 0 (timedelta_days 31 + 2))).
  - repeat constructor. intros [].
  - vm_compute. reflexivity.
  - left. reflexivity.
  - vm_compute. discriminate.
  - vm_compute. reflexivity.
  - vm_compute. discriminate.
  - vm_compute. discriminate.
Defined.

(** Where the keys that [_load_existing_keys] leaves in the active set come
    from: the set it started with, or a file whose private key could be
    loaded and whose expiry had not passed at the file's clock. *)
Lemma load_files_In P files : forall keys keys' r kid k,
  KeyLifecycle.load_files P keys files = (keys', r) ->
  In (kid, k) keys' ->
  In (kid, k) keys
  \/ exists f,
       In f files
       /\ KeyLifecycle.kf_private f = Some (Ok (KeyManagement.private_key k))
       /\ utcnow (KeyLifecycle.kf_clock f) <= KeyManagement.expires_at k
       /\ KeyManagement.key_id k = kid.
Proof.
  induction files as [|f files IH]; intros keys keys' r kid k; cbn.
  - intros [= <- _]. auto.
  - assert (Hrest : forall keys0,
              KeyLifecycle.load_files P keys0 files = (keys', r) ->
              In (kid, k) keys' ->
              In (kid, k) keys0
              \/ exists f0, In f0 (f :: files)
                   /\ KeyLifecycle.kf_private f0
                      = Some (Ok (KeyManagement.private_key k))
                   /\ utcnow (KeyLifecycle.kf_clock f0) <= KeyManagement.expires_at k
                   /\ KeyManagement.key_id k = kid).
    { intros keys0 H Hin. destruct (IH _ _ _ _ _ H Hin) as [?|(f0 & ? & ?)]; [auto|].
      right. exists f0. split; [now right|assumption]. }
    destruct (KeyLifecycle.kf_metadata_ok f); [|intros [= <- _]; auto].
    destruct (KeyLifecycle.kf_private f) as [[priv|e]|] eqn:Hpriv;
      [|intros [= <- _]; auto|apply Hrest].
    destruct (KeyLifecycle.kf_fields f) as [[[created expires] kid0]|e];
      [|intros [= <- _]; auto].
    destruct (Z.leb_spec (utcnow (KeyLifecycle.kf_clock f)) expires) as [Hle|_];
      [|apply Hrest].
    intros H Hin. destruct (Hrest _ H Hin) as [Hset|?]; [|auto].
    apply In_set in Hset as [[-> ->]|[_ ?]]; [|auto].
    right. exists f. cbn. rewrite Hpriv. auto.
Qed.

(** An [initialize] that completes leaves a manager that has an active
    key, so that [get_active_key] answers; and each key of its active set
    was there before, or was read from a file that had not expired when it
    was read, or is the pair generated because no such file was found. *)
Theorem initialize_leaves_an_active_key (P : Platform)
    (km km' : KeyManagement.KeyManager) (env : KeyLifecycle.InitEnv) :
  KeyLifecycle.initialize P km env = (km', Ok tt) ->
  (exists k, KeyManagement.get_active_key km' = Ok k)
  /\ forall kid k,
       In (kid, k) (KeyManagement.active_keys km') ->
       In (kid, k) (KeyManagement.active_keys km)
       \/ (exists f,
             In f (KeyLifecycle.init_files env)
             /\ KeyLifecycle.kf_private f = Some (Ok (KeyManagement.private_key k))
             /\ utcnow (KeyLifecycle.kf_clock f) <= KeyManagement.expires_at k
             /\ KeyManagement.key_id k = kid)
       \/ (exists priv,
             KeyManagement.gen_private (KeyLifecycle.init_gen env) = Ok priv
             /\ k = KeyManagement.make_pair P km
                      (KeyManagement.gen_clock (KeyLifecycle.init_gen env)) priv
             /\ kid = KeyManagement.key_id k).
Proof.
  unfold KeyLifecycle.initialize, KeyLifecycle._load_existing_keys.
  destruct (KeyLifecycle.init_mkdir_ok env); [|discriminate].
  destruct (KeyLifecycle.load_files P (KeyManagement.active_keys km)
              (KeyLifecycle.init_files env)) as [keys r] eqn:Hload.
  destruct r as [[]|e]; [|discriminate].
  cbn [KeyManagement.active_keys KeyManagement.with_active_keys].
  destruct keys as [|kv keys].
  - unfold KeyManagement.generate_key_pair.
    destruct (KeyManagement.gen_private (KeyLifecycle.init_gen env)) as [priv|];
      [|discriminate].
    destruct (KeyManagement.gen_save_ok (KeyLifecycle.init_gen env)); [|discriminate].
    intros [= <-]. split.
    + eexists. reflexivity.
    + intros kid k [[= <- <-]|[]]. right. right. exists priv. auto.
  - intros [= <-]. split.
    + eexists. reflexivity.
    + intros kid k Hin.
      destruct (load_files_In P _ _ _ _ kid k Hload Hin) as [?|?]; auto.
Qed.

(** A start-up that finds one key whose metadata says it expired, and a
    metadata file without its private key: a key is generated. *)
Definition sample_start : KeyLifecycle.InitEnv :=
  {| KeyLifecycle.init_mkdir_ok := true;
     KeyLifecycle.init_files :=
       [ {| KeyLifecycle.kf_metadata_ok := true;
            KeyLifecycle.kf_private := Some (Ok "old");
            KeyLifecycle.kf_fields :=
              Ok (0, timedelta_days 30, "https://example.com/keys/0");
            KeyLifecycle.kf_clock := at_utc 0 (timedelta_days 40) |};
         {| KeyLifecycle.kf_metadata_ok := true;
            KeyLifecycle.kf_private := None;
            KeyLifecycle.kf_fields :=
              Ok (0, timedelta_days 60, "https://example.com/keys/1");
            KeyLifecycle.kf_clock := at_utc 0 (timedelta_days 40) |} ];
     KeyLifecycle.init_gen :=
       {| KeyManagement.gen_clock := at_utc 0 (timedelta_days 40);
          KeyManagement.gen_private := Ok "fresh";
          KeyManagement.gen_save_ok := true |} |}.

Lemma initialize_leaves_an_active_key_witness :
  exists k,
    KeyManagement.get_active_key
      (fst (KeyLifecycle.initialize Toy.platform
              (KeyManagement.new "example.com" "keys" None) sample_start))
    = Ok k.
Proof.
  destruct (initialize_leaves_an_active_key Toy.platform
              (KeyManagement.new "example.com" "keys" None)
              (fst (KeyLifecycle.initialize Toy.platform
                      (KeyManagement.new "example.com" "keys" None) sample_start))
              sample_start) as [Hkey _].
  - vm_compute. reflexivity.
  - exact Hkey.
Defined.

(** The rotation task rotates again and again while a key that is due
    stays in the active set: when a round has rotated because of a key that
    expires within a day, and the rotation kept that key (it is not yet
    expired beyond the overlap), every later round starts another rotation,
    although the set holds the key the first one generated. *)
Theorem rotation_round_repeats (P : Platform)
    (km km1 : KeyManagement.KeyManager) (env1 env2 : KeyLifecycle.RoundEnv)
    (kid : string) (k : KeyManagement.KeyPair) :
  List.NoDup (PyDict.keys (KeyManagement.active_keys km)) ->
  In (kid, k) (KeyManagement.active_keys km) ->
  kid <> KeyManagement.make_key_id (KeyManagement.domain km)
           (KeyManagement.gen_clock
              (KeyManagement.rot_gen (KeyLifecycle.round_rotate env1))) ->
  KeyManagement.expires_at k
    <= utcnow (KeyLifecycle.round_clock env1) + timedelta_days 1 ->
  utcnow (KeyManagement.rot_clock (KeyLifecycle.round_rotate env1))
    - timedelta_days (KeyManagement.key_overlap (KeyManagement.rotation_config km))
  <= KeyManagement.expires_at k ->
  KeyManagement.rotate_keys P km (KeyLifecycle.round_rotate env1) = (km1, Ok tt) ->
  utcnow (KeyLifecycle.round_clock env1) <= utcnow (KeyLifecycle.round_clock env2) ->
  KeyLifecycle._key_rotation_round P km env1 = (km1, 86400)
  /\ fst (KeyLifecycle._key_rotation_round P km1 env2)
     = fst (KeyManagement.rotate_keys P km1 (KeyLifecycle.round_rotate env2)).
Proof.
  intros Hnd Hin Hne Hdue Hoverlap Hrot Hlater.
  assert (Hdue1 : existsb (KeyLifecycle.due (KeyLifecycle.round_clock env1))
                    (PyDict.values (KeyManagement.active_keys km)) = true).
  { apply existsb_exists. exists k. split.
    - unfold PyDict.values. apply List.in_map_iff. now exists (kid, k).
    - unfold KeyLifecycle.due. now apply Z.leb_le. }
  split.
  - unfold KeyLifecycle._key_rotation_round. rewrite Hdue1, Hrot. reflexivity.
  - destruct (rotate_keys_In P km _ km1 Hnd Hrot) as (new & Hgen & _ & Hiff).
    assert (Hin1 : In (kid, k) (KeyManagement.active_keys km1)).
    { apply Hiff. split.
      - apply In_set_other; [|exact Hin].
        unfold KeyManagement.generate_key_pair in Hgen.
        destruct (KeyManagement.gen_private _); [|discriminate].
        destruct (KeyManagement.gen_save_ok _); [|discriminate].
        injection Hgen as _ <-. exact Hne.
      - unfold KeyManagement.is_expired. apply Z.ltb_ge. exact Hoverlap. }
    assert (Hdue2 : existsb (KeyLifecycle.due (KeyLifecycle.round_clock env2))
                      (PyDict.values (KeyManagement.active_keys km1)) = true).
    { apply existsb_exists. exists k. split.
      - unfold PyDict.values. apply List.in_map_iff. now exists (kid, k).
      - unfold KeyLifecycle.due. apply Z.leb_le. lia. }
    unfold KeyLifecycle._key_rotation_round. rewrite Hdue2.
    destruct (KeyManagement.rotate_keys P km1 (KeyLifecycle.round_rotate env2))
      as [km2 [[]|e]]; reflexivity.
Qed.

(** The rounds of day 29 and day 30 in the life of [sample_manager], whose
    key expires on day 30. *)
Definition sample_round (day : Z) (priv : string) : KeyLifecycle.RoundEnv :=
  {| KeyLifecycle.round_clock := at_utc 0 (timedelta_days day);
     KeyLifecycle.round_rotate :=
       {| KeyManagement.rot_gen :=
            {| KeyManagement.gen_clock := at_utc 0 (timedelta_days day);
               KeyManagement.gen_private := Ok priv;
               KeyManagement.gen_save_ok := true |};
          KeyManagement.rot_clock := at_utc 0 (timedelta_days day);
          KeyManagement.rot_archive_ok := fun _ => true |} |}.

Lemma rotation_round_repeats_witness :
  let km1 := fst (KeyLifecycle._key_rotation_round Toy.platform sample_manager
                    (sample_round 29 "second")) in
  KeyLifecycle._key_rotation_round Toy.platform sample_manager
    (sample_round 29 "second") = (km1, 86400)
  /\ fst (KeyLifecycle._key_rotation_round Toy.platform km1 (sample_round 30 "third"))
     = fst (KeyManagement.rotate_keys Toy.platform km1
              (KeyLifecycle.round_rotate (sample_round 30 "third"))).
Proof.
  apply (rotation_round_repeats Toy.platform sample_manager
           (fst (KeyLifecycle._key_rotation_round Toy.platform sample_manager
                   (sample_round 29 "second")))
           (sample_round 29 "second") (sample_round 30 "third")
           "https://example.com/keys/0"
           (KeyManagement.make_pair Toy.platform
              (KeyManagement.new "example.com" "keys" None) (at_utc 0 0) "first")).
  - repeat constructor. intros [].
  - left. reflexivity.
  - vm_compute. discriminate.
  - vm_compute. discriminate.
  - vm_compute. discriminate.
  - vm_compute. reflexivity.
  - vm_compute. discriminate.
Defined.

(** The daily rounds from day 29 on.  Those of days 29 to 32 each add a
    key next to the first one; the round of day 33 adds a fifth and drops
    the first, now expired beyond the overlap; the round of day 34 finds no
    key that is due. *)
Example rotation_rounds_of_one_expiry :
  let round km day := fst (KeyLifecycle._key_rotation_round Toy.platform km
                             (sample_round day "next")) in
  length (KeyManagement.active_keys
            (fold_left round [29; 30; 31; 32] sample_manager)) = 5%nat
  /\ length (KeyManagement.active_keys
               (fold_left round [29; 30; 31; 32; 33] sample_manager)) = 5%nat
  /\ length (KeyManagement.active_keys
               (fold_left round [29; 30; 31; 32; 33; 34] sample_manager)) = 5%nat.
Proof. vm_compute. repeat split. Qed.

(* ===================================================================== *)
(** * Delivery: one activation of deliver_to_inbox                         *)
(* ===================================================================== *)

(** The world after the rate-limit check of a delivery, and after the wait
    when the check refused. *)
Definition after_rate_limit (tz : Z) (domain : string) (w : Delivery.World)
  : Delivery.World :=
  let '(allowed, rl) :=
    RateLimit.check_rate_limit (Delivery.limiter w) domain
      (at_utc tz (Delivery.time w)) in
  let w := Delivery.with_limiter w rl in
  if allowed then w
  else
    let '(wait_time, rl) :=
      RateLimit.get_wait_time (Delivery.limiter w) domain
        (at_utc tz (Delivery.time w)) in
    Delivery.sleep (Delivery.with_limiter w rl) wait_time.

Lemma posts_after_rate_limit tz domain w :
  Delivery.posts (after_rate_limit tz domain w) = Delivery.posts w.
Proof.
  unfold after_rate_limit.
  destruct (RateLimit.check_rate_limit _ _ _) as [[] rl]; [reflexivity|].
  cbn. destruct (RateLimit.get_wait_time _ _ _). reflexivity.
Qed.

Definition accepted (code : Z) : bool :=
  (code =? 200) || (code =? 201) || (code =? 202).

Definition delivered (inbox_url : string) (code : Z) : Delivery.DeliveryResult :=
  {| Delivery.success := [inbox_url]; Delivery.failed := [];
     Delivery.status_code := Some code;
     Delivery.error_message := None; Delivery.retry_after := None |}.

(** One activation of [deliver_to_inbox], case by case. *)
Lemma deliver_to_inbox_S P tz server fuel self activity inbox_url username
    retry_count w :
  Delivery.deliver_to_inbox P tz server (S fuel) self activity inbox_url username
    retry_count w
  = let domain := fst (urlparse P inbox_url) in
    let w1 := after_rate_limit tz domain w in
    match HttpSignatures.signing_key (Delivery.signature_verifier self) with
    | Raise _ =>
        (w1, Some (Delivery.failure inbox_url None
                     (Delivery.OfException SignatureError)))
    | Ok _ =>
        match server (Delivery.posts w1) with
        | Delivery.TimesOut =>
            (Delivery.posted w1,
             Some (Delivery.failure inbox_url None (Delivery.Text "Delivery timeout")))
        | Delivery.Raises e =>
            (Delivery.posted w1,
             Some (Delivery.failure inbox_url None (Delivery.OfException e)))
        | (Delivery.Answers response | Delivery.Unreadable response _) as answer =>
            match RateLimit.update_rate_limit (Delivery.limiter w1) domain
                    (Delivery.ci_get (Delivery.headers response))
                    (at_utc tz (Delivery.time w1)) with
            | Raise e =>
                (Delivery.posted w1,
                 Some (Delivery.failure inbox_url None (Delivery.OfException e)))
            | Ok rl =>
                let w2 := Delivery.with_limiter (Delivery.posted w1) rl in
                if accepted (Delivery.status response) then
                  (w2, Some (delivered inbox_url (Delivery.status response)))
                else if (Delivery.status response =? 429)
                        || ((Delivery.status response >=? 500)
                            && (retry_count <? Delivery.max_retries self))
                then
                  match Delivery.retry_after_of self response with
                  | Raise e =>
                      (w2, Some (Delivery.failure inbox_url None
                                   (Delivery.OfException e)))
                  | Ok retry_after =>
                      Delivery.deliver_to_inbox P tz server fuel self activity
                        inbox_url username (retry_count + 1)
                        (Delivery.sleep w2 (timedelta_seconds retry_after))
                  end
                else
                  match answer with
                  | Delivery.Unreadable _ u =>
                      (w2, Some (Delivery.failure_unread inbox_url
                                   (Delivery.status response) u))
                  | _ =>
                      (w2, Some (Delivery.failure inbox_url
                                   (Some (Delivery.status response))
                                   (Delivery.Text (Delivery.text response))))
                  end
            end
        end
    end.
Proof.
  cbn [Delivery.deliver_to_inbox]. unfold after_rate_limit, accepted.
  destruct (urlparse P inbox_url) as [domain path]. cbn [fst].
  destruct (RateLimit.check_rate_limit (Delivery.limiter w) domain
              (at_utc tz (Delivery.time w))) as [allowed rl].
  set (w1 := if allowed then _ else _).
  rewrite sign_request_delivery.
  destruct (HttpSignatures.signing_key (Delivery.signature_verifier self));
    [|reflexivity].
  destruct (server (Delivery.posts w1)) as [response| |e|response u];
    reflexivity.
Qed.


(** The status and headers a POST was answered with, whether or not the
    body can be read. *)
Definition answer_of (o : Delivery.outcome) : option Delivery.Response :=
  match o with
  | Delivery.Answers response | Delivery.Unreadable response _ => Some response
  | _ => None
  end.

(** What a result of [deliver_to_inbox] looks like, against any server and
    from any state.  Either it names the inbox as delivered, once, with no
    error message and with the status 200, 201 or 202 that the last POST of
    the run was answered with: no delivery is reported without a POST that
    was accepted.  Or it has an empty success list and an error message,
    and names the inbox as failed: once, or twice when the last POST was
    answered with a refusal whose body could not be read, in which case the
    result carries the status of that answer. *)
Theorem deliver_to_inbox_result_shape (P : Platform) (tz : Z)
    (server : nat -> Delivery.outcome) (self : Delivery.ActivityDelivery)
    (activity : Json.json) (inbox_url : string) (username : option string)
    (fuel : nat) (retry_count : Z) (w : Delivery.World) :
  match Delivery.deliver_to_inbox P tz server fuel self activity inbox_url
          username retry_count w with
  | (w', Some result) =>
      (exists n response,
         result = delivered inbox_url (Delivery.status response)
         /\ accepted (Delivery.status response) = true
         /\ answer_of (server n) = Some response
         /\ Delivery.posts w' = S n /\ (Delivery.posts w <= n)%nat)
      \/ (Delivery.success result = []
          /\ is_Some (Delivery.error_message result)
          /\ (Delivery.posts w <= Delivery.posts w')%nat
          /\ (Delivery.failed result = [inbox_url]
              \/ exists n response u,
                   Delivery.failed result = [inbox_url; inbox_url]
                   /\ Delivery.status_code result = Some (Delivery.status response)
                   /\ accepted (Delivery.status response) = false
                   /\ server n = Delivery.Unreadable response u
                   /\ Delivery.posts w' = S n))
  | (_, None) => True
  end.
Proof.
  revert retry_count w. induction fuel as [|fuel IH]; intros retry_count w.
  - exact I.
  - rewrite deliver_to_inbox_S. cbv zeta.
    set (w1 := after_rate_limit tz (fst (urlparse P inbox_url)) w).
    assert (Hw1 : Delivery.posts w1 = Delivery.posts w)
      by apply posts_after_rate_limit.
    destruct (HttpSignatures.signing_key (Delivery.signature_verifier self)).
    2:{ right. cbn. rewrite Hw1. eauto 6. }
    assert (Hanswer : forall response answer,
      server (Delivery.posts w1) = answer ->
      answer_of answer = Some response ->
      match
        match RateLimit.update_rate_limit (Delivery.limiter w1)
                (fst (urlparse P inbox_url))
                (Delivery.ci_get (Delivery.headers response))
                (at_utc tz (Delivery.time w1)) with
        | Raise e =>
            (Delivery.posted w1,
             Some (Delivery.failure inbox_url None (Delivery.OfException e)))
        | Ok rl =>
            if accepted (Delivery.status response) then
              (Delivery.with_limiter (Delivery.posted w1) rl,
               Some (delivered inbox_url (Delivery.status response)))
            else if (Delivery.status response =? 429)
                    || ((Delivery.status response >=? 500)
                        && (retry_count <? Delivery.max_retries self))
            then
              match Delivery.retry_after_of self response with
              | Raise e =>
                  (Delivery.with_limiter (Delivery.posted w1) rl,
                   Some (Delivery.failure inbox_url None (Delivery.OfException e)))
              | Ok retry_after =>
                  Delivery.deliver_to_inbox P tz server fuel self activity
                    inbox_url username (retry_count + 1)
                    (Delivery.sleep (Delivery.with_limiter (Delivery.posted w1) rl)
                       (timedelta_seconds retry_after))
              end
            else
              match answer with
              | Delivery.Unreadable _ u =>
                  (Delivery.with_limiter (Delivery.posted w1) rl,
                   Some (Delivery.failure_unread inbox_url
                           (Delivery.status response) u))
              | _ =>
                  (Delivery.with_limiter (Delivery.posted w1) rl,
                   Some (Delivery.failure inbox_url
                           (Some (Delivery.status response))
                           (Delivery.Text (Delivery.text response))))
              end
        end
      with
      | (w', Some result) =>
          (exists n response,
             result = delivered inbox_url (Delivery.status response)
             /\ accepted (Delivery.status response) = true
             /\ answer_of (server n) = Some response
             /\ Delivery.posts w' = S n /\ (Delivery.posts w <= n)%nat)
          \/ (Delivery.success result = []
              /\ is_Some (Delivery.error_message result)
              /\ (Delivery.posts w <= Delivery.posts w')%nat
              /\ (Delivery.failed result = [inbox_url]
                  \/ exists n response u,
                       Delivery.failed result = [inbox_url; inbox_url]
                       /\ Delivery.status_code result
                          = Some (Delivery.status response)
                       /\ accepted (Delivery.status response) = false
                       /\ server n = Delivery.Unreadable response u
                       /\ Delivery.posts w' = S n))
      | (_, None) => True
      end).
    { intros response answer Hserver Hresp.
      destruct (RateLimit.update_rate_limit _ _ _ _) as [rl|e].
      2:{ right. cbn. rewrite Hw1. eauto 6. }
      destruct (accepted (Delivery.status response)) eqn:Hacc.
      { left. exists (Delivery.posts w1), response. cbn.
        rewrite Hserver, Hw1. repeat split; auto. }
      destruct (_ || _).
      - destruct (Delivery.retry_after_of self response) as [retry_after|e].
        2:{ right. cbn. rewrite Hw1. eauto 6. }
        match goal with
        | |- context [Delivery.deliver_to_inbox _ _ _ fuel _ _ _ _ ?rc ?w'] =>
            specialize (IH rc w');
            destruct (Delivery.deliver_to_inbox P tz server fuel self activity
                        inbox_url username rc w') as [w'' [result|]]; [|exact I]
        end.
        cbn [Delivery.posts Delivery.sleep Delivery.with_limiter Delivery.posted]
          in IH.
        rewrite Hw1 in IH.
        destruct IH as [(n & resp & ? & ? & ? & ? & ?)|(? & ? & ? & Hfailed)].
        + left. exists n, resp. repeat split; auto. lia.
        + right. repeat split; auto. lia.
      - destruct answer as [r| |e|r u]; try discriminate Hresp;
          cbn in Hresp; injection Hresp as ->.
        + right. cbn. rewrite Hw1. eauto 6.
        + right. cbn. rewrite Hw1.
          split; [reflexivity|]. split; [destruct u; eauto|].
          split; [lia|]. right. exists (Delivery.posts w1), response, u.
          rewrite Hw1. repeat split; auto. now rewrite <- Hw1. }
    destruct (server (Delivery.posts w1)) as [response| |e|response u] eqn:Hserver.
    + exact (Hanswer response _ eq_refl eq_refl).
    + right. cbn. rewrite Hw1. eauto 6.
    + right. cbn. rewrite Hw1. eauto 6.
    + exact (Hanswer response _ eq_refl eq_refl).
Qed.














(* ===================================================================== *)
(** * HTTP signatures: the Signature header, written and read back         *)
(* ===================================================================== *)

(** No character of the text satisfies [p]. *)
Fixpoint none_of (p : ascii -> bool) (s : string) : bool :=
  match s with
  | EmptyString => true
  | String c s' => negb (p c) && none_of p s'
  end.

Lemma contains_app c a b :
  PyStr.contains c (a +:+ b) = PyStr.contains c a || PyStr.contains c b.
Proof.
  induction a as [|x a IH]; simpl; [reflexivity|].
  rewrite IH. now rewrite orb_assoc.
Qed.

Lemma rstrip_closing p s q :
  none_of p s = true -> p q = true ->
  PyStr.rstrip p (s +:+ String q EmptyString) = s.
Proof.
  intros Hs Hq. induction s as [|c s IH]; simpl.
  - now rewrite Hq.
  - simpl in Hs. apply andb_prop in Hs as [Hc Hs]. rewrite (IH Hs).
    apply negb_true_iff in Hc. now rewrite Hc.
Qed.

(** Stripping gives back a text that was put between double quotes, when
    the text holds none of the stripped characters. *)
Lemma strip_quoted p s :
  none_of p s = true -> p PyStr.dquote = true ->
  PyStr.strip p (HttpSignatures.quoted s) = s.
Proof.
  intros Hs Hq. unfold PyStr.strip, HttpSignatures.quoted.
  cbn [PyStr.lstrip]. rewrite Hq.
  destruct s as [|c s]; [simpl; now rewrite Hq|].
  pose proof Hs as Hs'. simpl in Hs'. apply andb_prop in Hs' as [Hc _].
  apply negb_true_iff in Hc.
  change (String c s +:+ String PyStr.dquote EmptyString)
    with (String c (s +:+ String PyStr.dquote EmptyString)).
  cbn [PyStr.lstrip]. rewrite Hc.
  change (String c (s +:+ String PyStr.dquote EmptyString))
    with (String c s +:+ String PyStr.dquote EmptyString).
  now apply rstrip_closing.
Qed.

Lemma none_of_weaken (p q : ascii -> bool) s :
  (forall c, q c = true -> p c = true) -> none_of p s = true -> none_of q s = true.
Proof.
  intros Hpq. induction s as [|c s IH]; simpl; [reflexivity|].
  intros H. apply andb_prop in H as [Hc Hs]. rewrite (IH Hs), andb_true_r.
  apply negb_true_iff in Hc. apply negb_true_iff.
  destruct (q c) eqn:Hq; [|reflexivity]. rewrite (Hpq c Hq) in Hc. discriminate.
Qed.

(** A text that can stand between the quotes of a Signature component: no
    comma, no space, no double quote. *)
Definition component_text (s : string) : Prop :=
  PyStr.contains "," s = false /\ none_of PyStr.quote_or_space s = true.

(** The four parts [sign_request] joins with commas. *)
Definition signature_parts (P : Platform) (key_id signature : string) : list string :=
  ["keyId=" +:+ HttpSignatures.quoted key_id;
   "algorithm=" +:+ HttpSignatures.quoted "rsa-sha256";
   "headers=" +:+ HttpSignatures.quoted (PyStr.join " " HttpSignatures.headers_to_sign);
   "signature=" +:+ HttpSignatures.quoted (b64encode P signature)].

Lemma signature_header_join P key_id signature :
  HttpSignatures.signature_header P key_id signature
  = PyStr.join "," (signature_parts P key_id signature).
Proof. reflexivity. Qed.

Lemma signature_parts_comma_free P key_id signature :
  component_text key_id -> component_text (b64encode P signature) ->
  Forall comma_free (signature_parts P key_id signature).
Proof.
  intros [Hk _] [Hs _]. unfold signature_parts, comma_free, HttpSignatures.quoted.
  repeat constructor.
  - simpl. rewrite contains_app, Hk. reflexivity.
  - simpl. rewrite contains_app, Hs. reflexivity.
Qed.

(** The component dictionary both parsers build from a header that
    [sign_request] wrote. *)
Definition signature_components (P : Platform) (key_id signature : string)
  : PyDict.pydict string :=
  [("keyId", key_id); ("algorithm", "rsa-sha256");
   ("headers", "(request-target) host date digest");
   ("signature", b64encode P signature)].

Lemma split_once_app c k v :
  PyStr.contains c k = false ->
  PyStr.split_once c (k +:+ String c v) = Some (k, v).
Proof.
  induction k as [|a k IH]; simpl.
  - now rewrite Ascii.eqb_refl.
  - destruct (Ascii.eqb a c); simpl; [discriminate|].
    intros H. now rewrite (IH H).
Qed.

(** The four parts as the text of a name, the equals sign and a value. *)
Lemma signature_parts_fields P key_id signature :
  signature_parts P key_id signature
  = ["keyId" +:+ String "=" (HttpSignatures.quoted key_id);
     "algorithm" +:+ String "=" (HttpSignatures.quoted "rsa-sha256");
     "headers" +:+ String "="
       (HttpSignatures.quoted "(request-target) host date digest");
     "signature" +:+ String "=" (HttpSignatures.quoted (b64encode P signature))].
Proof. reflexivity. Qed.

Lemma parse_parts_signature_header P key_id signature :
  component_text key_id -> component_text (b64encode P signature) ->
  HttpSignatures.parse_parts (HttpSignatures.signature_header P key_id signature)
  = signature_components P key_id signature.
Proof.
  intros Hk Hs. rewrite signature_header_join.
  rewrite parse_parts_join by now apply signature_parts_comma_free.
  destruct Hk as [_ Hk], Hs as [_ Hs].
  rewrite signature_parts_fields. cbn [fold_left]. unfold HttpSignatures.add_part.
  rewrite !split_once_app by reflexivity.
  rewrite (strip_quoted _ key_id Hk eq_refl).
  rewrite (strip_quoted _ (b64encode P signature) Hs eq_refl).
  reflexivity.
Qed.

Lemma parse_signature_parts P key_id signature :
  component_text key_id -> component_text (b64encode P signature) ->
  fold_left SignatureParsing.add_part (signature_parts P key_id signature) []
  = signature_components P key_id signature.
Proof.
  intros [_ Hk] [_ Hs].
  assert (Hq : forall c, SignatureParsing.is_dquote c = true ->
                         PyStr.quote_or_space c = true).
  { intros c Hc. unfold PyStr.quote_or_space.
    unfold SignatureParsing.is_dquote in Hc. rewrite Hc. apply orb_true_r. }
  rewrite signature_parts_fields. cbn [fold_left]. unfold SignatureParsing.add_part.
  rewrite !split_once_app by reflexivity.
  rewrite (strip_quoted _ key_id (none_of_weaken _ _ _ Hq Hk) eq_refl).
  rewrite (strip_quoted _ (b64encode P signature) (none_of_weaken _ _ _ Hq Hs) eq_refl).
  reflexivity.
Qed.

Lemma split_on_signature_parts P key_id signature :
  component_text key_id -> component_text (b64encode P signature) ->
  PyStr.split_on "," (PyStr.join "," (signature_parts P key_id signature))
  = signature_parts P key_id signature.
Proof.
  intros Hk Hs.
  exact (split_on_join "," _ _ (signature_parts_comma_free P key_id signature Hk Hs)).
Qed.

(** The Signature header survives its two parsers: from the header
    [sign_request] writes for a key id and a signature whose texts hold no
    comma, space or double quote, the loop of [verify_request] and
    [_parse_signature_header] both recover the key id, the algorithm, the
    list of signed headers and the encoded signature. *)
Theorem signature_header_round_trip (P : Platform) (key_id signature : string) :
  component_text key_id ->
  component_text (b64encode P signature) ->
  HttpSignatures.parse_parts (HttpSignatures.signature_header P key_id signature)
  = signature_components P key_id signature
  /\ SignatureParsing._parse_signature_header
       (HttpSignatures.signature_header P key_id signature)
     = Ok (signature_components P key_id signature).
Proof.
  intros Hk Hs. split; [now apply parse_parts_signature_header|].
  unfold SignatureParsing._parse_signature_header.
  rewrite signature_header_join, (split_on_signature_parts P _ _ Hk Hs).
  rewrite (parse_signature_parts P _ _ Hk Hs). reflexivity.
Qed.

Lemma signature_header_round_trip_witness :
  HttpSignatures.parse_parts
    (HttpSignatures.signature_header Toy.platform "https://example.com/keys/0" "sig")
  = signature_components Toy.platform "https://example.com/keys/0" "sig"
  /\ SignatureParsing._parse_signature_header
       (HttpSignatures.signature_header Toy.platform "https://example.com/keys/0" "sig")
     = Ok (signature_components Toy.platform "https://example.com/keys/0" "sig").
Proof.
  apply (signature_header_round_trip Toy.platform "https://example.com/keys/0" "sig").
  - split; reflexivity.
  - split; reflexivity.
Defined.

(* ===================================================================== *)
(** * HTTP signatures: a delivery signed, received and verified            *)
(* ===================================================================== *)

(** The text [sign_request] signs for the request of a delivery. *)
Definition delivery_signing_string (P : Platform)
    (self : HttpSignatures.HTTPSignatureVerifier) (path domain : string)
    (activity : Json.json) (i : Instant) : string :=
  PyStr.join HttpSignatures.newline
    [HttpSignatures.request_target_line "POST" path;
     "host: " +:+ domain;
     "date: " +:+ delivery_date P self i;
     "digest: " +:+ HttpSignatures._generate_digest P activity].

(** Sign, receive, verify.  The headers [sign_request] returns for a
    delivery, once the receiver has lower-cased their names, are accepted
    by [verify_request] when it is given no body; given a body, they are
    accepted exactly when the digest [sign_request] sent (over the compact
    serialisation of the activity) is the digest [verify_request] computes
    for that body (over its default serialisation).  This holds when the
    key id is not empty and holds no comma, space or double quote, as the
    encoded signature does not, the signature decodes back, the resolver
    maps the key id to a public key and that key verifies the signature. *)
Theorem signed_delivery_round_trip (P : Platform)
    (resolve : string -> option RSAPublicKey)
    (self : HttpSignatures.HTTPSignatureVerifier) (path domain : string)
    (activity : Json.json) (username : option string) (i : Instant)
    (key : RSAPrivateKey * string) (public_key : RSAPublicKey) :
  let signature :=
    rsa_sign P (fst key) (delivery_signing_string P self path domain activity i) in
  HttpSignatures.signing_key self = Ok key ->
  PyStr.is_empty (snd key) = false ->
  component_text (snd key) ->
  component_text (b64encode P signature) ->
  b64decode P (b64encode P signature) = Some signature ->
  resolve (snd key) = Some public_key ->
  rsa_verify P public_key signature
    (delivery_signing_string P self path domain activity i) = true ->
  exists signed,
    HttpSignatures.sign_request P self "POST" path
      (Delivery.request_headers domain) (Some activity) username i = Ok signed
    /\ HttpSignatures.verify_request P resolve self (HttpSignatures.received signed)
         "POST" path None = true
    /\ forall body,
         HttpSignatures.verify_request P resolve self
           (HttpSignatures.received signed) "POST" path (Some body)
         = String.eqb (HttpSignatures._generate_digest P activity)
                      (HttpSignatures.expected_digest P body).
Proof.
  intros signature Hkey Hne Hid Hb64 Hdec Hres Hver.
  exists (signed_delivery P self path domain activity i key).
  split; [rewrite sign_request_delivery, Hkey; reflexivity|].
  assert (Hparts :
    HttpSignatures.parse_parts (delivery_signature P self path domain activity i key)
    = signature_components P (snd key) signature).
  { unfold delivery_signature. now apply parse_parts_signature_header. }
  assert (Hlines :
    PyStr.join HttpSignatures.newline
      (HttpSignatures.declared_lines "POST" path
         (HttpSignatures.received (signed_delivery P self path domain activity i key))
         (PyStr.split_ws "(request-target) host date digest"))
    = delivery_signing_string P self path domain activity i)
    by reflexivity.
  split; [|intros body];
    unfold HttpSignatures.verify_request;
    rewrite received_get_signature, Hparts;
    cbn [signature_components PyDict.get String.eqb Ascii.eqb Bool.eqb];
    rewrite Hne, Hlines, Hres, Hdec, Hver.
  - reflexivity.
  - unfold HttpSignatures.digest_ok. rewrite received_get_digest.
    destruct (String.eqb _ _); reflexivity.
Qed.

(** The delivery of [sample_activity], signed with the active key of
    [sample_manager]: accepted without its body, refused with it. *)
Lemma signed_delivery_round_trip_witness :
  exists signed,
    HttpSignatures.sign_request Toy.platform sample_verifier "POST" "/inbox"
      (Delivery.request_headers "example.com") (Some sample_activity) None
      (at_utc 0 0) = Ok signed
    /\ HttpSignatures.verify_request Toy.platform (directory sample_manager)
         sample_verifier (HttpSignatures.received signed) "POST" "/inbox" None = true
    /\ forall body,
         HttpSignatures.verify_request Toy.platform (directory sample_manager)
           sample_verifier (HttpSignatures.received signed) "POST" "/inbox"
           (Some body)
         = String.eqb (HttpSignatures._generate_digest Toy.platform sample_activity)
                      (HttpSignatures.expected_digest Toy.platform body).
Proof.
  apply (signed_delivery_round_trip Toy.platform (directory sample_manager)
           sample_verifier "/inbox" "example.com" sample_activity None (at_utc 0 0)
           ("first", "https://example.com/keys/0") "pub-first").
  - vm_compute. reflexivity.
  - reflexivity.
  - split; vm_compute; reflexivity.
  - split; vm_compute; reflexivity.
  - vm_compute. reflexivity.
  - vm_compute. reflexivity.
  - vm_compute. reflexivity.
Defined.

(* ===================================================================== *)
(** * HTTP signatures: what a signature covers                             *)
(* ===================================================================== *)

Lemma declared_lines_without_target method path method' path' headers names :
  ~ In "(request-target)" names ->
  HttpSignatures.declared_lines method path headers names
  = HttpSignatures.declared_lines method' path' headers names.
Proof.
  unfold HttpSignatures.declared_lines.
  induction names as [|name names IH]; intros Hnot; cbn [flat_map]; [reflexivity|].
  rewrite IH by (intros Hin; apply Hnot; now right). f_equal.
  unfold HttpSignatures.declared_line.
  destruct (String.eqb_spec name "(request-target)") as [->|_]; [|reflexivity].
  exfalso. apply Hnot. now left.
Qed.

(** [verify_request] ties a signature to what the sender chose to declare
    and to nothing else.  A request that carries no digest header is
    answered the same for every body, and for no body; and a request whose
    Signature header does not declare [(request-target)] is answered the
    same for every method and path. *)
Theorem verify_request_covers_what_is_declared (P : Platform)
    (resolve : string -> option RSAPublicKey)
    (self : HttpSignatures.HTTPSignatureVerifier)
    (headers : PyDict.pydict string) (method path : string)
    (body : option Json.json) :
  (PyDict.get headers "digest" = None ->
   forall body',
     HttpSignatures.verify_request P resolve self headers method path body'
     = HttpSignatures.verify_request P resolve self headers method path body)
  /\ ((forall header declared,
         PyDict.get headers "signature" = Some header ->
         PyDict.get (HttpSignatures.parse_parts header) "headers" = Some declared ->
         ~ In "(request-target)" (PyStr.split_ws declared)) ->
      forall method' path',
        HttpSignatures.verify_request P resolve self headers method' path' body
        = HttpSignatures.verify_request P resolve self headers method path body).
Proof.
  split.
  - intros Hdigest body'. unfold HttpSignatures.verify_request, HttpSignatures.digest_ok.
    rewrite Hdigest. destruct body, body'; reflexivity.
  - intros Hnot method' path'. unfold HttpSignatures.verify_request.
    destruct (PyDict.get headers "signature") as [header|]; [|reflexivity].
    destruct (PyDict.get (HttpSignatures.parse_parts header) "keyId"); [|reflexivity].
    destruct (PyDict.get (HttpSignatures.parse_parts header) "headers")
      as [declared|] eqn:Hd; [|reflexivity].
    rewrite (declared_lines_without_target method' path' method path headers
               (PyStr.split_ws declared) (Hnot header declared eq_refl Hd)).
    reflexivity.
Qed.

(** A signature over the host and date lines alone, made for no request in
    particular, is accepted for a POST to /inbox and for a DELETE of
    /users/alice, with any body. *)
Example signature_without_target_is_replayed :
  let headers :=
    [("host", "example.com"); ("date", "0");
     ("signature",
      "keyId=https://example.com/keys/0,headers=host date,signature="
      +:+ Toy.encode
            (Toy.sign "first"
               (PyStr.join HttpSignatures.newline
                  ["host: example.com"; "date: 0"])))] in
  HttpSignatures.verify_request Toy.platform (directory sample_manager)
    sample_verifier headers "POST" "/inbox" (Some sample_activity) = true
  /\ HttpSignatures.verify_request Toy.platform (directory sample_manager)
       sample_verifier headers "DELETE" "/users/alice" None = true.
Proof. vm_compute. split; reflexivity. Qed.

(* ===================================================================== *)
(** * HTTP signatures: when signing succeeds, and what it returns          *)
(* ===================================================================== *)

Lemma map_keys_fold_get_Some {V : Type} (f : string -> string) (key : string)
    (d : PyDict.pydict V) : forall acc,
  is_Some (PyDict.get acc key) \/ (exists k v, In (k, v) d /\ f k = key) ->
  is_Some (PyDict.get
             (fold_left (fun acc kv => PyDict.set acc (f (fst kv)) (snd kv)) d acc)
             key).
Proof.
  induction d as [|[k v] d IH]; intros acc H; cbn.
  - destruct H as [H|(k & v & [] & _)]. exact H.
  - apply IH. destruct (String.eqb_spec (f k) key) as [<-|Hne].
    + left. rewrite get_set_same. eauto.
    + destruct H as [H|(k' & v' & [[= <- <-]|Hin] & Hk)].
      * left. now rewrite get_set_other by congruence.
      * contradiction.
      * right. eauto.
Qed.

(** The lower-cased dictionary has a key exactly when some header's name
    lower-cases to it. *)
Lemma map_keys_get_is_Some {V : Type} (f : string -> string) (key : string)
    (d : PyDict.pydict V) :
  is_Some (PyDict.get (PyDict.map_keys f d) key)
  <-> exists k v, In (k, v) d /\ f k = key.
Proof.
  split.
  - intros Hsome. destruct (PyDict.get (PyDict.map_keys f d) key) eqn:Hget;
      [|destruct Hsome; discriminate].
    clear Hsome. revert Hget. unfold PyDict.map_keys.
    assert (Hgen : forall acc v0,
              PyDict.get (fold_left (fun acc kv => PyDict.set acc (f (fst kv)) (snd kv))
                            d acc) key = Some v0 ->
              is_Some (PyDict.get acc key) \/ exists k v, In (k, v) d /\ f k = key).
    { clear. induction d as [|[k x] d IH]; intros acc v0; cbn.
      - intros H. left. eauto.
      - intros H. destruct (IH _ _ H) as [Hacc|(k' & v' & Hin & Hk)].
        + destruct (String.eqb_spec (f k) key) as [Heq|Hne].
          * right. exists k, x. auto.
          * left. now rewrite get_set_other in Hacc by congruence.
        + right. exists k', v'. auto. }
    intros Hget. destruct (Hgen [] _ Hget) as [[? Hnil]|?]; [discriminate|assumption].
  - intros H. apply map_keys_fold_get_Some. now right.
Qed.

(** The headers [sign_request] builds the signing string from. *)
Definition headers_with_date_and_digest (P : Platform)
    (self : HttpSignatures.HTTPSignatureVerifier)
    (headers : PyDict.pydict string) (body : option Json.json) (i : Instant)
  : PyDict.pydict string :=
  let with_date :=
    if PyDict.mem "date" headers then headers
    else PyDict.set headers "date" (delivery_date P self i) in
  match body with
  | Some body => PyDict.set with_date "digest" (HttpSignatures._generate_digest P body)
  | None => with_date
  end.

Lemma sign_request_unfold P self method path headers body username i :
  HttpSignatures.sign_request P self method path headers body username i
  = match
      signing_string ← HttpSignatures._build_signing_string method path
                         (headers_with_date_and_digest P self headers body i)
                         HttpSignatures.headers_to_sign;
      key ← HttpSignatures.signing_key self;
      Ok (PyDict.set (headers_with_date_and_digest P self headers body i) "Signature"
            (HttpSignatures.signature_header P (snd key)
               (rsa_sign P (fst key) signing_string)))
    with
    | Ok signed_headers => Ok signed_headers
    | Raise _ => Raise SignatureError
    end.
Proof. reflexivity. Qed.

Lemma In_date_headers P self headers body i :
  exists v, In ("date", v) (headers_with_date_and_digest P self headers body i).
Proof.
  unfold headers_with_date_and_digest, PyDict.mem.
  destruct (PyDict.get headers "date") as [d|] eqn:Hd.
  - apply get_Some_In in Hd. destruct body as [b|]; [|eauto].
    exists d. apply In_set_other; [discriminate|exact Hd].
  - destruct body as [b|].
    + eexists. apply In_set_other; [discriminate|]. apply set_In.
    + eexists. apply set_In.
Qed.

Lemma _build_signing_string_is_ok method path headers :
  is_ok (HttpSignatures._build_signing_string method path headers
           HttpSignatures.headers_to_sign) = true
  <-> is_Some (PyDict.get (PyDict.map_keys PyStr.lower headers) "host")
      /\ is_Some (PyDict.get (PyDict.map_keys PyStr.lower headers) "date")
      /\ is_Some (PyDict.get (PyDict.map_keys PyStr.lower headers) "digest").
Proof.
  unfold HttpSignatures._build_signing_string, HttpSignatures.headers_to_sign.
  cbn [HttpSignatures.signing_lines]. cbn [String.eqb Ascii.eqb Bool.eqb].
  change (PyStr.lower "host") with "host".
  change (PyStr.lower "date") with "date".
  change (PyStr.lower "digest") with "digest".
  destruct (PyDict.get (PyDict.map_keys PyStr.lower headers) "host");
    destruct (PyDict.get (PyDict.map_keys PyStr.lower headers) "date");
    destruct (PyDict.get (PyDict.map_keys PyStr.lower headers) "digest");
    cbn; split; try discriminate; try (intros (H1 & H2 & H3));
    try (destruct H1; discriminate); try (destruct H2; discriminate);
    try (destruct H3; discriminate); eauto.
Qed.

(** When signing succeeds.  [sign_request] returns headers exactly when a
    signing key is available, some header's name lower-cases to [host], and
    either a body is given or some header's name lower-cases to [digest];
    in every other case it raises [SignatureError].  A date need not be
    given: it is filled in. *)
Theorem sign_request_succeeds_iff (P : Platform)
    (self : HttpSignatures.HTTPSignatureVerifier) (method path : string)
    (headers : PyDict.pydict string) (body : option Json.json)
    (username : option string) (i : Instant) :
  (is_ok (HttpSignatures.sign_request P self method path headers body username i)
   = true
   <-> is_ok (HttpSignatures.signing_key self) = true
       /\ (exists k v, In (k, v) headers /\ PyStr.lower k = "host")
       /\ (is_Some body \/ exists k v, In (k, v) headers /\ PyStr.lower k = "digest"))
  /\ (is_ok (HttpSignatures.sign_request P self method path headers body username i)
      = false
      -> HttpSignatures.sign_request P self method path headers body username i
         = Raise SignatureError).
Proof.
  rewrite sign_request_unfold.
  set (rh := headers_with_date_and_digest P self headers body i).
  assert (Hhost : (exists k v, In (k, v) rh /\ PyStr.lower k = "host")
                  <-> exists k v, In (k, v) headers /\ PyStr.lower k = "host").
  { unfold rh, headers_with_date_and_digest. split.
    - intros (k & v & Hin & Hk). exists k.
      destruct body as [b|].
      + apply In_set in Hin as [[-> _]|[_ Hin]]; [discriminate|].
        destruct (PyDict.mem "date" headers); [eauto|].
        apply In_set in Hin as [[-> _]|[_ Hin]]; [discriminate|eauto].
      + destruct (PyDict.mem "date" headers); [eauto|].
        apply In_set in Hin as [[-> _]|[_ Hin]]; [discriminate|eauto].
    - intros (k & v & Hin & Hk). exists k, v. split; [|exact Hk].
      assert (k <> "date") by (intros ->; discriminate).
      assert (k <> "digest") by (intros ->; discriminate).
      destruct body as [b|]; [apply In_set_other; [assumption|]|];
        (destruct (PyDict.mem "date" headers);
         [exact Hin|apply In_set_other; assumption]). }
  assert (Hdigest : (exists k v, In (k, v) rh /\ PyStr.lower k = "digest")
                    <-> is_Some body
                        \/ exists k v, In (k, v) headers /\ PyStr.lower k = "digest").
  { unfold rh, headers_with_date_and_digest. split.
    - intros (k & v & Hin & Hk). destruct body as [b|]; [left; eauto|]. right.
      exists k. destruct (PyDict.mem "date" headers); [eauto|].
      apply In_set in Hin as [[-> _]|[_ Hin]]; [discriminate|eauto].
    - destruct body as [b|].
      + intros _. exists "digest". eexists. split; [apply set_In|reflexivity].
      + intros [[? Hnone]|(k & v & Hin & Hk)]; [discriminate|].
        exists k, v. split; [|exact Hk].
        assert (k <> "date") by (intros ->; discriminate).
        destruct (PyDict.mem "date" headers);
          [exact Hin|apply In_set_other; assumption]. }
  pose proof (_build_signing_string_is_ok method path rh) as Hbuild.
  rewrite !map_keys_get_is_Some in Hbuild. rewrite Hhost, Hdigest in Hbuild.
  assert (Hdate : exists k v, In (k, v) rh /\ PyStr.lower k = "date").
  { destruct (In_date_headers P self headers body i) as [v Hv].
    exists "date", v. split; [exact Hv|reflexivity]. }
  destruct (HttpSignatures._build_signing_string method path rh
              HttpSignatures.headers_to_sign) as [s|e];
    destruct (HttpSignatures.signing_key self) as [key|e']; cbn in *.
  - split; [|discriminate]. split; [intros _|reflexivity].
    destruct Hbuild as [Hb _]. destruct (Hb eq_refl) as (HA & _ & HG). auto.
  - split; [|reflexivity]. split; [discriminate|]. intros [? _]. discriminate.
  - split; [|reflexivity]. split; [discriminate|]. intros (_ & HA & HG).
    apply Hbuild. auto.
  - split; [|reflexivity]. split; [discriminate|]. intros [? _]. discriminate.
Qed.

(** What signing returns.  The headers [sign_request] returns are the
    caller's, apart from the three it writes: every other name maps to what
    it mapped to; a date the caller gave under the name [date] is kept, and
    otherwise the clock (or the test time) is written there; with a body,
    [digest] holds the digest of that body, whatever the caller had put
    there; and [Signature] holds the header made from the signing key's id
    and its signature of the signing string. *)
Theorem sign_request_returns (P : Platform)
    (self : HttpSignatures.HTTPSignatureVerifier) (method path : string)
    (headers signed : PyDict.pydict string) (body : option Json.json)
    (username : option string) (i : Instant) :
  HttpSignatures.sign_request P self method path headers body username i
  = Ok signed ->
  (forall name, name <> "date" -> name <> "digest" -> name <> "Signature" ->
     PyDict.get signed name = PyDict.get headers name)
  /\ PyDict.get signed "date"
     = Some (match PyDict.get headers "date" with
             | Some date => date
             | None => delivery_date P self i
             end)
  /\ PyDict.get signed "digest"
     = match body with
       | Some body => Some (HttpSignatures._generate_digest P body)
       | None => PyDict.get headers "digest"
       end
  /\ exists key signing_string,
       HttpSignatures.signing_key self = Ok key
       /\ HttpSignatures._build_signing_string method path
            (headers_with_date_and_digest P self headers body i)
            HttpSignatures.headers_to_sign = Ok signing_string
       /\ PyDict.get signed "Signature"
          = Some (HttpSignatures.signature_header P (snd key)
                    (rsa_sign P (fst key) signing_string)).
Proof.
  rewrite sign_request_unfold.
  destruct (HttpSignatures._build_signing_string method path
              (headers_with_date_and_digest P self headers body i)
              HttpSignatures.headers_to_sign) as [s|e]; [|discriminate].
  destruct (HttpSignatures.signing_key self) as [key|e]; [|discriminate].
  cbn. intros [= <-].
  assert (Hdate : PyDict.get (headers_with_date_and_digest P self headers body i)
                    "date"
                  = Some (match PyDict.get headers "date" with
                          | Some date => date
                          | None => delivery_date P self i
                          end)).
  { unfold headers_with_date_and_digest, PyDict.mem.
    destruct body as [b|]; [rewrite get_set_other by discriminate|];
      (destruct (PyDict.get headers "date") as [d|] eqn:Hd;
       [exact Hd|apply get_set_same]). }
  split; [|split; [|split]].
  - intros name Hdate' Hdigest Hsig. rewrite get_set_other by assumption.
    unfold headers_with_date_and_digest.
    destruct body as [b|]; [rewrite get_set_other by assumption|];
      (destruct (PyDict.mem "date" headers);
       [reflexivity|now rewrite get_set_other by assumption]).
  - rewrite get_set_other by discriminate. exact Hdate.
  - rewrite get_set_other by discriminate. unfold headers_with_date_and_digest.
    destruct body as [b|]; [apply get_set_same|].
    destruct (PyDict.mem "date" headers);
      [reflexivity|now rewrite get_set_other by discriminate].
  - exists key, s. split; [reflexivity|]. split; [reflexivity|]. apply get_set_same.
Qed.

(** A request that comes with its own date and a digest of something
    else. *)
Lemma sign_request_returns_witness :
  let headers := [("Host", "example.com"); ("date", "yesterday");
                  ("digest", "SHA-256=stale"); ("X-Trace", "7")] in
  let signed :=
    match HttpSignatures.sign_request Toy.platform sample_verifier "POST" "/inbox"
            headers (Some sample_activity) None (at_utc 0 0) with
    | Ok signed => signed
    | Raise _ => []
    end in
  PyDict.get signed "X-Trace" = Some "7"
  /\ PyDict.get signed "date" = Some "yesterday"
  /\ PyDict.get signed "digest"
     = Some (HttpSignatures._generate_digest Toy.platform sample_activity).
Proof.
  cbv zeta.
  destruct (sign_request_returns Toy.platform sample_verifier "POST" "/inbox"
              [("Host", "example.com"); ("date", "yesterday");
               ("digest", "SHA-256=stale"); ("X-Trace", "7")]
              match HttpSignatures.sign_request Toy.platform sample_verifier "POST"
                      "/inbox"
                      [("Host", "example.com"); ("date", "yesterday");
                       ("digest", "SHA-256=stale"); ("X-Trace", "7")]
                      (Some sample_activity) None (at_utc 0 0) with
              | Ok signed => signed
              | Raise _ => []
              end
              (Some sample_activity) None (at_utc 0 0))
    as (Hother & Hdate & Hdigest & _).
  - vm_compute. reflexivity.
  - split; [|split].
    + rewrite Hother by discriminate. reflexivity.
    + rewrite Hdate. reflexivity.
    + rewrite Hdigest. reflexivity.
Defined.

(* ===================================================================== *)
(** * The delivery queue: enqueue, get_status and the schedule             *)
(* ===================================================================== *)

(** [enqueue] stores nothing and returns no id: the record it builds holds
    a member of [DeliveryStatus] and three [datetime] values, [json.dumps]
    raises on it before the store is reached, and the call ends in
    [QueueError], for every activity, recipient list and priority. *)
Theorem enqueue_always_raises (redis : Queue.Redis) (stamp : string)
    (activity recipients : Json.json) (priority : Z) (i : Instant) :
  QueueApi.enqueue redis stamp activity recipients priority i
  = (redis, Raise QueueError).
Proof.
  unfold QueueApi.enqueue.
  rewrite (to_json_status (QueueApi.new_delivery stamp activity recipients i)
             Queue.PENDING eq_refl).
  reflexivity.
Qed.

(** What [_process_delivery] does to the store, exactly.  When the job has
    a record that can be read and whose attempt count [n - 1] can be
    incremented, the delivery returns a result with an empty success list,
    [n] is below [max_attempts] and the time [2^n] minutes after the clock
    ([backoff n] after [utcnow]) is a [datetime], the job's time in the
    schedule index is set to that time and nothing else changes.  In every other case (no record, an
    unreadable one, an exception of the delivery, a success, no attempt
    left, a time past the last [datetime]) the store is left as it was.
    The stored record never changes, so what [get_status] reports for any
    job is the same before and after. *)
Theorem process_delivery_only_reschedules (self : Queue.DeliveryQueue)
    (deliver_activity : Queue.pyval -> Queue.pyval -> result Delivery.DeliveryResult)
    (redis : Queue.Redis) (delivery_id : string) (i : Instant) :
  let redis' := Queue._process_delivery self deliver_activity redis delivery_id i in
  ((exists data delivery n result t,
      Queue.strings redis !! Queue.record_key delivery_id = Some data
      /\ Queue.from_json data = Ok delivery
      /\ Queue.incremented (Queue.attempts delivery) = Ok n
      /\ deliver_activity (Queue.activity delivery) (Queue.recipients delivery)
         = Ok result
      /\ Delivery.success result = []
      /\ n < Queue.max_attempts self
      /\ Queue.retry_time i n = Ok t
      /\ t = utcnow i + Queue.backoff n
      /\ redis' = Queue.zadd redis delivery_id (Queue.score_of i t))
   \/ (redis' = redis
       /\ forall data delivery n,
            Queue.strings redis !! Queue.record_key delivery_id = Some data ->
            Queue.from_json data = Ok delivery ->
            Queue.incremented (Queue.attempts delivery) = Ok n ->
            match deliver_activity (Queue.activity delivery)
                    (Queue.recipients delivery) with
            | Raise _ => True
            | Ok result =>
                Delivery.success result <> []
                \/ Queue.max_attempts self <= n
                \/ exists e, Queue.retry_time i n = Raise e
            end))
  /\ forall other, QueueApi.get_status redis' other = QueueApi.get_status redis other.
Proof.
  cbv zeta.
  match goal with |- ?A /\ _ => assert (Hfirst : A) end.
  { unfold Queue._process_delivery.
    destruct (Queue.strings redis !! Queue.record_key delivery_id) as [data|];
      [|right; split; [reflexivity|discriminate]].
    destruct (Queue.from_json data) as [d|] eqn:Hd.
    2:{ right. split; [reflexivity|]. intros ? ? ? [= <-]. congruence. }
    destruct (Queue.incremented (Queue.attempts d)) as [n|] eqn:Hn.
    2:{ right. split; [reflexivity|]. intros ? ? ? [= <-]. congruence. }
    pose proof (attempt_status self deliver_activity (Queue.started d n i) n
                  delivery_id redis i) as [s Hs].
    assert (Hstore :
      (exists result t,
         deliver_activity (Queue.activity d) (Queue.recipients d) = Ok result
         /\ Delivery.success result = []
         /\ n < Queue.max_attempts self /\ Queue.retry_time i n = Ok t
         /\ snd (Queue.attempt self deliver_activity (Queue.started d n i) n
                   delivery_id redis i)
            = Queue.zadd redis delivery_id (Queue.score_of i t))
      \/ (snd (Queue.attempt self deliver_activity (Queue.started d n i) n
                 delivery_id redis i) = redis
          /\ match deliver_activity (Queue.activity d) (Queue.recipients d) with
             | Raise _ => True
             | Ok result =>
                 Delivery.success result <> []
                 \/ Queue.max_attempts self <= n
                 \/ exists e, Queue.retry_time i n = Raise e
             end)).
    { unfold Queue.attempt. cbn [Queue.started Queue.activity Queue.recipients].
      destruct (deliver_activity _ _) as [result|e]; [|right; now split].
      destruct (Delivery.success result) eqn:Hsuccess;
        [|right; split; [reflexivity|left; discriminate]].
      destruct (Z.ltb_spec n (Queue.max_attempts self));
        [|right; split; [reflexivity|right; left; lia]].
      destruct (Queue.retry_time i n) as [t|e];
        [|right; split; [reflexivity|right; right; now exists e]].
      left. exists result, t. repeat split; auto. }
    destruct (Queue.attempt self deliver_activity (Queue.started d n i) n
                delivery_id redis i) as [d' redis'].
    cbn [fst snd] in Hs, Hstore. rewrite (to_json_status d' s Hs).
    destruct Hstore as [(result & t & Hres & Hsucc & Hlt & Ht & ->)|[-> Hwhy]].
    - left. exists data, d, n, result, t. repeat split; auto.
      unfold Queue.retry_time in Ht.
      destruct (_ <=? _) in Ht; [now injection Ht|discriminate].
    - right. split; [reflexivity|].
      intros data' d'' n' [= <-] Hd' Hn'.
      rewrite Hd in Hd'. injection Hd' as <-.
      rewrite Hn in Hn'. injection Hn' as <-. exact Hwhy. }
  split; [exact Hfirst|].
  intros other.
  destruct Hfirst
    as [(? & ? & ? & ? & ? & _ & _ & _ & _ & _ & _ & _ & _ & ->)|[-> _]];
    reflexivity.
Qed.

(** The job of [sample_store], whose record counts 4 attempts, is put 32
    minutes ahead by a failed attempt, and again 32 minutes ahead by the
    next one: the delay does not grow. *)
Example process_delivery_backoff_does_not_grow :
  let queue := {| Queue.max_attempts := 6; Queue.batch_size := 20 |} in
  let once := Queue._process_delivery queue failing_service sample_store "d1"
                (at_utc 0 0) in
  let twice := Queue._process_delivery queue failing_service once "d1"
                 (at_utc 0 (timedelta_minutes 32)) in
  Queue.delivery_queue once !! "d1" = Some (timedelta_minutes 32)
  /\ Queue.delivery_queue twice !! "d1" = Some (timedelta_minutes 64).
Proof. vm_compute. split; reflexivity. Qed.

(* ===================================================================== *)
(** * Serialisation: the order of keys, and camel case                     *)
(* ===================================================================== *)

Section SortedKeys.
Import Json.

Lemma ascii_compare_refl x : Ascii.compare x x = Eq.
Proof. unfold Ascii.compare. apply N.compare_refl. Qed.

Lemma ascii_compare_Lt_trans x y z :
  Ascii.compare x y = Lt -> Ascii.compare y z = Lt -> Ascii.compare x z = Lt.
Proof. unfold Ascii.compare. rewrite !N.compare_lt_iff. lia. Qed.

Lemma string_leb_trans : forall a b c,
  String.leb a b = true -> String.leb b c = true -> String.leb a c = true.
Proof.
  unfold String.leb.
  induction a as [|x a IH]; intros [|y b] [|z c]; simpl; try discriminate; auto.
  destruct (Ascii.compare x y) eqn:Hxy; try discriminate;
    destruct (Ascii.compare y z) eqn:Hyz; try discriminate; intros H1 H2.
  - apply Ascii.compare_eq_iff in Hxy, Hyz. subst.
    rewrite ascii_compare_refl. now apply (IH b c).
  - apply Ascii.compare_eq_iff in Hxy. subst. now rewrite Hyz.
  - apply Ascii.compare_eq_iff in Hyz. subst. now rewrite Hxy.
  - now rewrite (ascii_compare_Lt_trans x y z Hxy Hyz).
Qed.

Lemma string_leb_false a b : String.leb a b = false -> String.leb b a = true.
Proof. destruct (String.leb_total a b) as [->|H]; [discriminate|auto]. Qed.

(** Inserting two items with different keys gives the same list in either
    order. *)
Lemma insert_item_comm a b l :
  fst a <> fst b ->
  insert_item a (insert_item b l) = insert_item b (insert_item a l).
Proof.
  intros Hne. induction l as [|c l IH]; cbn [insert_item].
  - destruct (String.leb (fst a) (fst b)) eqn:Hab;
      destruct (String.leb (fst b) (fst a)) eqn:Hba; try reflexivity.
    + exfalso. apply Hne. now apply String.leb_antisym.
    + apply string_leb_false in Hab. congruence.
  - destruct (String.leb (fst b) (fst c)) eqn:Hbc;
      destruct (String.leb (fst a) (fst c)) eqn:Hac;
      cbn [insert_item]; rewrite ?Hbc, ?Hac.
    + destruct (String.leb (fst a) (fst b)) eqn:Hab;
        destruct (String.leb (fst b) (fst a)) eqn:Hba; try reflexivity.
      * exfalso. apply Hne. now apply String.leb_antisym.
      * apply string_leb_false in Hab. congruence.
    + destruct (String.leb (fst a) (fst b)) eqn:Hab; [|reflexivity].
      rewrite (string_leb_trans _ _ _ Hab Hbc) in Hac. discriminate.
    + destruct (String.leb (fst b) (fst a)) eqn:Hba; [|reflexivity].
      rewrite (string_leb_trans _ _ _ Hba Hac) in Hbc. discriminate.
    + now rewrite IH.
Qed.

Lemma sort_items_Permutation l l' :
  Permutation l l' -> List.NoDup (List.map fst l) -> sort_items l = sort_items l'.
Proof.
  unfold sort_items. induction 1 as [|x l l' Hperm IH|x y l|l l' l'' H1 IH1 H2 IH2];
    intros Hnd; cbn [fold_right List.map] in *.
  - reflexivity.
  - apply NoDup_cons_iff in Hnd as [_ Hnd]. now rewrite IH.
  - apply insert_item_comm. apply NoDup_cons_iff in Hnd as [Hnot _].
    intros Heq. apply Hnot. left. now symmetry.
  - rewrite IH1 by assumption. apply IH2.
    eapply Permutation_NoDup; [|exact Hnd]. now apply Permutation_map.
Qed.

End SortedKeys.

(** The serialisation that is digested does not depend on the order of
    the keys: two objects with the same items (under distinct keys), in
    whatever order they were inserted, have the same [to_json_string], and
    so the same digest. *)
Theorem to_json_string_ignores_key_order (P : Platform)
    (items items' : list (string * Json.json)) :
  List.NoDup (List.map fst items) ->
  Permutation items items' ->
  Json.to_json_string (Json.JDict items) = Json.to_json_string (Json.JDict items')
  /\ HttpSignatures._generate_digest P (Json.JDict items)
     = HttpSignatures._generate_digest P (Json.JDict items').
Proof.
  intros Hnd Hperm.
  assert (Htext : Json.to_json_string (Json.JDict items)
                  = Json.to_json_string (Json.JDict items')).
  { unfold Json.to_json_string. cbn [Json.dumps]. do 4 f_equal.
    apply sort_items_Permutation.
    - now apply Permutation_map.
    - rewrite List.map_map.
      erewrite List.map_ext; [exact Hnd|]. now intros [k v]. }
  split; [exact Htext|]. unfold HttpSignatures._generate_digest. now rewrite Htext.
Qed.

Lemma to_json_string_ignores_key_order_witness :
  Json.to_json_string
    (Json.JDict [("type", Json.JStr "Note"); ("id", Json.JInt 1)])
  = Json.to_json_string
      (Json.JDict [("id", Json.JInt 1); ("type", Json.JStr "Note")])
  /\ HttpSignatures._generate_digest Toy.platform
       (Json.JDict [("type", Json.JStr "Note"); ("id", Json.JInt 1)])
     = HttpSignatures._generate_digest Toy.platform
         (Json.JDict [("id", Json.JInt 1); ("type", Json.JStr "Note")]).
Proof.
  apply (to_json_string_ignores_key_order Toy.platform
           [("type", Json.JStr "Note"); ("id", Json.JInt 1)]
           [("id", Json.JInt 1); ("type", Json.JStr "Note")]).
  - repeat constructor; cbn; intuition discriminate.
  - apply perm_swap.
Defined.

Section CamelCase.
Import Serializer.

(** The components of [s.split(c)] do not hold [c]. *)
Lemma split_on_components c s :
  Forall (fun p => PyStr.contains c p = false) (PyStr.split_on c s).
Proof.
  induction s as [|a s IH]; cbn [PyStr.split_on]; [repeat constructor|].
  destruct (Ascii.eqb a c) eqn:Hac; [constructor; [reflexivity|exact IH]|].
  destruct (PyStr.split_on c s) as [|h t]; [repeat constructor; cbn; now rewrite Hac|].
  apply Forall_cons in IH as [Hh Ht]. constructor; [|exact Ht].
  cbn. now rewrite Hac, Hh.
Qed.

Lemma split_on_not_nil c s : PyStr.split_on c s <> [].
Proof.
  destruct s as [|a s]; cbn; [discriminate|].
  destruct (Ascii.eqb a c); [discriminate|].
  destruct (PyStr.split_on c s); discriminate.
Qed.

(** Changing the case of a letter neither makes nor unmakes an
    underscore. *)
Lemma case_keeps_underscore c :
  (is_lower c = true ->
   Ascii.eqb c "_" = false /\ Ascii.eqb (upper_char c) "_" = false)
  /\ (is_upper c = true ->
      Ascii.eqb c "_" = false /\ Ascii.eqb (PyStr.lower_char c) "_" = false).
Proof.
  destruct c as [[] [] [] [] [] [] [] []]; vm_compute;
    split; intros H; try discriminate H; split; reflexivity.
Qed.

Lemma contains_title_go s : forall previous_is_cased,
  PyStr.contains "_" (title_go previous_is_cased s) = PyStr.contains "_" s.
Proof.
  induction s as [|c s IH]; intros b; cbn [title_go PyStr.contains]; [reflexivity|].
  destruct (case_keeps_underscore c) as [Hlow Hup].
  destruct (is_lower c).
  - destruct (Hlow eq_refl) as [Hc Hu]. cbn [PyStr.contains].
    rewrite IH, Hc. destruct b; [now rewrite Hc|now rewrite Hu].
  - destruct (is_upper c).
    + destruct (Hup eq_refl) as [Hc Hl]. cbn [PyStr.contains].
      rewrite IH, Hc. destruct b; [now rewrite Hl|now rewrite Hc].
    + cbn [PyStr.contains]. now rewrite IH.
Qed.

Lemma contains_join_titles c parts :
  (forall p, PyStr.contains c (title p) = PyStr.contains c p) ->
  Forall (fun p => PyStr.contains c p = false) parts ->
  PyStr.contains c (PyStr.join EmptyString (List.map title parts)) = false.
Proof.
  intros Htitle. induction parts as [|p parts IH]; intros Hall; [reflexivity|].
  apply Forall_cons in Hall as [Hp Hall].
  destruct parts as [|q parts]; cbn [List.map PyStr.join].
  - now rewrite Htitle.
  - rewrite contains_app, Htitle, Hp. cbn [orb String.append].
    exact (IH Hall).
Qed.

Lemma append_empty_r s : s +:+ EmptyString = s.
Proof.
  induction s as [|c s IH]; [reflexivity|].
  change (String c s +:+ EmptyString) with (String c (s +:+ EmptyString)).
  now rewrite IH.
Qed.

Lemma to_camel_case_no_underscore s :
  PyStr.contains "_" (to_camel_case s) = false.
Proof.
  unfold to_camel_case. pose proof (split_on_components "_" s) as Hall.
  destruct (PyStr.split_on "_" s) as [|first rest]; [reflexivity|].
  apply Forall_cons in Hall as [Hfirst Hrest].
  rewrite contains_app, Hfirst. cbn [orb].
  apply contains_join_titles; [|exact Hrest].
  intros p. apply contains_title_go.
Qed.

Lemma to_camel_case_fixed s :
  PyStr.contains "_" s = false -> to_camel_case s = s.
Proof.
  intros Hfree. unfold to_camel_case. rewrite (split_on_free "_" s Hfree).
  cbn. apply append_empty_r.
Qed.

End CamelCase.

(** [to_camel_case] takes every underscore out of an ASCII name, leaves a
    name without underscores as it is, and so changes nothing when it is
    applied a second time. *)
Theorem to_camel_case_idempotent (snake_str : string) :
  Serializer.is_ascii snake_str = true ->
  PyStr.contains "_" (Serializer.to_camel_case snake_str) = false
  /\ (PyStr.contains "_" snake_str = false ->
      Serializer.to_camel_case snake_str = snake_str)
  /\ Serializer.to_camel_case (Serializer.to_camel_case snake_str)
     = Serializer.to_camel_case snake_str.
Proof.
  intros _. split; [apply to_camel_case_no_underscore|].
  split; [apply to_camel_case_fixed|].
  apply to_camel_case_fixed, to_camel_case_no_underscore.
Qed.

Lemma to_camel_case_idempotent_witness :
  Serializer.to_camel_case "in_reply_to" = "inReplyTo"
  /\ PyStr.contains "_" (Serializer.to_camel_case "in_reply_to") = false
  /\ Serializer.to_camel_case (Serializer.to_camel_case "in_reply_to")
     = Serializer.to_camel_case "in_reply_to".
Proof.
  split; [vm_compute; reflexivity|].
  destruct (to_camel_case_idempotent "in_reply_to" eq_refl) as (Hfree & _ & Hidem).
  split; [exact Hfree|exact Hidem].
Defined.

(* ===================================================================== *)
(** * Rate limiting: the life of a stored state                            *)
(* ===================================================================== *)

(** A stored state lives as long as its cache entry, not as long as its
    window: once the entry's ttl has run out, the next check finds nothing,
    answers true and starts a new window with the full budget less one,
    whatever the state said and however far ahead its reset lay. *)
Theorem rate_limit_forgets_after_ttl (rl : RateLimit.RateLimiter) (d : string)
    (st : RateLimit.RateLimitState) (e : Z) (i : Instant) :
  0 < RateLimit.requests (RateLimit.default_limit rl) ->
  0 < RateLimit.period (RateLimit.default_limit rl) ->
  Cache.entries (RateLimit.cache rl) !! RateLimit.cache_key d = Some (st, e) ->
  e < utcnow i ->
  exists rl',
    RateLimit.check_rate_limit rl d i = (true, rl')
    /\ RateLimit.stored rl' d
       = Some {| RateLimit.remaining :=
                   RateLimit.requests (RateLimit.default_limit rl) - 1;
                 RateLimit.reset :=
                   now i + timedelta_seconds
                             (RateLimit.period (RateLimit.default_limit rl));
                 RateLimit.limit := RateLimit.requests (RateLimit.default_limit rl) |}.
Proof.
  intros Hreq Hper Hlk Hexp.
  unfold RateLimit.check_rate_limit, RateLimit._get_state, Cache.get.
  rewrite Hlk. destruct (Z.gtb_spec (utcnow i) e); [|lia].
  cbn [RateLimit.fresh_state RateLimit.reset RateLimit.remaining RateLimit.limit
       RateLimit.with_cache RateLimit.default_limit].
  destruct (Z.geb_spec (now i)
              (now i + timedelta_seconds
                         (RateLimit.period (RateLimit.default_limit rl))));
    [unfold timedelta_seconds in *; lia|].
  destruct (Z.leb_spec (RateLimit.requests (RateLimit.default_limit rl)) 0); [lia|].
  eexists. split; [reflexivity|].
  unfold RateLimit.stored. cbn. rewrite lookup_insert_eq. reflexivity.
Qed.

(** A server announced that no request is left for two hours; with the
    default ttl of an hour, the domain is served again after an hour and a
    second. *)
Lemma rate_limit_forgets_after_ttl_witness :
  let rl := RateLimit.run (RateLimit.new None RateLimit.SLIDING_WINDOW 3600)
              [RateLimit.Update "example.com"
                 [("X-RateLimit-Remaining", "0"); ("X-RateLimit-Reset", "7200");
                  ("X-RateLimit-Limit", "100")] (at_utc 0 0)] in
  exists rl',
    RateLimit.check_rate_limit rl "example.com" (at_utc 0 (timedelta_seconds 3601))
      = (true, rl')
    /\ RateLimit.stored rl' "example.com"
       = Some {| RateLimit.remaining := 100 - 1;
                 RateLimit.reset := timedelta_seconds 3601 + 0 + timedelta_seconds 60;
                 RateLimit.limit := 100 |}.
Proof.
  apply (rate_limit_forgets_after_ttl
           (RateLimit.run (RateLimit.new None RateLimit.SLIDING_WINDOW 3600)
              [RateLimit.Update "example.com"
                 [("X-RateLimit-Remaining", "0"); ("X-RateLimit-Reset", "7200");
                  ("X-RateLimit-Limit", "100")] (at_utc 0 0)])
           "example.com"
           {| RateLimit.remaining := 0; RateLimit.reset := timedelta_seconds 7200;
              RateLimit.limit := 100 |}
           (timedelta_seconds 3600) (at_utc 0 (timedelta_seconds 3601))).
  - vm_compute. reflexivity.
  - vm_compute. reflexivity.
  - vm_compute. reflexivity.
  - vm_compute. reflexivity.
Defined.

(* ===================================================================== *)
(** * Key management: two keys of one second                               *)
(* ===================================================================== *)

Lemma del_absent {V : Type} (d : PyDict.pydict V) k :
  ~ In k (PyDict.keys d) -> PyDict.del d k = d.
Proof.
  unfold PyDict.keys. induction d as [|[k0 v0] d IH]; cbn; [reflexivity|].
  intros Hnot. destruct (String.eqb_spec k0 k) as [->|_]; [tauto|].
  f_equal. apply IH. tauto.
Qed.

Lemma length_set_present {V : Type} (d : PyDict.pydict V) k v :
  List.NoDup (PyDict.keys d) -> In k (PyDict.keys d) ->
  length (PyDict.set d k v) = length d.
Proof.
  unfold PyDict.keys. induction d as [|[k0 v0] d IH]; cbn; [tauto|].
  intros Hnd Hin. apply NoDup_cons_iff in Hnd as [Hnot Hnd].
  destruct (String.eqb_spec k0 k) as [->|Hne]; cbn.
  - now rewrite del_absent.
  - f_equal. apply IH; [exact Hnd|]. destruct Hin; [contradiction|assumption].
Qed.

(** The id of a key is made of the second it was generated in, so that two
    keys generated within one second have the same id: the second takes
    the place of the first in the active set, which does not grow, and
    the id resolves to the second key alone. *)
Theorem generate_key_pair_same_second (P : Platform)
    (km km1 km2 : KeyManagement.KeyManager) (env1 env2 : KeyManagement.GenEnv)
    (pair1 pair2 : KeyManagement.KeyPair) :
  List.NoDup (PyDict.keys (KeyManagement.active_keys km)) ->
  KeyManagement.generate_key_pair P km env1 = (km1, Ok pair1) ->
  KeyManagement.generate_key_pair P km1 env2 = (km2, Ok pair2) ->
  KeyManagement.timestamp_of (KeyManagement.gen_clock env1)
  = KeyManagement.timestamp_of (KeyManagement.gen_clock env2) ->
  KeyManagement.key_id pair1 = KeyManagement.key_id pair2
  /\ length (KeyManagement.active_keys km2) = length (KeyManagement.active_keys km1)
  /\ forall k,
       In (KeyManagement.key_id pair1, k) (KeyManagement.active_keys km2) ->
       k = pair2.
Proof.
  intros Hnd H1 H2 Hsame.
  unfold KeyManagement.generate_key_pair in H1, H2.
  destruct (KeyManagement.gen_private env1) as [priv1|]; [|discriminate].
  destruct (KeyManagement.gen_save_ok env1); [|discriminate].
  injection H1 as <- <-.
  destruct (KeyManagement.gen_private env2) as [priv2|]; [|discriminate].
  destruct (KeyManagement.gen_save_ok env2); [|discriminate].
  injection H2 as <- <-.
  cbn [KeyManagement.active_keys KeyManagement.with_active_keys
       KeyManagement.make_pair KeyManagement.key_id KeyManagement.domain].
  assert (Hid : KeyManagement.make_key_id (KeyManagement.domain km)
                  (KeyManagement.gen_clock env1)
                = KeyManagement.make_key_id (KeyManagement.domain km)
                    (KeyManagement.gen_clock env2)).
  { unfold KeyManagement.make_key_id. now rewrite Hsame. }
  set (d1 := PyDict.set (KeyManagement.active_keys km) _ _).
  assert (Hnd1 : List.NoDup (PyDict.keys d1)) by now apply NoDup_keys_set.
  split; [exact Hid|]. split.
  - apply length_set_present; [exact Hnd1|].
    rewrite <- Hid. unfold d1, PyDict.keys. apply List.in_map_iff.
    eexists. split; [|apply set_In]. reflexivity.
  - intros k Hin. rewrite Hid in Hin.
    apply In_set in Hin as [[_ ->]|[Hne _]]; [reflexivity|].
    exfalso. now apply Hne.
Qed.

(** Two rotations within the second 40 days after time 0. *)
Lemma generate_key_pair_same_second_witness :
  let gen priv us :=
    {| KeyManagement.gen_clock := at_utc 0 (timedelta_days 40 + us);
       KeyManagement.gen_private := Ok priv;
       KeyManagement.gen_save_ok := true |} in
  let km1 := fst (KeyManagement.generate_key_pair Toy.platform sample_manager
                    (gen "second" 1)) in
  let km2 := fst (KeyManagement.generate_key_pair Toy.platform km1
                    (gen "third" 999999)) in
  length (KeyManagement.active_keys km2) = length (KeyManagement.active_keys km1)
  /\ KeyManagement.get_active_private_key km2 = Ok "third".
Proof.
  cbv zeta. split; [|vm_compute; reflexivity].
  set (gen1 := {| KeyManagement.gen_clock := at_utc 0 (timedelta_days 40 + 1);
                  KeyManagement.gen_private := Ok "second";
                  KeyManagement.gen_save_ok := true |}).
  set (gen2 := {| KeyManagement.gen_clock := at_utc 0 (timedelta_days 40 + 999999);
                  KeyManagement.gen_private := Ok "third";
                  KeyManagement.gen_save_ok := true |}).
  destruct (generate_key_pair_same_second Toy.platform sample_manager
              (fst (KeyManagement.generate_key_pair Toy.platform sample_manager gen1))
              (fst (KeyManagement.generate_key_pair Toy.platform
                      (fst (KeyManagement.generate_key_pair Toy.platform
                              sample_manager gen1)) gen2))
              gen1 gen2
              (KeyManagement.make_pair Toy.platform sample_manager
                 (KeyManagement.gen_clock gen1) "second")
              (KeyManagement.make_pair Toy.platform sample_manager
                 (KeyManagement.gen_clock gen2) "third"))
    as (_ & Hlen & _).
  - repeat constructor. intros [].
  - vm_compute. reflexivity.
  - vm_compute. reflexivity.
  - vm_compute. reflexivity.
  - exact Hlen.
Defined.

(* ===================================================================== *)
(** * HTTP signatures: the key a request is signed with                    *)
(* ===================================================================== *)

(** The key id in a Signature header names the key that signed: with a
    key manager, [sign_request] asks it twice, once for the private key and
    once for the active key whose id it writes, and both answers come from
    one key of the active set, the first of those created last.  Without
    an active key there is nothing to sign with. *)
Theorem signing_key_names_the_signing_key
    (self : HttpSignatures.HTTPSignatureVerifier) (km : KeyManagement.KeyManager) :
  HttpSignatures.key_manager self = Some km ->
  (KeyManagement.active_keys km = [] ->
   HttpSignatures.signing_key self = Raise KeyManagementError)
  /\ (forall key,
        HttpSignatures.signing_key self = Ok key ->
        exists kid k,
          In (kid, k) (KeyManagement.active_keys km)
          /\ KeyManagement.private_key k = fst key
          /\ KeyManagement.key_id k = snd key
          /\ forall kid' k',
               In (kid', k') (KeyManagement.active_keys km) ->
               KeyManagement.created_at k' <= KeyManagement.created_at k).
Proof.
  intros Hkm. unfold HttpSignatures.signing_key. rewrite Hkm.
  unfold KeyManagement.get_active_private_key, KeyManagement.get_active_key.
  split.
  - intros ->. reflexivity.
  - intros key. destruct (PyDict.values (KeyManagement.active_keys km))
      as [|k0 ks] eqn:Hvals; [discriminate|].
    cbn. intros [= <-]. cbn [fst snd].
    pose proof (max_by_In KeyManagement.created_at ks k0) as Hin.
    rewrite <- Hvals in Hin. unfold PyDict.values in Hin.
    apply List.in_map_iff in Hin as ([kid k] & Hk & Hin). cbn in Hk.
    exists kid, k. rewrite <- Hk. repeat split; [exact Hin|].
    intros kid' k' Hin'. rewrite Hk. apply max_by_ge. rewrite <- Hvals.
    unfold PyDict.values. apply List.in_map_iff. now exists (kid', k').
Qed.

(** After the rotation of day 31 the requests of [sample_manager] are
    signed with the second key, under its id. *)
Lemma signing_key_names_the_signing_key_witness :
  let km := fst (KeyManagement.rotate_keys Toy.platform sample_manager
                   sample_rotation) in
  let self := {| HttpSignatures.key_manager := Some km;
                 HttpSignatures.private_key := None;
                 HttpSignatures.public_key := None;
                 HttpSignatures.key_id := None;
                 HttpSignatures._test_now := None |} in
  HttpSignatures.signing_key self = Ok ("second", "https://example.com/keys/2678400")
  /\ exists kid k,
       In (kid, k) (KeyManagement.active_keys km)
       /\ KeyManagement.private_key k = "second"
       /\ KeyManagement.key_id k = "https://example.com/keys/2678400".
Proof.
  cbv zeta. split; [vm_compute; reflexivity|].
  destruct (signing_key_names_the_signing_key
              {| HttpSignatures.key_manager :=
                   Some (fst (KeyManagement.rotate_keys Toy.platform sample_manager
                                sample_rotation));
                 HttpSignatures.private_key := None;
                 HttpSignatures.public_key := None;
                 HttpSignatures.key_id := None;
                 HttpSignatures._test_now := None |}
              (fst (KeyManagement.rotate_keys Toy.platform sample_manager
                      sample_rotation))
              eq_refl) as [_ Hkey].
  destruct (Hkey ("second", "https://example.com/keys/2678400"))
    as (kid & k & Hin & Hpriv & Hid & _).
  - vm_compute. reflexivity.
  - exists kid, k. auto.
Defined.
